(** * containerregistry: the v2.2 registry HTTP transport

    A shallow embedding of [client/v2_2/docker_http_.py]: the diagnostic
    model, the scheme resolver, the link header parser and the [Transport]
    class (ping, token refresh, request with one retry, pagination),
    followed by the properties established about them.

    Conventions of the embedding.
    - The semantics is that of Python 3: a body is a byte string or a text,
      and only a byte string can be decoded.
    - Python text and byte strings are [string]s of 8-bit characters.  Text
      is held in its UTF-8 form, a lone surrogate in its three-byte form.
      The classes [\s] and [\d] of a pattern are those of Unicode, as [re]
      has them on text; case mapping acts on the ASCII range and carries
      every other character through unchanged.
    - A Python object whose attributes are assigned one after the other is a
      record of [option] fields: [None] is an attribute that was never
      assigned, and reading it raises [AttributeError].
    - A function that can raise returns [Exception + A]; messages of
      exceptions are not modelled, their class and payload are.
    - The underlying HTTP client is an oracle that answers every call from
      the calls issued before it; the log of calls is the state threaded
      through the transport.  Calls are sequential: the lock that guards
      the assignment of the credential is not modelled. *)

From Stdlib Require Import Bool Arith ZArith NArith Lia List.
From Stdlib Require Import Ascii String.
Import ListNotations.

Local Open Scope string_scope.
Local Open Scope Z_scope.

(** ** Python text primitives *)

Module Py.

Definition code (c : ascii) : N := N_of_ascii c.

Definition is_upper (c : ascii) : bool := (65 <=? code c)%N && (code c <=? 90)%N.
Definition is_lower (c : ascii) : bool := (97 <=? code c)%N && (code c <=? 122)%N.
Definition is_digit (c : ascii) : bool := (48 <=? code c)%N && (code c <=? 57)%N.

Definition is_alnum (c : ascii) : bool := is_upper c || is_lower c || is_digit c.

Definition upper_char (c : ascii) : ascii :=
  if is_lower c then ascii_of_N (code c - 32) else c.

Definition lower_char (c : ascii) : ascii :=
  if is_upper c then ascii_of_N (code c + 32) else c.

Fixpoint lower (s : string) : string :=
  match s with
  | EmptyString => EmptyString
  | String c s' => String (lower_char c) (lower s')
  end.

(** [str.capitalize()]: first character upper-cased, the rest lower-cased. *)
Definition capitalize (s : string) : string :=
  match s with
  | EmptyString => EmptyString
  | String c s' => String (upper_char c) (lower s')
  end.

(** [c in s] for a one-character [c]. *)
Fixpoint contains_char (c : ascii) (s : string) : bool :=
  match s with
  | EmptyString => false
  | String x s' => Ascii.eqb x c || contains_char c s'
  end.

(** [s.split(sep, 1)] when [sep] occurs in [s]: the text before the first
    separator and the text after it. *)
Fixpoint split_once (sep : ascii) (s : string) : option (string * string) :=
  match s with
  | EmptyString => None
  | String x s' =>
      if Ascii.eqb x sep then Some (EmptyString, s')
      else match split_once sep s' with
           | Some (a, b) => Some (String x a, b)
           | None => None
           end
  end.

(** [s.split(sep)]: always at least one piece. *)
Fixpoint split (sep : ascii) (s : string) : list string :=
  match s with
  | EmptyString => [EmptyString]
  | String x s' =>
      if Ascii.eqb x sep then EmptyString :: split sep s'
      else match split sep s' with
           | piece :: rest => String x piece :: rest
           | [] => [String x EmptyString]
           end
  end.

(** [s.startswith(p)]. *)
Fixpoint startswith (p s : string) : bool :=
  match p with
  | EmptyString => true
  | String a p' =>
      match s with
      | EmptyString => false
      | String b s' => Ascii.eqb a b && startswith p' s'
      end
  end.

(** [s[n:]]. *)
Fixpoint drop (n : nat) (s : string) : string :=
  match n with
  | O => s
  | S n' => match s with
            | EmptyString => EmptyString
            | String _ s' => drop n' s'
            end
  end.

Fixpoint lstrip (c : ascii) (s : string) : string :=
  match s with
  | EmptyString => EmptyString
  | String x s' => if Ascii.eqb x c then lstrip c s' else s
  end.

Fixpoint rstrip (c : ascii) (s : string) : string :=
  match s with
  | EmptyString => EmptyString
  | String x s' =>
      match rstrip c s' with
      | EmptyString => if Ascii.eqb x c then EmptyString else String x EmptyString
      | r => String x r
      end
  end.

(** [s.strip(c)] for a one-character set. *)
Definition strip (c : ascii) (s : string) : string := rstrip c (lstrip c s).

(** [sep.join(l)]. *)
Fixpoint join (sep : string) (l : list string) : string :=
  match l with
  | [] => EmptyString
  | [x] => x
  | x :: rest => x ++ sep ++ join sep rest
  end.

(** Truth value of a text: non-empty. *)
Definition nonempty (s : string) : bool :=
  match s with EmptyString => false | _ => true end.

(** [x in l] for a list of texts. *)
Definition in_strings (x : string) (l : list string) : bool :=
  existsb (String.eqb x) l.

End Py.

(** ** Python values

    The values that [json.loads] produces, and byte strings, which reach a
    diagnostic when a body is not valid UTF-8.  A float is kept as the
    literal it was read from; a dict keeps its keys in insertion order. *)

#[warnings="-register-all"]
Inductive value : Type :=
| PNone
| PBool (b : bool)
| PInt (z : Z)
| PFloat (literal : string)
| PStr (s : string)
| PBytes (b : string)
| PList (l : list value)
| PDict (d : list (string * value)).

(** [d.get(k)] *)
Fixpoint dict_get (d : list (string * value)) (k : string) : option value :=
  match d with
  | [] => None
  | (k', v) :: d' => if String.eqb k' k then Some v else dict_get d' k
  end.

(** [d[k] = v]: an existing key keeps its place. *)
Fixpoint dict_set (k : string) (v : value) (d : list (string * value))
  : list (string * value) :=
  match d with
  | [] => [(k, v)]
  | (k', v') :: d' =>
      if String.eqb k' k then (k, v) :: d' else (k', v') :: dict_set k v d'
  end.

Module Float.

(** Whether a float literal denotes a non-zero double.  The literal
    [m * 10^e] rounds to zero exactly when it is at most [2^-1075]. *)

Fixpoint digits_value (acc : N) (s : string) : N :=
  match s with
  | EmptyString => acc
  | String c s' => digits_value (10 * acc + (Py.code c - 48))%N s'
  end.

Fixpoint take_digits (s : string) : string * string :=
  match s with
  | EmptyString => (EmptyString, EmptyString)
  | String c s' =>
      if Py.is_digit c
      then let (d, r) := take_digits s' in (String c d, r)
      else (EmptyString, s)
  end.

Definition exponent (s : string) : Z :=
  match s with
  | String _ (String "-" r) => - Z.of_N (digits_value 0 r)
  | String _ (String "+" r) => Z.of_N (digits_value 0 r)
  | String _ r => Z.of_N (digits_value 0 r)
  | EmptyString => 0
  end.

Definition nonzero (literal : string) : bool :=
  if String.eqb literal "NaN" || String.eqb literal "Infinity"
     || String.eqb literal "-Infinity"
  then true
  else
    let body := match literal with String "-" r => r | _ => literal end in
    let (ip, r1) := take_digits body in
    let (fp, r2) := match r1 with
                    | String "." r => take_digits r
                    | _ => (EmptyString, r1)
                    end in
    let m := digits_value 0 (ip ++ fp) in
    let e := exponent r2 - Z.of_nat (String.length fp) in
    if (m =? 0)%N then false
    else if 0 <=? e then true
    else negb (Z.of_N m * 2 ^ 1075 <=? 10 ^ (- e)).

End Float.

(** Truth value of a Python value, as [if v], [not v] and [a or b] use it. *)
Definition truthy (v : value) : bool :=
  match v with
  | PNone => false
  | PBool b => b
  | PInt z => negb (z =? 0)
  | PFloat literal => Float.nonzero literal
  | PStr s => Py.nonempty s
  | PBytes b => Py.nonempty b
  | PList l => match l with [] => false | _ => true end
  | PDict d => match d with [] => false | _ => true end
  end.

(** ** UTF-8 *)

Module Utf8.

Definition cont (c : ascii) : bool :=
  (128 <=? Py.code c)%N && (Py.code c <=? 191)%N.

Definition between (lo hi : N) (c : ascii) : bool :=
  (lo <=? Py.code c)%N && (Py.code c <=? hi)%N.

(** Strict validity, as [bytes.decode('utf8')] checks it: shortest forms
    only, no surrogates, nothing above U+10FFFF. *)
Fixpoint valid_from (fuel : nat) (s : string) : bool :=
  match fuel with
  | O => match s with EmptyString => true | _ => false end
  | S f =>
      match s with
      | EmptyString => true
      | String a r =>
          if (Py.code a <=? 127)%N then valid_from f r
          else if between 194 223 a then
            match r with
            | String b r' => cont b && valid_from f r'
            | _ => false
            end
          else if between 224 239 a then
            match r with
            | String b (String c r') =>
                (if (Py.code a =? 224)%N then between 160 191 b
                 else if (Py.code a =? 237)%N then between 128 159 b
                 else cont b)
                && cont c && valid_from f r'
            | _ => false
            end
          else if between 240 244 a then
            match r with
            | String b (String c (String d r')) =>
                (if (Py.code a =? 240)%N then between 144 191 b
                 else if (Py.code a =? 244)%N then between 128 143 b
                 else cont b)
                && cont c && cont d && valid_from f r'
            | _ => false
            end
          else false
      end
  end.

Definition valid (s : string) : bool := valid_from (String.length s) s.

Definition byte (n : N) : ascii := ascii_of_N n.

(** The UTF-8 form of a code point; a lone surrogate takes the three-byte
    form, so that every Python text has exactly one representation. *)
Definition encode (n : N) : string :=
  if (n <? 128)%N then String (byte n) EmptyString
  else if (n <? 2048)%N then
    String (byte (192 + n / 64)) (String (byte (128 + n mod 64)) EmptyString)
  else if (n <? 65536)%N then
    String (byte (224 + n / 4096))
      (String (byte (128 + (n / 64) mod 64))
         (String (byte (128 + n mod 64)) EmptyString))
  else
    String (byte (240 + n / 262144))
      (String (byte (128 + (n / 4096) mod 64))
         (String (byte (128 + (n / 64) mod 64))
            (String (byte (128 + n mod 64)) EmptyString))).

(** The first character of a text in UTF-8 form: its code point, its bytes
    and what follows.  Shortest forms only and nothing above U+10FFFF, but
    a surrogate in its three-byte form is a character. *)
Definition take (s : string) : option (N * string * string) :=
  match s with
  | EmptyString => None
  | String a r =>
      let x := Py.code a in
      if (x <? 128)%N then Some (x, String a EmptyString, r)
      else if between 194 223 a then
        match r with
        | String b r' =>
            if cont b
            then Some (((x - 192) * 64 + (Py.code b - 128))%N,
                       String a (String b EmptyString), r')
            else None
        | _ => None
        end
      else if between 224 239 a then
        match r with
        | String b (String c r') =>
            if (if (x =? 224)%N then between 160 191 b else cont b) && cont c
            then Some (((x - 224) * 4096 + (Py.code b - 128) * 64
                        + (Py.code c - 128))%N,
                       String a (String b (String c EmptyString)), r')
            else None
        | _ => None
        end
      else if between 240 244 a then
        match r with
        | String b (String c (String d r')) =>
            if (if (x =? 240)%N then between 144 191 b
                else if (x =? 244)%N then between 128 143 b
                else cont b)
               && cont c && cont d
            then Some (((x - 240) * 262144 + (Py.code b - 128) * 4096
                        + (Py.code c - 128) * 64 + (Py.code d - 128))%N,
                       String a (String b (String c (String d EmptyString))), r')
            else None
        | _ => None
        end
      else None
  end.

(** Validity when surrogates are let through, as decoding with the
    [surrogatepass] handler checks it. *)
Fixpoint passes (fuel : nat) (s : string) : bool :=
  match s with
  | EmptyString => true
  | _ =>
      match fuel with
      | O => false
      | S f =>
          match take s with
          | Some (_, _, rest) => passes f rest
          | None => false
          end
      end
  end.

End Utf8.

(** ** The encodings of a JSON document

    [json.loads] on a byte string: [json.detect_encoding], then decoding
    with the [surrogatepass] error handler.  The result is the text in its
    UTF-8 form, or [None] for a [UnicodeDecodeError]. *)

Module Codec.

Definition is_high (n : N) : bool := (55296 <=? n)%N && (n <=? 56319)%N.
Definition is_low (n : N) : bool := (56320 <=? n)%N && (n <=? 57343)%N.

(** The code units of UTF-16 data; [None] when a byte is left over. *)
Fixpoint units16 (big : bool) (s : string) : option (list N) :=
  match s with
  | EmptyString => Some []
  | String _ EmptyString => None
  | String a (String b r) =>
      match units16 big r with
      | Some l =>
          Some ((if big then Py.code a * 256 + Py.code b
                 else Py.code b * 256 + Py.code a)%N :: l)
      | None => None
      end
  end.

(** A high surrogate followed by a low one is one code point; any other
    surrogate passes as it is. *)
Fixpoint pair_surrogates (units : list N) : list N :=
  match units with
  | [] => []
  | u :: rest =>
      match rest with
      | v :: rest' =>
          if is_high u && is_low v
          then (65536 + (u - 55296) * 1024 + (v - 56320))%N :: pair_surrogates rest'
          else u :: pair_surrogates rest
      | [] => [u]
      end
  end.

(** The code points of UTF-32 data; [None] when bytes are left over or a
    value is above U+10FFFF. *)
Fixpoint units32 (big : bool) (s : string) : option (list N) :=
  match s with
  | EmptyString => Some []
  | String a (String b (String c (String d r))) =>
      let n := (if big
                then ((Py.code a * 256 + Py.code b) * 256 + Py.code c) * 256 + Py.code d
                else ((Py.code d * 256 + Py.code c) * 256 + Py.code b) * 256 + Py.code a)%N in
      if (n <=? 1114111)%N then
        match units32 big r with
        | Some l => Some (n :: l)
        | None => None
        end
      else None
  | _ => None
  end.

Fixpoint text_of (points : list N) : string :=
  match points with
  | [] => EmptyString
  | n :: rest => Utf8.encode n ++ text_of rest
  end.

Definition utf8 (s : string) : option string :=
  if Utf8.passes (String.length s) s then Some s else None.

Definition utf16 (big : bool) (s : string) : option string :=
  match units16 big s with
  | Some units => Some (text_of (pair_surrogates units))
  | None => None
  end.

Definition utf32 (big : bool) (s : string) : option string :=
  match units32 big s with
  | Some points => Some (text_of points)
  | None => None
  end.

Definition bytes (l : list N) : string :=
  string_of_list_ascii (map ascii_of_N l).

Definition zero (c : ascii) : bool := (Py.code c =? 0)%N.

(** [s.decode(json.detect_encoding(s), 'surrogatepass')] *)
Definition decode_detected (s : string) : option string :=
  if Py.startswith (bytes [0; 0; 254; 255]%N) s then utf32 true (Py.drop 4 s)
  else if Py.startswith (bytes [255; 254; 0; 0]%N) s then utf32 false (Py.drop 4 s)
  else if Py.startswith (bytes [254; 255]%N) s then utf16 true (Py.drop 2 s)
  else if Py.startswith (bytes [255; 254]%N) s then utf16 false (Py.drop 2 s)
  else if Py.startswith (bytes [239; 187; 191]%N) s then utf8 (Py.drop 3 s)
  else
    match s with
    | String a (String b (String c (String d _))) =>
        if zero a then (if zero b then utf32 true s else utf16 true s)
        else if zero b then
          (if zero c && zero d then utf32 false s else utf16 false s)
        else utf8 s
    | String a (String b EmptyString) =>
        if zero a then utf16 true s
        else if zero b then utf16 false s
        else utf8 s
    | _ => utf8 s
    end.

End Codec.

(** ** [json.loads]

    The standard library's decoder, in its default (strict) mode: objects,
    arrays, texts with escapes, numbers, [true], [false], [null] and the
    three literals [NaN], [Infinity] and [-Infinity] that Python accepts.
    [None] stands for the [ValueError] the decoder raises. *)

Module Json.

Definition dquote : ascii := "034".
Definition backslash : ascii := "\".

Definition is_ws (c : ascii) : bool :=
  Ascii.eqb c " " || Ascii.eqb c "009" || Ascii.eqb c "010" || Ascii.eqb c "013".

Fixpoint skip_ws (s : string) : string :=
  match s with
  | EmptyString => EmptyString
  | String c s' => if is_ws c then skip_ws s' else s
  end.

Definition hex_value (c : ascii) : option N :=
  let n := Py.code c in
  if Py.is_digit c then Some (n - 48)%N
  else if (97 <=? n)%N && (n <=? 102)%N then Some (n - 87)%N
  else if (65 <=? n)%N && (n <=? 70)%N then Some (n - 55)%N
  else None.

(** The four hexadecimal digits of a [\u] escape. *)
Definition hex4 (s : string) : option (N * string) :=
  match s with
  | String a (String b (String c (String d r))) =>
      match hex_value a, hex_value b, hex_value c, hex_value d with
      | Some x, Some y, Some z, Some w =>
          Some (((x * 16 + y) * 16 + z) * 16 + w, r)%N
      | _, _, _, _ => None
      end
  | _ => None
  end.

Definition is_high_surrogate (n : N) : bool := (55296 <=? n)%N && (n <=? 56319)%N.
Definition is_low_surrogate (n : N) : bool := (56320 <=? n)%N && (n <=? 57343)%N.
Definition join_surrogates (hi lo : N) : N :=
  (65536 + (hi - 55296) * 1024 + (lo - 56320))%N.

Definition simple_escape (c : ascii) : option ascii :=
  if Ascii.eqb c dquote then Some dquote
  else if Ascii.eqb c backslash then Some backslash
  else if Ascii.eqb c "/" then Some "/"%char
  else if Ascii.eqb c "b" then Some "008"%char
  else if Ascii.eqb c "f" then Some "012"%char
  else if Ascii.eqb c "n" then Some "010"%char
  else if Ascii.eqb c "r" then Some "013"%char
  else if Ascii.eqb c "t" then Some "009"%char
  else None.

Definition prepend (p : string) (r : option (string * string))
  : option (string * string) :=
  match r with
  | Some (body, rest) => Some (p ++ body, rest)
  | None => None
  end.

(** The body of a text, from just after its opening quote: the decoded text
    and what follows the closing quote. *)
Fixpoint scanstring (fuel : nat) (s : string) : option (string * string) :=
  match fuel with
  | O => None
  | S f =>
      match s with
      | EmptyString => None
      | String c r =>
          if Ascii.eqb c dquote then Some (EmptyString, r)
          else if Ascii.eqb c backslash then
            match r with
            | EmptyString => None
            | String e r' =>
                if Ascii.eqb e "u" then
                  match hex4 r' with
                  | None => None
                  | Some (n, r2) =>
                      if is_high_surrogate n then
                        match r2 with
                        | String "\" (String "u" r3) =>
                            match hex4 r3 with
                            | None => None
                            | Some (n2, r4) =>
                                if is_low_surrogate n2
                                then prepend (Utf8.encode (join_surrogates n n2))
                                             (scanstring f r4)
                                else prepend (Utf8.encode n) (scanstring f r2)
                            end
                        | _ => prepend (Utf8.encode n) (scanstring f r2)
                        end
                      else prepend (Utf8.encode n) (scanstring f r2)
                  end
                else
                  match simple_escape e with
                  | Some x => prepend (String x EmptyString) (scanstring f r')
                  | None => None
                  end
            end
          else if (Py.code c <? 32)%N then None
          else prepend (String c EmptyString) (scanstring f r)
      end
  end.

Definition is_digit19 (c : ascii) : bool :=
  (49 <=? Py.code c)%N && (Py.code c <=? 57)%N.

(** A number: an optional minus sign, then [0] or a digit string without a
    leading zero, then an optional fraction (a dot and digits) and an
    optional exponent ([e] or [E], an optional sign, digits).  An integer
    when it has neither fraction nor exponent, a float otherwise. *)
Definition parse_number (s : string) : option (value * string) :=
  let (sign, r0) := match s with
                    | String "-" r => ("-", r)
                    | _ => (EmptyString, s)
                    end in
  let int_part :=
    match r0 with
    | String c r1 =>
        if Ascii.eqb c "0" then Some ("0", r1)
        else if is_digit19 c then Some (Float.take_digits r0)
        else None
    | EmptyString => None
    end in
  match int_part with
  | None => None
  | Some (ip, r1) =>
      let (frac, r2) :=
        match r1 with
        | String "." r =>
            let (fd, r') := Float.take_digits r in
            if Py.nonempty fd then ("." ++ fd, r') else (EmptyString, r1)
        | _ => (EmptyString, r1)
        end in
      let (exp, r3) :=
        match r2 with
        | String e r =>
            if Ascii.eqb e "e" || Ascii.eqb e "E" then
              let (sg, r') := match r with
                              | String "-" t => ("-", t)
                              | String "+" t => ("+", t)
                              | _ => (EmptyString, r)
                              end in
              let (ed, r'') := Float.take_digits r' in
              if Py.nonempty ed
              then (String e EmptyString ++ sg ++ ed, r'')
              else (EmptyString, r2)
            else (EmptyString, r2)
        | EmptyString => (EmptyString, r2)
        end in
      if Py.nonempty frac || Py.nonempty exp
      then Some (PFloat (sign ++ ip ++ frac ++ exp), r3)
      else
        let n := Z.of_N (Float.digits_value 0 ip) in
        Some (PInt (if Py.nonempty sign then - n else n), r3)
  end.

Definition literal (word : string) (v : value) (s : string)
  : option (value * string) :=
  if Py.startswith word s then Some (v, Py.drop (String.length word) s)
  else None.

Definition first_of {A} (a b : option A) : option A :=
  match a with Some _ => a | None => b end.

Definition parse_scalar (s : string) : option (value * string) :=
  first_of (literal "null" PNone s)
    (first_of (literal "true" (PBool true) s)
       (first_of (literal "false" (PBool false) s)
          (first_of (literal "NaN" (PFloat "NaN") s)
             (first_of (literal "Infinity" (PFloat "Infinity") s)
                (first_of (literal "-Infinity" (PFloat "-Infinity") s)
                   (parse_number s)))))).

Fixpoint parse_value (fuel : nat) (s : string) : option (value * string) :=
  match fuel with
  | O => None
  | S f =>
      match s with
      | EmptyString => None
      | String c r =>
          if Ascii.eqb c dquote then
            match scanstring (String.length r) r with
            | Some (text, r') => Some (PStr text, r')
            | None => None
            end
          else if Ascii.eqb c "{" then
            match skip_ws r with
            | String "}" r' => Some (PDict [], r')
            | r' => parse_members f r' []
            end
          else if Ascii.eqb c "[" then
            match skip_ws r with
            | String "]" r' => Some (PList [], r')
            | r' => parse_elements f r' []
            end
          else parse_scalar s
      end
  end

with parse_members (fuel : nat) (s : string) (acc : list (string * value))
  : option (value * string) :=
  match fuel with
  | O => None
  | S f =>
      match s with
      | String c r =>
          if Ascii.eqb c dquote then
            match scanstring (String.length r) r with
            | Some (key, r1) =>
                match skip_ws r1 with
                | String ":" r2 =>
                    match parse_value f (skip_ws r2) with
                    | Some (v, r3) =>
                        let acc' := dict_set key v acc in
                        match skip_ws r3 with
                        | String "," r4 => parse_members f (skip_ws r4) acc'
                        | String "}" r4 => Some (PDict acc', r4)
                        | _ => None
                        end
                    | None => None
                    end
                | _ => None
                end
            | None => None
            end
          else None
      | EmptyString => None
      end
  end

with parse_elements (fuel : nat) (s : string) (acc : list value)
  : option (value * string) :=
  match fuel with
  | O => None
  | S f =>
      match parse_value f s with
      | Some (v, r) =>
          match skip_ws r with
          | String "," r' => parse_elements f (skip_ws r') (acc ++ [v])
          | String "]" r' => Some (PList (acc ++ [v]), r')
          | _ => None
          end
      | None => None
      end
  end.

(** A whole document: one value between optional white space. *)
Definition loads_text (s : string) : option value :=
  match parse_value (S (String.length s)) (skip_ws s) with
  | Some (v, r) =>
      match skip_ws r with
      | EmptyString => Some v
      | _ => None
      end
  | None => None
  end.

End Json.

(** ** [re.match]

    A backtracking matcher for the fragment of Python's regular expressions
    that the two patterns of the source use, on texts.  Quantifiers are
    greedy and apply to character classes; the continuation receives the
    text matched so far, the contents of group 1 and the text that remains.

    The classes [\s] and [\d] are sets of code points and are matched
    character by character.  The dot is matched byte by byte: in a text in
    UTF-8 form a line feed is one byte and is part of no other character,
    and in both patterns what follows a repetition of the dot starts with
    an ASCII character, so that the cut falls between two characters. *)

Module Re.

Inductive regex : Type :=
| RChar (c : ascii)
| RText (t : string)
| RStar (cls : ascii -> bool)
| RPlus (cls : ascii -> bool)
| RSet (cls : N -> bool)
| RMany (cls : N -> bool)
| RUpTo (n : nat) (cls : N -> bool)
| ROpt (r : regex)
| RGroup (r : regex)
| RSeq (r1 r2 : regex)
| REnd.

(** [.] without DOTALL: anything but a line feed. *)
Definition dot (c : ascii) : bool := negb (Ascii.eqb c "010").

Definition in_ranges (ranges : list (N * N)) (n : N) : bool :=
  existsb (fun r => (fst r <=? n)%N && (n <=? snd r)%N) ranges.

(** [\s] on a text: the white space of Unicode, which is what
    [str.isspace] accepts. *)
Definition space : N -> bool :=
  in_ranges
    [(9, 13); (28, 32); (133, 133); (160, 160); (5760, 5760); (8192, 8202);
     (8232, 8233); (8239, 8239); (8287, 8287); (12288, 12288)]%N.

(** [\d] on a text: the decimal digits of Unicode (category Nd), here as
    of Unicode 14.0, the tables of CPython 3.11. *)
Definition digit : N -> bool :=
  in_ranges
    [(48, 57); (1632, 1641); (1776, 1785); (1984, 1993); (2406, 2415);
     (2534, 2543); (2662, 2671); (2790, 2799); (2918, 2927); (3046, 3055);
     (3174, 3183); (3302, 3311); (3430, 3439); (3558, 3567); (3664, 3673);
     (3792, 3801); (3872, 3881); (4160, 4169); (4240, 4249); (6112, 6121);
     (6160, 6169); (6470, 6479); (6608, 6617); (6784, 6793); (6800, 6809);
     (6992, 7001); (7088, 7097); (7232, 7241); (7248, 7257); (42528, 42537);
     (43216, 43225); (43264, 43273); (43472, 43481); (43504, 43513);
     (43600, 43609); (44016, 44025); (65296, 65305); (66720, 66729);
     (68912, 68921); (69734, 69743); (69872, 69881); (69942, 69951);
     (70096, 70105); (70384, 70393); (70736, 70745); (70864, 70873);
     (71248, 71257); (71360, 71369); (71472, 71481); (71904, 71913);
     (72016, 72025); (72784, 72793); (73040, 73049); (73120, 73129);
     (92768, 92777); (92864, 92873); (93008, 93017); (120782, 120831);
     (123200, 123209); (123632, 123641); (125264, 125273);
     (130032, 130041)]%N.

(** One character of a class of code points at the start of a text: its
    bytes and what follows. *)
Definition one (cls : N -> bool) (s : string) : option (string * string) :=
  match Utf8.take s with
  | Some (n, c, rest) => if cls n then Some (c, rest) else None
  | None => None
  end.

(** At most [n] characters of the class, as many as possible first. *)
Fixpoint upto {A} (n : nat) (cls : N -> bool) (s : string)
  (k : string -> string -> option A) : option A :=
  match n with
  | O => k EmptyString s
  | S n' =>
      match one cls s with
      | Some (c, rest) =>
          match upto n' cls rest (fun pre rest' => k (c ++ pre) rest') with
          | Some a => Some a
          | None => k EmptyString s
          end
      | None => k EmptyString s
      end
  end.

(** Any number of characters of the class, as many as possible first: a
    text has no more characters than bytes. *)
Definition many {A} (cls : N -> bool) (s : string)
  (k : string -> string -> option A) : option A :=
  upto (String.length s) cls s k.

(** Any number of bytes of the class, as many as possible first. *)
Fixpoint star {A} (cls : ascii -> bool) (s : string)
  (k : string -> string -> option A) : option A :=
  match s with
  | EmptyString => k EmptyString s
  | String c s' =>
      if cls c then
        match star cls s' (fun pre rest => k (String c pre) rest) with
        | Some a => Some a
        | None => k EmptyString s
        end
      else k EmptyString s
  end.

Fixpoint rmatch {A} (r : regex) (s : string) (g : option string)
  (k : string -> option string -> string -> option A) : option A :=
  match r with
  | RChar c =>
      match s with
      | String x s' =>
          if Ascii.eqb x c then k (String x EmptyString) g s' else None
      | EmptyString => None
      end
  | RText t =>
      if Py.startswith t s then k t g (Py.drop (String.length t) s) else None
  | RStar cls => star cls s (fun pre rest => k pre g rest)
  | RPlus cls =>
      match s with
      | String x s' =>
          if cls x then star cls s' (fun pre rest => k (String x pre) g rest)
          else None
      | EmptyString => None
      end
  | RSet cls =>
      match one cls s with
      | Some (c, rest) => k c g rest
      | None => None
      end
  | RMany cls => many cls s (fun pre rest => k pre g rest)
  | RUpTo n cls => upto n cls s (fun pre rest => k pre g rest)
  | ROpt r' =>
      match rmatch r' s g k with
      | Some a => Some a
      | None => k EmptyString g s
      end
  | RGroup r' => rmatch r' s g (fun pre _ rest => k pre (Some pre) rest)
  | RSeq r1 r2 =>
      rmatch r1 s g (fun p1 g1 s1 =>
        rmatch r2 s1 g1 (fun p2 g2 s2 => k (p1 ++ p2) g2 s2))
  | REnd =>
      match s with
      | EmptyString => k EmptyString g s
      | String "010" EmptyString => k EmptyString g s
      | _ => None
      end
  end.

(** [re.match(r, s)]: [None] when there is no match at the start of [s],
    otherwise the contents of group 1. *)
Definition re_match (r : regex) (s : string) : option (option string) :=
  rmatch r s None (fun _ g _ => Some g).

End Re.

Notation "r1 +++ r2" := (Re.RSeq r1 r2) (at level 61, right associativity).

Definition quoted (s : string) : string :=
  String Json.dquote s ++ String Json.dquote EmptyString.

(** The pattern of [ParseNextLinkHeader]: any text, an opening angle
    bracket, group 1 (one character or more), a closing bracket and a
    semicolon, optional white space, the parameter rel=next with its value
    quoted, any text. *)
Definition link_re : Re.regex :=
  Re.RStar Re.dot +++ Re.RChar "<" +++ Re.RGroup (Re.RPlus Re.dot)
  +++ Re.RText ">;" +++ Re.RMany Re.space
  +++ Re.RText ("rel=" ++ quoted "next") +++ Re.RStar Re.dot.

(** The pattern of [Scheme]: any text, [.local], an optional [host], an
    optional colon with one to five digits, the end. *)
Definition local_re : Re.regex :=
  Re.RStar Re.dot +++ Re.RText ".local" +++ Re.ROpt (Re.RText "host")
  +++ Re.ROpt (Re.RChar ":" +++ Re.RSet Re.digit +++ Re.RUpTo 4 Re.digit)
  +++ Re.REnd.

(** ** [urllib.parse.urlencode] *)

Module Url.

Definition hex_digit (n : N) : ascii :=
  if (n <? 10)%N then ascii_of_N (48 + n) else ascii_of_N (55 + n).

Definition unreserved (c : ascii) : bool :=
  Py.is_alnum c || Ascii.eqb c "_" || Ascii.eqb c "." || Ascii.eqb c "-"
  || Ascii.eqb c "~".

Fixpoint quote_plus (s : string) : string :=
  match s with
  | EmptyString => EmptyString
  | String c s' =>
      (if unreserved c then String c EmptyString
       else if Ascii.eqb c " " then "+"
       else String "%" (String (hex_digit (Py.code c / 16))
                          (String (hex_digit (Py.code c mod 16)) EmptyString)))
      ++ quote_plus s'
  end.

Definition urlencode (parameters : list (string * string)) : string :=
  Py.join "&"
    (map (fun kv => quote_plus (fst kv) ++ "=" ++ quote_plus (snd kv))
       parameters).

End Url.

(** ** Module constants *)

Definition PULL : string := "pull".
Definition PUSH : string := "push,pull".
Definition DELETE : string := PUSH.
Definition CATALOG : string := "catalog".
Definition ACTIONS : list string := [PULL; PUSH; DELETE; CATALOG].

Definition _ANONYMOUS : string := "".
Definition _BASIC : string := "Basic".
Definition _BEARER : string := "Bearer".

Definition _REALM_PFX : string := "realm=".
Definition _SERVICE_PFX : string := "service=".

Definition OK : Z := 200.
Definition UNAUTHORIZED : Z := 401.

(** ** HTTP calls and responses *)

Record HttpCall : Type := mkCall {
  call_url : string;
  call_method : string;
  call_body : option string;
  call_headers : list (string * string)
}.

(** An [httplib2.Response]: a status and a dict of headers whose keys are
    lower-case. *)
Record HttpResponse : Type := mkResponse {
  status : Z;
  headers : list (string * string)
}.

(** [resp.get(k)] *)
Fixpoint header_get (h : list (string * string)) (k : string) : option string :=
  match h with
  | [] => None
  | (k', v) :: h' => if String.eqb k' k then Some v else header_get h' k
  end.

(** A response body: the bytes the client received, or a text. *)
Inductive Content : Type :=
| CBytes (b : string)
| CText (s : string).

Definition content_value (c : Content) : value :=
  match c with
  | CBytes b => PBytes b
  | CText s => PStr s
  end.

(** ** Diagnostics and exceptions *)

Record Diagnostic : Type := mkDiagnostic { _error : value }.

Inductive Exception : Type :=
| BadStateException
| TokenRefreshException
| V2DiagnosticException (resp : HttpResponse) (diagnostics : list Diagnostic)
| AttributeError
| KeyError
| TypeError
| ValueError
| UnicodeDecodeError.

(** [isinstance(e, BadStateException)]: the class and its subclass. *)
Definition is_BadStateException (e : Exception) : bool :=
  match e with
  | BadStateException | TokenRefreshException => true
  | _ => false
  end.

Definition is_TokenRefreshException (e : Exception) : bool :=
  match e with TokenRefreshException => true | _ => false end.

Definition is_V2DiagnosticException (e : Exception) : bool :=
  match e with V2DiagnosticException _ _ => true | _ => false end.

Inductive result (A : Type) : Type :=
| Returns (a : A)
| Raises (e : Exception).

Arguments Returns {A} a.
Arguments Raises {A} e.

(** [o.get(k)] on an arbitrary object: only a dict has the method. *)
Definition value_get (o : value) (k : string) : result value :=
  match o with
  | PDict d => Returns (match dict_get d k with Some v => v | None => PNone end)
  | _ => Raises AttributeError
  end.

Definition code (d : Diagnostic) : result value := value_get (_error d) "code".
Definition message (d : Diagnostic) : result value := value_get (_error d) "message".
Definition detail (d : Diagnostic) : result value := value_get (_error d) "detail".

(** [content.decode('utf8')]: a text has no such method. *)
Definition decode_utf8 (c : Content) : result Content :=
  match c with
  | CBytes b => if Utf8.valid b then Returns (CText b) else Raises UnicodeDecodeError
  | CText _ => Raises AttributeError
  end.

(** The first [try] block of [_DiagnosticsFromContent] and of [_Refresh]:
    decode, and keep the content as it is when that fails. *)
Definition decoded (c : Content) : Content :=
  match decode_utf8 c with
  | Returns c' => c'
  | Raises _ => c
  end.

(** [json.loads(content)].  A text that starts with a byte order mark is
    refused.  A byte string, which gets here only when it is not strict
    UTF-8, is decoded first, in the encoding that [json.detect_encoding]
    finds and with the [surrogatepass] handler; what cannot be decoded
    raises [UnicodeDecodeError]. *)
Definition json_loads (c : Content) : result value :=
  let text :=
    match c with
    | CText s =>
        if Py.startswith (Utf8.encode 65279) s then Raises ValueError
        else Returns s
    | CBytes b =>
        match Codec.decode_detected b with
        | Some s => Returns s
        | None => Raises UnicodeDecodeError
        end
    end in
  match text with
  | Raises e => Raises e
  | Returns s =>
      match Json.loads_text s with
      | Some v => Returns v
      | None => Raises ValueError
      end
  end.

(** The characters of a text in UTF-8 form: a lead byte with the
    continuation bytes that follow it. *)
Fixpoint chars (s : string) : list string :=
  match s with
  | EmptyString => []
  | String c s' =>
      match chars s' with
      | x :: rest =>
          match x with
          | String b _ =>
              if Utf8.cont b then String c x :: rest
              else String c EmptyString :: x :: rest
          | EmptyString => String c EmptyString :: rest
          end
      | [] => [String c EmptyString]
      end
  end.

(** [for d in v]: the items a value yields, when it can be iterated. *)
Definition iterate (v : value) : result (list value) :=
  match v with
  | PList l => Returns l
  | PDict d => Returns (map (fun kv => PStr (fst kv)) d)
  | PStr s => Returns (map PStr (chars s))
  | PBytes b => Returns (map (fun c => PInt (Z.of_N (Py.code c))) (list_ascii_of_string b))
  | _ => Raises TypeError
  end.

Definition UNKNOWN (content : Content) : Diagnostic :=
  mkDiagnostic (PDict [("code", PStr "UNKNOWN"); ("message", content_value content)]).

(** The second [try] block of [_DiagnosticsFromContent], before its
    handler. *)
Definition diagnostics_of (content : Content) : result (list Diagnostic) :=
  match json_loads content with
  | Raises e => Raises e
  | Returns o =>
      match o with
      | PDict d =>
          match iterate (match dict_get d "errors" with
                         | Some v => v
                         | None => PList []
                         end) with
          | Returns l => Returns (map mkDiagnostic l)
          | Raises e => Raises e
          end
      | _ => Raises AttributeError
      end
  end.

Definition _DiagnosticsFromContent (content : Content) : result (list Diagnostic) :=
  let content := decoded content in
  match diagnostics_of content with
  | Returns l => Returns l
  | Raises _ => Returns [UNKNOWN content]
  end.

(** What [raise V2DiagnosticException(resp, content)] raises.  The
    constructor formats [d.message] and [d.detail] of every diagnostic, and
    a diagnostic that does not wrap a dict fails there. *)
Fixpoint format_diagnostics (l : list Diagnostic) : result unit :=
  match l with
  | [] => Returns tt
  | d :: l' =>
      match message d with
      | Raises e => Raises e
      | Returns _ =>
          match detail d with
          | Raises e => Raises e
          | Returns _ => format_diagnostics l'
          end
      end
  end.

Definition raise_V2DiagnosticException (resp : HttpResponse) (content : Content)
  : Exception :=
  match _DiagnosticsFromContent content with
  | Raises e => e
  | Returns ds =>
      match format_diagnostics ds with
      | Raises e => e
      | Returns _ => V2DiagnosticException resp ds
      end
  end.

Definition _CheckState {A} (predicate : bool) (k : result A) : result A :=
  if predicate then k else Raises BadStateException.

(** ** The pure helpers *)

Definition ParseNextLinkHeader (resp : HttpResponse) : option string :=
  match header_get (headers resp) "link" with
  | None => None
  | Some link =>
      if negb (Py.nonempty link) then None
      else match Re.re_match link_re link with
           | None => None
           | Some m => m
           end
  end.

Definition Scheme (endpoint : string) : string :=
  if Py.startswith "localhost:" endpoint then "http"
  else if Py.startswith "registry-docker-registry" endpoint then "http"
  else match Re.re_match local_re endpoint with
       | Some _ => "http"
       | None => "https"
       end.

(** ** The collaborators of the transport *)

(** The structured name of the resource: [name.registry] and
    [name.scope(action)]. *)
Record Name : Type := mkName {
  registry : string;
  scope : string -> string
}.

Definition Log : Type := list HttpCall.

(** [transport.request(url, method, body=..., headers=...)]: the answer to a
    call, given the calls made before it. *)
Definition HttpTransport : Type := Log -> HttpCall -> HttpResponse * Content.

(** What the module takes from outside: the HTTP client, the constant
    [docker_name.USER_AGENT], and the text that the [%s] conversion gives
    for a value that is not a text. *)
Record Env : Type := mkEnv {
  request : HttpTransport;
  USER_AGENT : string;
  format_s : value -> string
}.

(** Modelled from the spec: the credential provider classes
    ([docker_creds.Anonymous], the provider the caller supplies and
    [v2_2.docker_creds.Bearer]) are not among the sources.  Section 3 of the
    specification: a provider exposes [Get()], the authorization header
    value or the empty text; Anonymous always yields the empty text, Basic a
    static encoded credential, Bearer a specific token; section 8: the token
    [abc] yields the header value [Bearer abc]. *)
Inductive CredentialProvider : Type :=
| Anonymous
| Basic (credential : string)
| Bearer (token : value).

(** Modelled from the spec: [Get()] of the three providers, as sections 3
    and 8 of the specification give it.  The specification speaks of a
    token that is a text; for any other value the header is formatted with
    the conversion the environment supplies. *)
Definition Get (env : Env) (c : CredentialProvider) : string :=
  match c with
  | Anonymous => ""
  | Basic credential => "Basic " ++ credential
  | Bearer (PStr token) => "Bearer " ++ token
  | Bearer token => "Bearer " ++ format_s env token
  end.

(** ** The transport object *)

Record Transport : Type := mkTransport {
  _name : Name;
  _basic_creds : CredentialProvider;
  _action : string;
  _authentication : option string;
  _service : option string;
  _realm : option string;
  _creds : option CredentialProvider
}.

Definition set_authentication (v : string) (t : Transport) : Transport :=
  mkTransport (_name t) (_basic_creds t) (_action t) (Some v) (_service t)
    (_realm t) (_creds t).

Definition set_service (v : string) (t : Transport) : Transport :=
  mkTransport (_name t) (_basic_creds t) (_action t) (_authentication t) (Some v)
    (_realm t) (_creds t).

Definition set_realm (v : string) (t : Transport) : Transport :=
  mkTransport (_name t) (_basic_creds t) (_action t) (_authentication t)
    (_service t) (Some v) (_creds t).

Definition set_creds (v : CredentialProvider) (t : Transport) : Transport :=
  mkTransport (_name t) (_basic_creds t) (_action t) (_authentication t)
    (_service t) (_realm t) (Some v).

(** ** Methods as state transformers

    A method runs on the object and on the log of calls made so far; what it
    assigns before raising stays assigned. *)

Definition M (A : Type) : Type := Transport -> Log -> result A * Transport * Log.

Definition ret {A} (a : A) : M A := fun t l => (Returns a, t, l).

Definition raise {A} (e : Exception) : M A := fun t l => (Raises e, t, l).

Definition bind {A B} (m : M A) (f : A -> M B) : M B :=
  fun t l =>
    match m t l with
    | (Returns a, t', l') => f a t' l'
    | (Raises e, t', l') => (Raises e, t', l')
    end.

Declare Scope method_scope.
Delimit Scope method_scope with method.
Notation "x <- m ;; k" := (bind m (fun x => k))
  (at level 100, m at next level, right associativity) : method_scope.
Notation "m ;;; k" := (bind m (fun _ => k))
  (at level 100, right associativity) : method_scope.
Local Open Scope method_scope.

(** [self.x], for an attribute that may not have been assigned. *)
Definition attr {A} (field : Transport -> option A) : M A :=
  fun t l =>
    match field t with
    | Some a => (Returns a, t, l)
    | None => (Raises AttributeError, t, l)
    end.

Definition self : M Transport := fun t l => (Returns t, t, l).

Definition assign (f : Transport -> Transport) : M unit :=
  fun t l => (Returns tt, f t, l).

Definition lift {A} (r : result A) : M A := fun t l => (r, t, l).

Definition check_state (predicate : bool) : M unit :=
  lift (_CheckState predicate (Returns tt)).

(** One call of the underlying client, appended to the log. *)
Definition http (env : Env) (call : HttpCall) : M (HttpResponse * Content) :=
  fun t l => (Returns (request env l call), t, (l ++ [call])%list).

Definition ping_call (env : Env) (name : Name) : HttpCall :=
  mkCall (Scheme (registry name) ++ "://" ++ registry name ++ "/v2/") "GET" None
    [("content-type", "application/json"); ("user-agent", USER_AGENT env)].

(** The loop of [_Ping] over the comma-separated pieces of the challenge. *)
Fixpoint scan_tokens (tokens : list string) : M unit :=
  match tokens with
  | [] => ret tt
  | t :: rest =>
      (if Py.startswith _REALM_PFX t then
         assign (set_realm (Py.strip Json.dquote (Py.drop (String.length _REALM_PFX) t)))
       else if Py.startswith _SERVICE_PFX t then
         assign (set_service (Py.strip Json.dquote (Py.drop (String.length _SERVICE_PFX) t)))
       else ret tt) ;;;
      scan_tokens rest
  end.

Definition _Ping (env : Env) : M unit :=
  t <- self ;;
  rc <- http env (ping_call env (_name t)) ;;
  let resp := fst rc in
  check_state ((status resp =? OK) || (status resp =? UNAUTHORIZED)) ;;;
  if status resp =? OK then
    assign (set_authentication _ANONYMOUS) ;;;
    assign (set_service "none") ;;;
    assign (set_realm "none")
  else
    challenge <- lift (match header_get (headers resp) "www-authenticate" with
                       | Some c => Returns c
                       | None => Raises KeyError
                       end) ;;
    check_state (Py.contains_char " " challenge) ;;;
    match Py.split_once " " challenge with
    | None => raise ValueError
    | Some (authentication, remainder) =>
        assign (set_authentication authentication) ;;;
        assign (set_authentication (Py.capitalize authentication)) ;;;
        a <- attr _authentication ;;
        check_state (Py.in_strings a [_BASIC; _BEARER]) ;;;
        assign (set_service (registry (_name t))) ;;;
        scan_tokens (Py.split "," remainder) ;;;
        realm <- attr _realm ;;
        check_state (Py.nonempty realm)
    end.

Definition _Scope (t : Transport) : string := scope (_name t) (_action t).

Definition refresh_call (env : Env) (t : Transport) (realm service : string)
  : HttpCall :=
  mkCall
    (realm ++ "?" ++ Url.urlencode [("scope", _Scope t); ("service", service)])
    "GET" None
    [("content-type", "application/json"); ("user-agent", USER_AGENT env);
     ("Authorization", Get env (_basic_creds t))].

Definition is_none (v : value) : bool :=
  match v with PNone => true | _ => false end.

Definition _Refresh (env : Env) : M unit :=
  t <- self ;;
  service <- attr _service ;;
  realm <- attr _realm ;;
  rc <- http env (refresh_call env t realm service) ;;
  let (resp, content) := rc in
  if negb (status resp =? OK) then raise TokenRefreshException
  else
    let content := decoded content in
    wrapper_object <- lift (json_loads content) ;;
    first <- lift (value_get wrapper_object "token") ;;
    token <- (if truthy first then ret first
              else lift (value_get wrapper_object "access_token")) ;;
    check_state (negb (is_none token)) ;;;
    assign (set_creds (Bearer token)).

(** The arguments of [Request]; [None] is an argument left at its default. *)
Record RequestArgs : Type := mkArgs {
  url : string;
  accepted_codes : option (list Z);
  method : option string;
  body : option string;
  content_type : option string;
  accepted_mimes : option (list string)
}.

Definition text_truthy (o : option string) : bool :=
  match o with
  | Some s => Py.nonempty s
  | None => false
  end.

(** [method], after the default of the first statement of [Request]. *)
Definition effective_method (a : RequestArgs) : string :=
  match method a with
  | Some m => if Py.nonempty m then m
              else if text_truthy (body a) then "PUT" else "GET"
  | None => if text_truthy (body a) then "PUT" else "GET"
  end.

Definition attempt_headers (env : Env) (a : RequestArgs) (creds : CredentialProvider)
  : list (string * string) :=
  let auth := Get env creds in
  ([("user-agent", USER_AGENT env)]
   ++ (if Py.nonempty auth then [("Authorization", auth)] else [])
   ++ (if text_truthy (body a)
       then [("content-type",
              if text_truthy (content_type a)
              then match content_type a with Some c => c | None => "" end
              else "application/json")]
       else [])
   ++ (match accepted_mimes a with
       | Some mimes => [("Accept", Py.join "," mimes)]
       | None => []
       end)
   ++ (if Py.in_strings (effective_method a) ["POST"; "PUT"]
          && negb (text_truthy (body a))
       then [("content-length", "0")]
       else []))%list.

Definition attempt_call (env : Env) (a : RequestArgs) (creds : CredentialProvider)
  : HttpCall :=
  mkCall (url a) (effective_method a) (body a) (attempt_headers env a creds).

(** The [for retry_unauthorized in [...]] loop of [Request]; [last] is the
    response of the previous iteration, which is what the statements after
    the loop see when the loop runs out. *)
Fixpoint attempts (env : Env) (a : RequestArgs) (flags : list bool)
  (last : option (HttpResponse * Content)) : M (option (HttpResponse * Content)) :=
  match flags with
  | [] => ret last
  | retry_unauthorized :: flags' =>
      creds <- attr _creds ;;
      rc <- http env (attempt_call env a creds) ;;
      if retry_unauthorized && (status (fst rc) =? UNAUTHORIZED) then
        _Refresh env ;;;
        attempts env a flags' (Some rc)
      else ret (Some rc)
  end.

(** The statements of [Request] after the loop. *)
Definition accept (a : RequestArgs) (rc : HttpResponse * Content)
  : result (HttpResponse * Content) :=
  match accepted_codes a with
  | None => Raises TypeError
  | Some codes =>
      if negb (existsb (Z.eqb (status (fst rc))) codes)
      then Raises (raise_V2DiagnosticException (fst rc) (snd rc))
      else Returns rc
  end.

Definition Request (env : Env) (a : RequestArgs) : M (HttpResponse * Content) :=
  authentication <- attr _authentication ;;
  last <- attempts env a [String.eqb authentication _BEARER; false] None ;;
  match last with
  | Some rc => lift (accept a rc)
  | None => raise AttributeError
  end.

(** How the generator of [PaginatedRequest] stands: ended, waiting to be
    resumed (at its [yield], or not started yet), or ended by an
    exception. *)
Inductive Paging : Type :=
| Exhausted
| Suspended
| Failed (e : Exception).

(** The pages the generator yields to a consumer that asks [pulls] times
    for the next one, and how it stands afterwards.  Each time, the
    generator runs from where it waits to its next [yield], or to its end,
    which yields nothing. *)
Fixpoint pages (env : Env) (a : RequestArgs) (pulls : nat) (next_page : option string)
  (t : Transport) (l : Log)
  : list (HttpResponse * Content) * Paging * Transport * Log :=
  match pulls with
  | O => ([], Suspended, t, l)
  | S pulls' =>
      if negb (text_truthy next_page) then ([], Exhausted, t, l)
      else
        let page_args :=
          mkArgs (match next_page with Some u => u | None => "" end)
            (accepted_codes a) (method a) (body a) (content_type a) None in
        match Request env page_args t l with
        | (Raises e, t', l') => ([], Failed e, t', l')
        | (Returns rc, t', l') =>
            match pages env a pulls' (ParseNextLinkHeader (fst rc)) t' l' with
            | (rest, p, t'', l'') => (rc :: rest, p, t'', l'')
            end
        end
  end.

Definition PaginatedRequest (env : Env) (a : RequestArgs) (pulls : nat)
  (t : Transport) (l : Log)
  : list (HttpResponse * Content) * Paging * Transport * Log :=
  pages env a pulls (Some (url a)) t l.

(** [Transport(name, creds, transport, action)]: the object, when the
    constructor returns. *)
Definition __init__ (env : Env) (name : Name) (creds : CredentialProvider)
  (action : string) (l : Log) : result Transport * Log :=
  let construct : M unit :=
    check_state (Py.in_strings action ACTIONS) ;;;
    _Ping env ;;;
    authentication <- attr _authentication ;;
    if String.eqb authentication _BEARER then _Refresh env
    else if String.eqb authentication _BASIC then assign (set_creds creds)
    else assign (set_creds Anonymous) in
  match construct (mkTransport name creds action None None None None) l with
  | (Returns _, t, l') => (Returns t, l')
  | (Raises e, _, l') => (Raises e, l')
  end.

(** ** Vocabulary of the statements *)

(** The characters of a body, whether it is held as bytes or as text. *)
Definition payload (c : Content) : string :=
  match c with
  | CBytes b => b
  | CText s => s
  end.

(** The value a challenge gives to a parameter: that of the last piece that
    starts with the prefix, without the quotes around it. *)
Fixpoint challenge_param (pfx : string) (tokens : list string) (found : option string)
  : option string :=
  match tokens with
  | [] => found
  | t :: rest =>
      challenge_param pfx rest
        (if Py.startswith pfx t
         then Some (Py.strip Json.dquote (Py.drop (String.length pfx) t))
         else found)
  end.

(** The object after the loop of [_Ping] over the pieces of a challenge. *)
Definition scanned (tokens : list string) (t : Transport) : Transport :=
  mkTransport (_name t) (_basic_creds t) (_action t) (_authentication t)
    (challenge_param _SERVICE_PFX tokens (_service t))
    (challenge_param _REALM_PFX tokens (_realm t))
    (_creds t).

(** The object as [_Ping] leaves it once it has read the scheme of a
    challenge and the pieces that follow it. *)
Definition challenged (scheme remainder : string) (t : Transport) : Transport :=
  scanned (Py.split "," remainder)
    (set_service (registry (_name t))
       (set_authentication (Py.capitalize scheme) t)).

(** Every character of a text is in a class. *)
Fixpoint all_in (cls : ascii -> bool) (s : string) : bool :=
  match s with
  | EmptyString => true
  | String c s' => cls c && all_in cls s'
  end.

(** A text without its leading characters of a class of code points, at
    most [n] of them. *)
Fixpoint skip (n : nat) (cls : N -> bool) (s : string) : string :=
  match n with
  | O => s
  | S n' =>
      match Re.one cls s with
      | Some (_, rest) => skip n' cls rest
      | None => s
      end
  end.

(** What must follow the semicolon of a link entry for it to be a next
    link: optional white space, that of [\s], and the parameter rel=next,
    value quoted. *)
Definition next_tail (rest : string) : bool :=
  Py.startswith ("rel=" ++ quoted "next") (skip (String.length rest) Re.space rest).

(** A way to read a link header as: some text on one line, a bracketed
    non-empty URL on the same line, a semicolon and a next-link tail. *)
Definition next_entry (link pre url rest : string) : Prop :=
  link = pre ++ "<" ++ url ++ ">;" ++ rest
  /\ all_in Re.dot pre = true
  /\ url <> ""
  /\ all_in Re.dot url = true
  /\ next_tail rest = true.

(** The pattern of [ParseNextLinkHeader] from just after the group on. *)
Definition after_group (url rest : string) : option (option string) :=
  if Py.startswith ">;" rest && next_tail (Py.drop 2 rest)
  then Some (Some url)
  else None.

(** The same pattern from its opening bracket on. *)
Definition from_bracket (rest : string) : option (option string) :=
  match rest with
  | String x (String y s) =>
      if Ascii.eqb x "<" && Re.dot y
      then Re.star Re.dot s (fun pre rest' => after_group (String y pre) rest')
      else None
  | _ => None
  end.

(** The environment that differs from [env] in one answer: the one to the
    call made after [n] calls. *)
Definition answering (env : Env) (n : nat) (answer : HttpResponse * Content) : Env :=
  mkEnv (fun l c => if Nat.eqb (List.length l) n then answer else request env l c)
    (USER_AGENT env) (format_s env).

Definition is_dict (v : value) : bool :=
  match v with PDict _ => true | _ => false end.

(** What a request may change in a transport: nothing but the credential,
    and that only to a Bearer provider with a token that is not [None]. *)
Definition frame (t t' : Transport) : Prop :=
  _name t' = _name t
  /\ _basic_creds t' = _basic_creds t
  /\ _action t' = _action t
  /\ _authentication t' = _authentication t
  /\ _service t' = _service t
  /\ _realm t' = _realm t
  /\ (_creds t' = _creds t
      \/ exists token, is_none token = false /\ _creds t' = Some (Bearer token)).

(** A transport as the constructor returns it for a name, the credentials
    of the caller and an action. *)
Definition constructed (name : Name) (creds : CredentialProvider) (action : string)
  (t : Transport) : Prop :=
  _name t = name /\ _basic_creds t = creds /\ _action t = action
  /\ In action ACTIONS
  /\ exists mode realm service current,
       _authentication t = Some mode
       /\ _realm t = Some realm /\ realm <> ""
       /\ _service t = Some service
       /\ _creds t = Some current
       /\ ((mode = _ANONYMOUS /\ current = Anonymous
            /\ realm = "none" /\ service = "none")
           \/ (mode = _BASIC /\ current = creds)
           \/ (mode = _BEARER
               /\ exists token, current = Bearer token /\ is_none token = false)).

(** The call of a token exchange, written out. *)
Definition exchange_call (env : Env) (name : Name) (creds : CredentialProvider)
  (action realm service : string) : HttpCall :=
  mkCall
    (realm ++ "?" ++ Url.urlencode [("scope", scope name action); ("service", service)])
    "GET" None
    [("content-type", "application/json"); ("user-agent", USER_AGENT env);
     ("Authorization", Get env creds)].

(** A page that a paginated request may yield: its status is accepted. *)
Definition accepted (a : RequestArgs) (page : HttpResponse * Content) : Prop :=
  exists codes, accepted_codes a = Some codes /\ In (status (fst page)) codes.

(** The suffixes of a host name that [Scheme] takes for a local one:
    [.local], then [host] or nothing, then a port or nothing. *)
Definition local_suffix (host : bool) (port : option string) : string :=
  ".local" ++ (if host then "host" else "")
  ++ match port with
     | Some digits => ":" ++ digits
     | None => ""
     end.

(** Every page but the last names a next page. *)
Fixpoint chained (ys : list (HttpResponse * Content)) : Prop :=
  match ys with
  | [] => True
  | page :: rest =>
      match rest with
      | [] => True
      | _ => ParseNextLinkHeader (fst page) <> None
      end
      /\ chained rest
  end.

(** The pattern of [Scheme] from just after [.local] on. *)
Definition local_tail (rest : string) : option (option string) :=
  Re.rmatch
    (Re.ROpt (Re.RText "host")
     +++ Re.ROpt (Re.RChar ":" +++ Re.RSet Re.digit +++ Re.RUpTo 4 Re.digit)
     +++ Re.REnd)
    rest None (fun _ g _ => Some g).

(** A line feed, or nothing. *)
Definition line_end (present : bool) : string :=
  if present then String "010" EmptyString else EmptyString.

(** ** Concrete registries

    Scripted HTTP clients and inputs on which the statements below are
    evaluated. *)

Module Scenario.

Definition no_response : HttpResponse * Content := (mkResponse 0 [], CBytes "").

(** A client that gives its [n]-th answer to the [n]-th call. *)
Definition scripted (answers : list (HttpResponse * Content)) : HttpTransport :=
  fun log _ => nth (List.length log) answers no_response.

Definition env_of (answers : list (HttpResponse * Content)) : Env :=
  mkEnv (scripted answers) "containerregistry" (fun _ => "").

Definition name : Name :=
  mkName "registry.example" (fun action => "repository:x:" ++ action).

Definition creds : CredentialProvider := Basic "dXNlcjpwYXNz".

Definition challenge (text : string) : HttpResponse * Content :=
  (mkResponse 401 [("www-authenticate", text)], CBytes "").

Definition answer (code : Z) (body : string) : HttpResponse * Content :=
  (mkResponse code [], CBytes body).

Definition bearer_params : string :=
  "realm=" ++ quoted "https://auth.example/token"
  ++ ",service=" ++ quoted "registry.example".

Definition bearer_challenge : string := "Bearer " ++ bearer_params.

Definition token_body : string := "{" ++ quoted "token" ++ ":" ++ quoted "abc" ++ "}".
Definition access_token_body : string :=
  "{" ++ quoted "access_token" ++ ":" ++ quoted "abc" ++ "}".

(** A transport as construction against a Bearer registry leaves it. *)
Definition bearer_transport : Transport :=
  mkTransport name creds PULL (Some _BEARER) (Some "registry.example")
    (Some "https://auth.example/token") (Some (Bearer (PStr "abc"))).

Definition denied_body : string :=
  "{" ++ quoted "errors" ++ ":[{" ++ quoted "code" ++ ":" ++ quoted "DENIED"
  ++ "," ++ quoted "message" ++ ":" ++ quoted "access denied"
  ++ "," ++ quoted "detail" ++ ":" ++ quoted "repo:x" ++ "}]}".

Definition denied : value :=
  PDict [("code", PStr "DENIED"); ("message", PStr "access denied");
         ("detail", PStr "repo:x")].

Definition rel_next : string := " rel=" ++ quoted "next".


Definition linked (link : string) : HttpResponse := mkResponse 200 [("link", link)].

(** The same transport, holding a token that the registry no longer
    accepts. *)
Definition stale_transport : Transport :=
  mkTransport name creds PULL (Some _BEARER) (Some "registry.example")
    (Some "https://auth.example/token") (Some (Bearer (PStr "old"))).

(** Three pages, the first two linked to the next. *)
Definition three_pages : list (HttpResponse * Content) :=
  [(linked ("<https://registry.example/v2/_catalog?n=2>;" ++ rel_next), CBytes "1");
   (linked ("<https://registry.example/v2/_catalog?n=3>;" ++ rel_next), CBytes "2");
   (mkResponse 200 [], CBytes "3")].

(** A registry every page of which names a next page. *)
Definition endless : Env :=
  mkEnv (fun _ _ => (linked ("<https://registry.example/v2/_catalog?n=1>;" ++ rel_next),
                     CBytes "{}"))
    "containerregistry" (fun _ => "").

Definition get (u : string) (codes : option (list Z)) : RequestArgs :=
  mkArgs u codes None None None None.

End Scenario.

(** * Properties *)

(** ** Construction *)

Lemma in_actions (action : string) :
  In action ACTIONS -> Py.in_strings action ACTIONS = true.
Proof.
  intros H. unfold ACTIONS in H. simpl in H.
  destruct H as [<- | [<- | [<- | [<- | []]]]]; reflexivity.
Qed.

(** C2.  For a valid action, a ping answered with status 200 gives an
    anonymous transport: the mode is the anonymous one, realm and service
    are both the placeholder [none], the provider installed yields the empty
    header, and the ping is the only call made (no token exchange). *)
Theorem ping_ok_is_anonymous
  (env : Env) (name : Name) (creds : CredentialProvider) (action : string)
  (log : Log) (resp : HttpResponse) (content : Content) :
  In action ACTIONS ->
  request env log (ping_call env name) = (resp, content) ->
  status resp = OK ->
  exists t,
    __init__ env name creds action log
      = (Returns t, (log ++ [ping_call env name])%list)
    /\ _authentication t = Some _ANONYMOUS
    /\ _realm t = Some "none"
    /\ _service t = Some "none"
    /\ _creds t = Some Anonymous
    /\ Get env Anonymous = "".
Proof.
  intros Hact Hping Hok.
  unfold __init__, bind, check_state, lift, _CheckState.
  rewrite (in_actions _ Hact).
  unfold _Ping, bind, self, http, check_state, lift, _CheckState. simpl.
  rewrite Hping. simpl. rewrite Hok. simpl.
  eexists. repeat split.
Qed.

Lemma ping_ok_is_anonymous_witness :
  exists t,
    __init__ (Scenario.env_of [Scenario.answer 200 ""]) Scenario.name
      Scenario.creds CATALOG []
    = (Returns t, [ping_call (Scenario.env_of [Scenario.answer 200 ""]) Scenario.name])
    /\ _authentication t = Some _ANONYMOUS
    /\ _creds t = Some Anonymous.
Proof.
  destruct (ping_ok_is_anonymous (Scenario.env_of [Scenario.answer 200 ""])
              Scenario.name Scenario.creds CATALOG [] (mkResponse 200 [])
              (CBytes ""))
    as [t (H & Ha & _ & _ & Hc & _)].
  - simpl. tauto.
  - reflexivity.
  - reflexivity.
  - exists t. auto.
Defined.

(** ** Token refresh *)

(** C6.  A token exchange answered with a status other than 200 raises
    [TokenRefreshException], which is not the exception of a rejected
    request, and leaves the transport, its credential included, as it was;
    the exchange is the only call made. *)
Theorem refresh_failure_keeps_credential
  (env : Env) (t : Transport) (log : Log) (realm service : string)
  (resp : HttpResponse) (content : Content) :
  _realm t = Some realm ->
  _service t = Some service ->
  request env log (refresh_call env t realm service) = (resp, content) ->
  status resp <> OK ->
  _Refresh env t log
    = (Raises TokenRefreshException, t,
       (log ++ [refresh_call env t realm service])%list)
  /\ is_TokenRefreshException TokenRefreshException = true
  /\ is_V2DiagnosticException TokenRefreshException = false.
Proof.
  intros Hrealm Hservice Hcall Hstatus.
  split; [| split; reflexivity].
  unfold _Refresh, bind, self, attr, http.
  rewrite Hservice, Hrealm, Hcall.
  apply Z.eqb_neq in Hstatus. rewrite Hstatus. reflexivity.
Qed.

Lemma refresh_failure_keeps_credential_witness :
  _Refresh (Scenario.env_of [Scenario.answer 503 "busy"]) Scenario.bearer_transport []
  = (Raises TokenRefreshException, Scenario.bearer_transport,
     [refresh_call (Scenario.env_of [Scenario.answer 503 "busy"])
        Scenario.bearer_transport "https://auth.example/token" "registry.example"]).
Proof.
  apply (refresh_failure_keeps_credential
           (Scenario.env_of [Scenario.answer 503 "busy"])
           Scenario.bearer_transport [] "https://auth.example/token"
           "registry.example" (mkResponse 503 []) (CBytes "busy"));
    try reflexivity.
  unfold OK; simpl; lia.
Defined.

Lemma token_body_loads (content : Content) :
  payload content = Scenario.token_body ->
  json_loads (decoded content) = Returns (PDict [("token", PStr "abc")]).
Proof. destruct content; simpl; intros ->; vm_compute; reflexivity. Qed.

Lemma access_token_body_loads (content : Content) :
  payload content = Scenario.access_token_body ->
  json_loads (decoded content) = Returns (PDict [("access_token", PStr "abc")]).
Proof. destruct content; simpl; intros ->; vm_compute; reflexivity. Qed.

(** C7.  A token exchange answered with status 200.  When the body is the
    JSON object with the one field [token] of value [abc], or with the one
    field [access_token] of value [abc], the exchange returns, and the
    credential of the transport is then a Bearer provider of [abc], whose
    header value, and hence the Authorization header of the next request,
    is [Bearer abc]; nothing else in the transport has changed.  When the
    body is a JSON object with neither field, the exchange raises
    [BadStateException] and installs nothing.  When the body is JSON but
    not an object (an array, a number, a text, null), reading the field
    fails before the check for a malformed response is reached: the
    exchange raises [AttributeError], which is not a [BadStateException],
    and installs nothing. *)
Theorem refresh_installs_bearer
  (env : Env) (t : Transport) (log : Log) (realm service : string)
  (resp : HttpResponse) (content : Content) :
  _realm t = Some realm ->
  _service t = Some service ->
  request env log (refresh_call env t realm service) = (resp, content) ->
  status resp = OK ->
  let log' := (log ++ [refresh_call env t realm service])%list in
  (payload content = Scenario.token_body
   \/ payload content = Scenario.access_token_body ->
   exists t',
     _Refresh env t log = (Returns tt, t', log')
     /\ _creds t' = Some (Bearer (PStr "abc"))
     /\ _name t' = _name t
     /\ _basic_creds t' = _basic_creds t
     /\ _action t' = _action t
     /\ _authentication t' = _authentication t
     /\ _service t' = _service t
     /\ _realm t' = _realm t
     /\ Get env (Bearer (PStr "abc")) = "Bearer abc"
     /\ forall a : RequestArgs,
          header_get (attempt_headers env a (Bearer (PStr "abc"))) "Authorization"
          = Some "Bearer abc")
  /\ (forall d,
        json_loads (decoded content) = Returns (PDict d) ->
        dict_get d "token" = None ->
        dict_get d "access_token" = None ->
        _Refresh env t log = (Raises BadStateException, t, log'))
  /\ (forall w,
        json_loads (decoded content) = Returns w ->
        is_dict w = false ->
        _Refresh env t log = (Raises AttributeError, t, log')
        /\ is_BadStateException AttributeError = false).
Proof.
  intros Hrealm Hservice Hcall Hstatus. cbv zeta.
  assert (Hrun : forall w,
            json_loads (decoded content) = Returns w ->
            _Refresh env t log
            = match value_get w "token" with
              | Raises e => (Raises e, t, (log ++ [refresh_call env t realm service])%list)
              | Returns first =>
                  match (if truthy first then Returns first
                         else value_get w "access_token") with
                  | Raises e => (Raises e, t, (log ++ [refresh_call env t realm service])%list)
                  | Returns token =>
                      if negb (is_none token)
                      then (Returns tt, set_creds (Bearer token) t,
                            (log ++ [refresh_call env t realm service])%list)
                      else (Raises BadStateException, t,
                            (log ++ [refresh_call env t realm service])%list)
                  end
              end).
  { intros w Hw.
    unfold _Refresh, bind, self, attr, http.
    rewrite Hservice, Hrealm, Hcall, Hstatus. simpl.
    unfold lift. rewrite Hw.
    destruct (value_get w "token") as [first | e]; [| reflexivity].
    destruct (truthy first); unfold ret.
    - unfold check_state, lift, _CheckState, assign.
      destruct (negb (is_none first)); reflexivity.
    - destruct (value_get w "access_token") as [token | e]; [| reflexivity].
      unfold check_state, lift, _CheckState, assign.
      destruct (negb (is_none token)); reflexivity. }
  split; [| split].
  - intros Hbody. exists (set_creds (Bearer (PStr "abc")) t).
    split; [| repeat split].
    destruct Hbody as [Hb | Hb].
    + rewrite (Hrun _ (token_body_loads _ Hb)). reflexivity.
    + rewrite (Hrun _ (access_token_body_loads _ Hb)). reflexivity.
  - intros d Hd Htoken Haccess.
    rewrite (Hrun _ Hd). simpl. rewrite Htoken. simpl. rewrite Haccess.
    reflexivity.
  - intros w Hw Hnot. split; [| reflexivity].
    rewrite (Hrun _ Hw). destruct w; try reflexivity. discriminate Hnot.
Qed.

Lemma refresh_installs_bearer_witness :
  (exists t',
     _Refresh (Scenario.env_of [Scenario.answer 200 Scenario.access_token_body])
       Scenario.stale_transport []
     = (Returns tt, t',
        [refresh_call (Scenario.env_of [])
           Scenario.stale_transport "https://auth.example/token" "registry.example"])
     /\ _creds Scenario.stale_transport = Some (Bearer (PStr "old"))
     /\ _creds t' = Some (Bearer (PStr "abc")))
  /\ _Refresh (Scenario.env_of [Scenario.answer 200 "{}"])
       Scenario.stale_transport []
     = (Raises BadStateException, Scenario.stale_transport,
        [refresh_call (Scenario.env_of [])
           Scenario.stale_transport "https://auth.example/token" "registry.example"])
  /\ _Refresh (Scenario.env_of [Scenario.answer 200 "[]"])
       Scenario.stale_transport []
     = (Raises AttributeError, Scenario.stale_transport,
        [refresh_call (Scenario.env_of [])
           Scenario.stale_transport "https://auth.example/token" "registry.example"]).
Proof.
  split; [| split].
  - destruct (proj1 (refresh_installs_bearer
               (Scenario.env_of [Scenario.answer 200 Scenario.access_token_body])
               Scenario.stale_transport [] "https://auth.example/token"
               "registry.example" (mkResponse 200 [])
               (CBytes Scenario.access_token_body)
               eq_refl eq_refl eq_refl eq_refl) (or_intror eq_refl))
      as (t' & Hrun & Hcreds & _).
    exists t'. split; [exact Hrun |]. split; [reflexivity | exact Hcreds].
  - apply (proj1 (proj2 (refresh_installs_bearer
             (Scenario.env_of [Scenario.answer 200 "{}"])
             Scenario.stale_transport [] "https://auth.example/token"
             "registry.example" (mkResponse 200 []) (CBytes "{}")
             eq_refl eq_refl eq_refl eq_refl)) []);
      reflexivity.
  - apply (proj2 (proj2 (refresh_installs_bearer
             (Scenario.env_of [Scenario.answer 200 "[]"])
             Scenario.stale_transport [] "https://auth.example/token"
             "registry.example" (mkResponse 200 []) (CBytes "[]")
             eq_refl eq_refl eq_refl eq_refl)) (PList []));
      reflexivity.
Defined.

(** ** Diagnostics *)

Lemma payload_decoded (content : Content) :
  payload (decoded content) = payload content.
Proof.
  destruct content as [b | s]; unfold decoded, decode_utf8; simpl;
    [destruct (Utf8.valid b) |]; reflexivity.
Qed.

(** C8.  Extracting diagnostics always returns.  When the body parses as a
    JSON object whose [errors] field is an array, there is one diagnostic
    per element, in order, and the [code], [message] and [detail] of an
    element that is an object are the fields of that object ([None] for an
    absent one).  When parsing fails, there is exactly one diagnostic, with
    code [UNKNOWN] and, as its message, the body. *)
Theorem diagnostics_from_content (content : Content) :
  (exists ds, _DiagnosticsFromContent content = Returns ds)
  /\ (forall d l,
        json_loads (decoded content) = Returns (PDict d) ->
        dict_get d "errors" = Some (PList l) ->
        _DiagnosticsFromContent content = Returns (map mkDiagnostic l)
        /\ forall fields, In (PDict fields) l ->
             let field k := match dict_get fields k with
                            | Some v => v
                            | None => PNone
                            end in
             code (mkDiagnostic (PDict fields)) = Returns (field "code")
             /\ message (mkDiagnostic (PDict fields)) = Returns (field "message")
             /\ detail (mkDiagnostic (PDict fields)) = Returns (field "detail"))
  /\ (forall e,
        json_loads (decoded content) = Raises e ->
        _DiagnosticsFromContent content = Returns [UNKNOWN (decoded content)]
        /\ code (UNKNOWN (decoded content)) = Returns (PStr "UNKNOWN")
        /\ message (UNKNOWN (decoded content))
           = Returns (content_value (decoded content))
        /\ payload (decoded content) = payload content).
Proof.
  split; [| split].
  - unfold _DiagnosticsFromContent.
    destruct (diagnostics_of (decoded content)); eexists; reflexivity.
  - intros d l Hloads Herrors. split.
    + unfold _DiagnosticsFromContent, diagnostics_of.
      rewrite Hloads, Herrors. reflexivity.
    + intros fields _. repeat split.
  - intros e Hloads. repeat split.
    + unfold _DiagnosticsFromContent, diagnostics_of. rewrite Hloads. reflexivity.
    + apply payload_decoded.
Qed.

Lemma diagnostics_from_content_witness :
  _DiagnosticsFromContent (CBytes Scenario.denied_body)
  = Returns [mkDiagnostic Scenario.denied]
  /\ code (mkDiagnostic Scenario.denied) = Returns (PStr "DENIED")
  /\ message (mkDiagnostic Scenario.denied) = Returns (PStr "access denied")
  /\ detail (mkDiagnostic Scenario.denied) = Returns (PStr "repo:x")
  /\ _DiagnosticsFromContent (CBytes "not json")
     = Returns [UNKNOWN (CText "not json")]
  /\ message (UNKNOWN (CText "not json")) = Returns (PStr "not json")
  /\ _DiagnosticsFromContent (CBytes (Codec.bytes [255]%N))
     = Returns [UNKNOWN (CBytes (Codec.bytes [255]%N))]
  /\ message (UNKNOWN (CBytes (Codec.bytes [255]%N)))
     = Returns (PBytes (Codec.bytes [255]%N)).
Proof.
  destruct (diagnostics_from_content (CBytes Scenario.denied_body))
    as (_ & Herrors & _).
  destruct (Herrors [("errors", PList [Scenario.denied])] [Scenario.denied])
    as (Hds & Hfields); [vm_compute; reflexivity | reflexivity |].
  destruct (Hfields _ (or_introl eq_refl)) as (Hc & Hm & Hd).
  destruct (diagnostics_from_content (CBytes "not json")) as (_ & _ & Hfail).
  destruct (Hfail ValueError) as (Hu & _ & Hmsg & _); [vm_compute; reflexivity |].
  destruct (diagnostics_from_content (CBytes (Codec.bytes [255]%N)))
    as (_ & _ & Hraw).
  destruct (Hraw UnicodeDecodeError) as (Hb & _ & Hbmsg & _);
    [vm_compute; reflexivity |].
  repeat split; assumption.
Defined.

(** ** Requests *)

Lemma request_without_codes (env : Env) (a : RequestArgs) (t : Transport) (log : Log) :
  accepted_codes a = None ->
  exists e t' log', Request env a t log = (Raises e, t', log').
Proof.
  intros Hcodes. unfold Request, bind, attr.
  destruct (_authentication t) as [authentication |]; [| repeat eexists].
  destruct (attempts env a _ None t log) as [[[last | e] t'] log'];
    [| repeat eexists].
  destruct last as [rc |]; [| repeat eexists].
  unfold lift, accept. rewrite Hcodes. repeat eexists.
Qed.

(** C10.  With [accepted_codes] left at [None], [Request] never returns: it
    always raises, and when its attempts complete with a response, whatever
    the status, what it raises is the [TypeError] of the membership test in
    [None].  A paginated request therefore yields no page, and fails at its
    first page when its URL is not empty. *)
Theorem request_without_codes_never_returns
  (env : Env) (a : RequestArgs) (t : Transport) (log : Log) :
  accepted_codes a = None ->
  (exists e, fst (fst (Request env a t log)) = Raises e)
  /\ (forall authentication rc t' log',
        _authentication t = Some authentication ->
        attempts env a [String.eqb authentication _BEARER; false] None t log
        = (Returns (Some rc), t', log') ->
        Request env a t log = (Raises TypeError, t', log'))
  /\ (forall pulls,
        fst (fst (fst (PaginatedRequest env a pulls t log))) = []
        /\ (Py.nonempty (url a) = true ->
            exists e t' log',
              PaginatedRequest env a (S pulls) t log = ([], Failed e, t', log'))).
Proof.
  intros Hcodes. split; [| split].
  - destruct (request_without_codes env a t log Hcodes) as (e & t' & log' & H).
    exists e. rewrite H. reflexivity.
  - intros authentication rc t' log' Hauth Hattempts.
    unfold Request, bind, attr. rewrite Hauth, Hattempts.
    unfold lift, accept. rewrite Hcodes. reflexivity.
  - intros pulls.
    assert (Hpage : exists e t' log',
               Request env (mkArgs (url a) (accepted_codes a) (method a) (body a)
                              (content_type a) None) t log
               = (Raises e, t', log')).
    { apply request_without_codes. exact Hcodes. }
    destruct Hpage as (e & t' & log' & Hpage).
    unfold PaginatedRequest. split.
    + destruct pulls as [| pulls]; simpl; [reflexivity |].
      destruct (Py.nonempty (url a)); simpl; [| reflexivity].
      rewrite Hpage. reflexivity.
    + intros Hurl. simpl. rewrite Hurl. simpl. rewrite Hpage.
      exists e, t', log'. reflexivity.
Qed.

Lemma request_without_codes_never_returns_witness :
  Request (Scenario.env_of [Scenario.answer 200 "ok"])
    (Scenario.get "https://registry.example/v2/_catalog" None)
    Scenario.bearer_transport []
  = (Raises TypeError, Scenario.bearer_transport,
     [attempt_call (Scenario.env_of [])
        (Scenario.get "https://registry.example/v2/_catalog" None)
        (Bearer (PStr "abc"))]).
Proof.
  apply (proj1 (proj2 (request_without_codes_never_returns
                         (Scenario.env_of [Scenario.answer 200 "ok"])
                         (Scenario.get "https://registry.example/v2/_catalog" None)
                         Scenario.bearer_transport [] eq_refl))
           "Bearer" (mkResponse 200 [], CBytes "ok"));
    reflexivity.
Defined.

Lemma split_scheme (scheme remainder : string) :
  Py.contains_char " " scheme = false ->
  Py.contains_char " " (scheme ++ " " ++ remainder) = true
  /\ Py.split_once " " (scheme ++ " " ++ remainder) = Some (scheme, remainder).
Proof.
  induction scheme as [| c scheme IH]; intros H.
  - split; reflexivity.
  - simpl in H. apply orb_false_iff in H. destruct H as [Hc Hrest].
    destruct (IH Hrest) as [IH1 IH2].
    change ((String c scheme) ++ " " ++ remainder)
      with (String c (scheme ++ " " ++ remainder)).
    cbn [Py.contains_char Py.split_once].
    rewrite Hc, IH1, IH2. split; reflexivity.
Qed.

Lemma realm_is_not_service (t : string) :
  Py.startswith _REALM_PFX t = true -> Py.startswith _SERVICE_PFX t = false.
Proof.
  destruct t as [| c t]; [discriminate |].
  unfold _REALM_PFX, _SERVICE_PFX. cbn [Py.startswith].
  destruct (Ascii.eqb "r" c) eqn:Hc; [| discriminate].
  apply Ascii.eqb_eq in Hc. subst c. reflexivity.
Qed.

Lemma scan_tokens_scanned (tokens : list string) (t : Transport) (log : Log) :
  scan_tokens tokens t log = (Returns tt, scanned tokens t, log).
Proof.
  revert t. induction tokens as [| tok tokens IH]; intros t.
  - destruct t; reflexivity.
  - cbn [scan_tokens]. unfold bind, scanned.
    cbn [challenge_param].
    destruct (Py.startswith _REALM_PFX tok) eqn:Hrealm.
    + rewrite (realm_is_not_service _ Hrealm).
      unfold assign. rewrite IH. reflexivity.
    + destruct (Py.startswith _SERVICE_PFX tok) eqn:Hservice.
      * unfold assign. rewrite IH. reflexivity.
      * unfold ret. rewrite IH. reflexivity.
Qed.

Lemma ping_challenge
  (env : Env) (t : Transport) (log : Log) (resp : HttpResponse)
  (content : Content) (scheme remainder : string) :
  request env log (ping_call env (_name t)) = (resp, content) ->
  status resp = UNAUTHORIZED ->
  header_get (headers resp) "www-authenticate" = Some (scheme ++ " " ++ remainder) ->
  Py.contains_char " " scheme = false ->
  _Ping env t log
  = let log' := (log ++ [ping_call env (_name t)])%list in
    if Py.in_strings (Py.capitalize scheme) [_BASIC; _BEARER] then
      let t' := challenged scheme remainder t in
      match _realm t' with
      | None => (Raises AttributeError, t', log')
      | Some realm =>
          if Py.nonempty realm then (Returns tt, t', log')
          else (Raises BadStateException, t', log')
      end
    else (Raises BadStateException,
          set_authentication (Py.capitalize scheme) t, log').
Proof.
  intros Hcall Hstatus Hheader Hscheme.
  destruct (split_scheme scheme remainder Hscheme) as [Hin Hsplit].
  unfold _Ping, bind, self, http. rewrite Hcall. simpl.
  rewrite Hstatus. simpl. rewrite Hheader.
  unfold _CheckState. rewrite Hin, Hsplit.
  destruct ((Py.capitalize scheme =? _BASIC)%string
            || ((Py.capitalize scheme =? _BEARER)%string || false));
    [| reflexivity].
  rewrite scan_tokens_scanned. unfold attr. simpl.
  destruct (challenge_param _REALM_PFX (Py.split "," remainder) (_realm t))
    as [realm |]; [| reflexivity].
  unfold check_state, lift, _CheckState.
  destruct (Py.nonempty realm); reflexivity.
Qed.

Lemma challenge_param_absent (pfx : string) (tokens : list string) (found : option string) :
  (forall piece, In piece tokens -> Py.startswith pfx piece = false) ->
  challenge_param pfx tokens found = found.
Proof.
  revert found. induction tokens as [| tok tokens IH]; intros found H.
  - reflexivity.
  - cbn [challenge_param]. rewrite (H tok (or_introl eq_refl)).
    apply IH. intros piece Hin. apply H. right. exact Hin.
Qed.

(** The constructor, once the ping has been answered with a challenge. *)
Lemma init_challenge
  (env : Env) (name : Name) (creds : CredentialProvider) (action : string)
  (log : Log) (resp : HttpResponse) (content : Content)
  (scheme remainder : string) :
  request env log (ping_call env name) = (resp, content) ->
  status resp = UNAUTHORIZED ->
  header_get (headers resp) "www-authenticate" = Some (scheme ++ " " ++ remainder) ->
  Py.contains_char " " scheme = false ->
  __init__ env name creds action log
  = let t0 := mkTransport name creds action None None None None in
    let t' := challenged scheme remainder t0 in
    let log' := (log ++ [ping_call env name])%list in
    if Py.in_strings action ACTIONS then
      if Py.in_strings (Py.capitalize scheme) [_BASIC; _BEARER] then
        match _realm t' with
        | None => (Raises AttributeError, log')
        | Some realm =>
            if Py.nonempty realm then
              if String.eqb (Py.capitalize scheme) _BEARER then
                match _Refresh env t' log' with
                | (Returns _, t, l) => (Returns t, l)
                | (Raises e, _, l) => (Raises e, l)
                end
              else if String.eqb (Py.capitalize scheme) _BASIC
                   then (Returns (set_creds creds t'), log')
                   else (Returns (set_creds Anonymous t'), log')
            else (Raises BadStateException, log')
        end
      else (Raises BadStateException, log')
    else (Raises BadStateException, log).
Proof.
  intros Hcall Hstatus Hheader Hscheme.
  unfold __init__, bind, check_state, lift, _CheckState.
  destruct (Py.in_strings action ACTIONS); [| reflexivity].
  rewrite (ping_challenge env (mkTransport name creds action None None None None)
             log resp content scheme remainder Hcall Hstatus Hheader Hscheme).
  cbv zeta.
  destruct (Py.in_strings (Py.capitalize scheme) [_BASIC; _BEARER]);
    [| reflexivity].
  destruct (_realm (challenged scheme remainder _)) as [realm |] eqn:Hrealm;
    [| reflexivity].
  destruct (Py.nonempty realm); [| reflexivity].
  unfold attr. cbn [_authentication challenged scanned set_service set_authentication].
  destruct (String.eqb (Py.capitalize scheme) _BEARER); [reflexivity |].
  destruct (String.eqb (Py.capitalize scheme) _BASIC); reflexivity.
Qed.

(** C4.  A challenge whose scheme is Bearer and none of whose pieces starts
    with [realm=]: the check that the realm was set reads an attribute that
    was never assigned, and the constructor raises [AttributeError], which
    is not a [BadStateException]. *)
Theorem bearer_challenge_without_realm
  (env : Env) (name : Name) (creds : CredentialProvider) (action : string)
  (log : Log) (resp : HttpResponse) (content : Content)
  (scheme remainder : string) :
  In action ACTIONS ->
  request env log (ping_call env name) = (resp, content) ->
  status resp = UNAUTHORIZED ->
  header_get (headers resp) "www-authenticate" = Some (scheme ++ " " ++ remainder) ->
  Py.contains_char " " scheme = false ->
  Py.capitalize scheme = _BEARER ->
  (forall piece, In piece (Py.split "," remainder) ->
                 Py.startswith _REALM_PFX piece = false) ->
  __init__ env name creds action log
    = (Raises AttributeError, (log ++ [ping_call env name])%list)
  /\ is_BadStateException AttributeError = false.
Proof.
  intros Hact Hcall Hstatus Hheader Hscheme Hbearer Hpieces.
  split; [| reflexivity].
  rewrite (init_challenge env name creds action log resp content scheme remainder
             Hcall Hstatus Hheader Hscheme).
  cbv zeta. rewrite (in_actions _ Hact), Hbearer.
  unfold challenged, scanned. cbn [_realm set_service set_authentication].
  rewrite (challenge_param_absent _ _ _ Hpieces). reflexivity.
Qed.

Lemma bearer_challenge_without_realm_witness :
  __init__
    (Scenario.env_of [Scenario.challenge ("Bearer service=" ++ quoted "registry.example")])
    Scenario.name Scenario.creds PULL []
  = (Raises AttributeError, [ping_call (Scenario.env_of []) Scenario.name]).
Proof.
  apply (bearer_challenge_without_realm
           (Scenario.env_of
              [Scenario.challenge ("Bearer service=" ++ quoted "registry.example")])
           Scenario.name Scenario.creds PULL []
           (fst (Scenario.challenge ("Bearer service=" ++ quoted "registry.example")))
           (CBytes "") "Bearer" ("service=" ++ quoted "registry.example"));
    try reflexivity.
  - simpl. tauto.
  - intros piece [<- | []]. reflexivity.
Defined.

(** C5, as the code has it.  A challenge whose scheme is Basic is scanned
    like any other.  When its pieces give a realm that is not empty, the
    constructor returns a transport in Basic mode that holds the provider
    the caller supplied, records that realm, records the service of the
    challenge (the registry when it names none), and makes no call besides
    the ping.  When they give an empty realm, the constructor raises
    [BadStateException] after the ping. *)
Theorem basic_challenge_with_realm
  (env : Env) (name : Name) (creds : CredentialProvider) (action : string)
  (log : Log) (resp : HttpResponse) (content : Content)
  (scheme remainder realm : string) :
  In action ACTIONS ->
  request env log (ping_call env name) = (resp, content) ->
  status resp = UNAUTHORIZED ->
  header_get (headers resp) "www-authenticate" = Some (scheme ++ " " ++ remainder) ->
  Py.contains_char " " scheme = false ->
  Py.capitalize scheme = _BASIC ->
  challenge_param _REALM_PFX (Py.split "," remainder) None = Some realm ->
  (realm <> "" ->
   exists t,
     __init__ env name creds action log
       = (Returns t, (log ++ [ping_call env name])%list)
     /\ _authentication t = Some _BASIC
     /\ _creds t = Some creds
     /\ _realm t = Some realm
     /\ _service t
        = challenge_param _SERVICE_PFX (Py.split "," remainder) (Some (registry name)))
  /\ (realm = "" ->
      __init__ env name creds action log
        = (Raises BadStateException, (log ++ [ping_call env name])%list)
      /\ is_BadStateException BadStateException = true).
Proof.
  intros Hact Hcall Hstatus Hheader Hscheme Hbasic Hrealm.
  rewrite (init_challenge env name creds action log resp content scheme remainder
             Hcall Hstatus Hheader Hscheme).
  cbv zeta. rewrite (in_actions _ Hact), Hbasic.
  unfold challenged, scanned. cbn [_realm set_service set_authentication].
  rewrite Hrealm. split.
  - intros Hnonempty.
    destruct realm as [| c realm]; [contradiction Hnonempty; reflexivity |].
    cbn. eexists. split; [reflexivity |].
    cbn. rewrite Hbasic. repeat split.
  - intros ->. split; reflexivity.
Qed.

Lemma basic_challenge_with_realm_witness :
  (exists t,
     __init__
       (Scenario.env_of [Scenario.challenge ("basic realm=" ++ quoted "Registry")])
       Scenario.name Scenario.creds PUSH []
     = (Returns t, [ping_call (Scenario.env_of []) Scenario.name])
     /\ _authentication t = Some _BASIC
     /\ _creds t = Some Scenario.creds
     /\ _realm t = Some "Registry"
     /\ _service t = Some "registry.example")
  /\ __init__
       (Scenario.env_of [Scenario.challenge ("basic realm=" ++ quoted "")])
       Scenario.name Scenario.creds PUSH []
     = (Raises BadStateException, [ping_call (Scenario.env_of []) Scenario.name]).
Proof.
  split.
  - apply (proj1 (basic_challenge_with_realm
             (Scenario.env_of [Scenario.challenge ("basic realm=" ++ quoted "Registry")])
             Scenario.name Scenario.creds PUSH []
             (fst (Scenario.challenge ("basic realm=" ++ quoted "Registry")))
             (CBytes "") "basic" ("realm=" ++ quoted "Registry") "Registry"
             (or_intror (or_introl eq_refl)) eq_refl eq_refl eq_refl eq_refl
             eq_refl eq_refl)).
    discriminate.
  - apply (proj2 (basic_challenge_with_realm
             (Scenario.env_of [Scenario.challenge ("basic realm=" ++ quoted "")])
             Scenario.name Scenario.creds PUSH []
             (fst (Scenario.challenge ("basic realm=" ++ quoted "")))
             (CBytes "") "basic" ("realm=" ++ quoted "") ""
             (or_intror (or_introl eq_refl)) eq_refl eq_refl eq_refl eq_refl
             eq_refl eq_refl)).
    reflexivity.
Defined.

(** C5, as stated, fails: a Basic challenge whose realm is empty makes the
    constructor raise, and the service a Basic challenge names is
    recorded. *)
Lemma basic_challenge_counterexample :
  fst (__init__ (Scenario.env_of [Scenario.challenge ("Basic realm=" ++ quoted "")])
         Scenario.name Scenario.creds PULL [])
  = Raises BadStateException
  /\ exists t,
       fst (__init__
              (Scenario.env_of
                 [Scenario.challenge
                    ("Basic realm=" ++ quoted "r" ++ ",service=" ++ quoted "s")])
              Scenario.name Scenario.creds PULL [])
       = Returns t
       /\ _service t = Some "s".
Proof.
  split; [reflexivity |]. eexists. split; reflexivity.
Qed.

(** ** Letter case of the scheme *)

Lemma upper_of_lower (c : ascii) : Py.upper_char (Py.lower_char c) = Py.upper_char c.
Proof.
  destruct c as [[] [] [] [] [] [] [] []]; reflexivity.
Qed.

Lemma capitalize_of_lower (s1 s2 : string) :
  Py.lower s1 = Py.lower s2 -> Py.capitalize s1 = Py.capitalize s2.
Proof.
  destruct s1 as [| c1 s1], s2 as [| c2 s2]; simpl; intros H;
    try discriminate; [reflexivity |].
  injection H as Hc Hs.
  rewrite <- (upper_of_lower c1), <- (upper_of_lower c2), Hc, Hs. reflexivity.
Qed.

Lemma refresh_answering
  (env : Env) (n : nat) (answer : HttpResponse * Content) (t : Transport) (log : Log) :
  List.length log <> n ->
  _Refresh (answering env n answer) t log = _Refresh env t log.
Proof.
  intros Hn. unfold _Refresh, bind, self, attr, http.
  destruct (_service t) as [service |]; [| reflexivity].
  destruct (_realm t) as [realm |]; [| reflexivity].
  cbn [request answering].
  apply Nat.eqb_neq in Hn. rewrite Hn. reflexivity.
Qed.

(** C3.  Two answers to the ping, both with status 401, whose challenges
    have the same text after the scheme and schemes that differ in letter
    case only, give the same construction result: the same transport (mode,
    realm, service and credential) or the same exception, after the same
    calls.  The scheme is compared after capitalizing it. *)
Theorem scheme_case_is_ignored
  (env : Env) (name : Name) (creds : CredentialProvider) (action : string)
  (log : Log) (resp1 resp2 : HttpResponse) (content1 content2 : Content)
  (scheme1 scheme2 remainder : string) :
  status resp1 = UNAUTHORIZED ->
  status resp2 = UNAUTHORIZED ->
  header_get (headers resp1) "www-authenticate" = Some (scheme1 ++ " " ++ remainder) ->
  header_get (headers resp2) "www-authenticate" = Some (scheme2 ++ " " ++ remainder) ->
  Py.contains_char " " scheme1 = false ->
  Py.contains_char " " scheme2 = false ->
  Py.lower scheme1 = Py.lower scheme2 ->
  __init__ (answering env (List.length log) (resp1, content1)) name creds action log
  = __init__ (answering env (List.length log) (resp2, content2)) name creds action log
  /\ Py.capitalize scheme1 = Py.capitalize scheme2.
Proof.
  intros Hs1 Hs2 Hh1 Hh2 Hc1 Hc2 Hlower.
  pose proof (capitalize_of_lower _ _ Hlower) as Hcap.
  split; [| exact Hcap].
  assert (Hping : forall answer,
            request (answering env (List.length log) answer) log
              (ping_call (answering env (List.length log) answer) name)
            = answer).
  { intros answer. cbn [request answering]. rewrite Nat.eqb_refl. reflexivity. }
  rewrite (init_challenge _ name creds action log resp1 content1 scheme1 remainder
             (Hping _) Hs1 Hh1 Hc1).
  rewrite (init_challenge _ name creds action log resp2 content2 scheme2 remainder
             (Hping _) Hs2 Hh2 Hc2).
  cbv zeta. unfold challenged. rewrite Hcap.
  change (ping_call (answering env (List.length log) (resp1, content1)) name)
    with (ping_call env name).
  change (ping_call (answering env (List.length log) (resp2, content2)) name)
    with (ping_call env name).
  assert (Hlen : List.length (log ++ [ping_call env name])%list <> List.length log).
  { rewrite length_app. simpl. lia. }
  rewrite !(refresh_answering env _ _ _ _ Hlen).
  reflexivity.
Qed.

Lemma scheme_case_is_ignored_witness :
  __init__
    (answering (Scenario.env_of [Scenario.no_response;
                                 Scenario.answer 200 Scenario.token_body])
       0 (Scenario.challenge ("BEARER" ++ " " ++ Scenario.bearer_params)))
    Scenario.name Scenario.creds PULL []
  = __init__
      (answering (Scenario.env_of [Scenario.no_response;
                                   Scenario.answer 200 Scenario.token_body])
         0 (Scenario.challenge ("bearer" ++ " " ++ Scenario.bearer_params)))
      Scenario.name Scenario.creds PULL [].
Proof.
  apply (scheme_case_is_ignored
           (Scenario.env_of [Scenario.no_response;
                             Scenario.answer 200 Scenario.token_body])
           Scenario.name Scenario.creds PULL []
           (fst (Scenario.challenge ("BEARER" ++ " " ++ Scenario.bearer_params)))
           (fst (Scenario.challenge ("bearer" ++ " " ++ Scenario.bearer_params)))
           (CBytes "") (CBytes "") "BEARER" "bearer" Scenario.bearer_params);
    reflexivity.
Defined.

(** ** The retry of a request *)

(** A token exchange makes one call, and either raises and leaves the
    transport as it was, or installs a Bearer provider. *)
Lemma refresh_outcome
  (env : Env) (t : Transport) (log : Log) (realm service : string) :
  _realm t = Some realm ->
  _service t = Some service ->
  let log' := (log ++ [refresh_call env t realm service])%list in
  (exists e, _Refresh env t log = (Raises e, t, log'))
  \/ (exists token,
        _Refresh env t log = (Returns tt, set_creds (Bearer token) t, log')).
Proof.
  intros Hrealm Hservice. cbv zeta.
  unfold _Refresh, bind, self, attr, http.
  rewrite Hservice, Hrealm.
  destruct (request env log (refresh_call env t realm service)) as [resp content].
  destruct (negb (status resp =? OK)); [left; eexists; reflexivity |].
  unfold lift.
  destruct (json_loads (decoded content)) as [w | e]; [| left; eexists; reflexivity].
  destruct (value_get w "token") as [first | e]; [| left; eexists; reflexivity].
  assert (Hfinish : forall token,
            (exists e,
               match check_state (negb (is_none token)) t
                       (log ++ [refresh_call env t realm service])%list with
               | (Returns _, t', l') => assign (set_creds (Bearer token)) t' l'
               | (Raises e0, t', l') => (Raises e0, t', l')
               end = (Raises e, t, (log ++ [refresh_call env t realm service])%list))
            \/ (exists token',
                  match check_state (negb (is_none token)) t
                          (log ++ [refresh_call env t realm service])%list with
                  | (Returns _, t', l') => assign (set_creds (Bearer token)) t' l'
                  | (Raises e0, t', l') => (Raises e0, t', l')
                  end = (Returns tt, set_creds (Bearer token') t,
                         (log ++ [refresh_call env t realm service])%list))).
  { intros token. unfold check_state, lift, _CheckState, assign.
    destruct (negb (is_none token)).
    - right. exists token. reflexivity.
    - left. eexists. reflexivity. }
  destruct (truthy first); unfold ret.
  - apply Hfinish.
  - destruct (value_get w "access_token") as [token | e];
      [apply Hfinish | left; eexists; reflexivity].
Qed.

(** One turn of the loop of [Request]. *)
Lemma attempts_step
  (env : Env) (a : RequestArgs) (flag : bool) (flags : list bool)
  (last : option (HttpResponse * Content)) (t : Transport) (log : Log)
  (creds : CredentialProvider) :
  _creds t = Some creds ->
  attempts env a (flag :: flags) last t log
  = let call := attempt_call env a creds in
    let rc := request env log call in
    if flag && (status (fst rc) =? UNAUTHORIZED) then
      match _Refresh env t (log ++ [call])%list with
      | (Returns _, t', l') => attempts env a flags (Some rc) t' l'
      | (Raises e, t', l') => (Raises e, t', l')
      end
    else (Returns (Some rc), t, (log ++ [call])%list).
Proof.
  intros Hcreds. cbn [attempts]. unfold bind at 1 2, attr at 1, http at 1.
  rewrite Hcreds. cbv zeta.
  destruct (flag && (status (fst (request env log (attempt_call env a creds)))
                     =? UNAUTHORIZED)).
  - unfold bind.
    destruct (_Refresh env t (log ++ [attempt_call env a creds])%list)
      as [[[u | e] t'] l']; reflexivity.
  - reflexivity.
Qed.

(** C1, as the code has it.  A request makes one attempt and decides on its
    answer, unless the mode is Bearer and the answer has status 401.  In
    that case one token exchange follows.  When the exchange raises, its
    exception is the outcome and the request is not issued again.  When it
    succeeds, the request is issued once more, with the same URL, method and
    body and with the headers of the new credential, and the second answer
    decides, whatever its status: the calls are the first attempt, the
    exchange and the second attempt, and no other. *)
Theorem request_retries_once
  (env : Env) (a : RequestArgs) (t : Transport) (log : Log)
  (authentication : string) (creds : CredentialProvider)
  (resp1 : HttpResponse) (content1 : Content) :
  _authentication t = Some authentication ->
  _creds t = Some creds ->
  request env log (attempt_call env a creds) = (resp1, content1) ->
  let call1 := attempt_call env a creds in
  (authentication <> _BEARER \/ status resp1 <> UNAUTHORIZED ->
   Request env a t log
   = (accept a (resp1, content1), t, (log ++ [call1])%list))
  /\ (authentication = _BEARER ->
      status resp1 = UNAUTHORIZED ->
      forall realm service,
        _realm t = Some realm ->
        _service t = Some service ->
        let exchange := refresh_call env t realm service in
        let log2 := (log ++ [call1; exchange])%list in
        (exists e,
           _Refresh env t (log ++ [call1])%list = (Raises e, t, log2)
           /\ Request env a t log = (Raises e, t, log2))
        \/ (exists token,
              let t' := set_creds (Bearer token) t in
              let call2 := attempt_call env a (Bearer token) in
              _Refresh env t (log ++ [call1])%list = (Returns tt, t', log2)
              /\ Request env a t log
                 = (accept a (request env log2 call2), t', (log2 ++ [call2])%list)
              /\ call_url call2 = call_url call1
              /\ call_method call2 = call_method call1
              /\ call_body call2 = call_body call1)).
Proof.
  intros Hauth Hcreds Hcall. cbv zeta.
  assert (Hstart :
            Request env a t log
            = if String.eqb authentication _BEARER && (status resp1 =? UNAUTHORIZED)
              then
                match _Refresh env t (log ++ [attempt_call env a creds])%list with
                | (Returns _, t', l') =>
                    match attempts env a [false] (Some (resp1, content1)) t' l' with
                    | (Returns (Some rc), t'', l'') => (accept a rc, t'', l'')
                    | (Returns None, t'', l'') => (Raises AttributeError, t'', l'')
                    | (Raises e, t'', l'') => (Raises e, t'', l'')
                    end
                | (Raises e, t', l') => (Raises e, t', l')
                end
              else (accept a (resp1, content1), t,
                    (log ++ [attempt_call env a creds])%list)).
  { unfold Request, bind at 1 2, attr at 1. rewrite Hauth.
    rewrite (attempts_step env a _ _ None t log creds Hcreds).
    cbv zeta. rewrite Hcall. cbn [fst].
    destruct (String.eqb authentication _BEARER && (status resp1 =? UNAUTHORIZED)).
    - destruct (_Refresh env t (log ++ [attempt_call env a creds])%list)
        as [[[u | e] t'] l']; [| reflexivity].
      destruct (attempts env a [false] (Some (resp1, content1)) t' l')
        as [[[[rc |] | e] t''] l'']; reflexivity.
    - reflexivity. }
  split.
  - intros Hno. rewrite Hstart.
    destruct Hno as [Hmode | Hstatus].
    + apply String.eqb_neq in Hmode. rewrite Hmode. reflexivity.
    + apply Z.eqb_neq in Hstatus. rewrite Hstatus, andb_false_r. reflexivity.
  - intros Hmode Hstatus realm service Hrealm Hservice.
    rewrite Hstart, Hmode, Hstatus. cbn [andb String.eqb Z.eqb].
    replace (String.eqb _BEARER _BEARER && (UNAUTHORIZED =? UNAUTHORIZED)) with true
      by reflexivity.
    replace (log ++ [attempt_call env a creds; refresh_call env t realm service])%list
      with ((log ++ [attempt_call env a creds])
              ++ [refresh_call env t realm service])%list
      by (rewrite <- app_assoc; reflexivity).
    destruct (refresh_outcome env t (log ++ [attempt_call env a creds])%list
                realm service Hrealm Hservice) as [[e He] | [token Htoken]].
    + left. exists e. rewrite He. split; reflexivity.
    + right. exists token. rewrite Htoken.
      split; [reflexivity |]. split; [| repeat split].
      rewrite (attempts_step env a false [] (Some (resp1, content1))
                 (set_creds (Bearer token) t) _ (Bearer token) eq_refl).
      reflexivity.
Qed.

Lemma request_retries_once_witness :
  Request (Scenario.env_of [Scenario.answer 401 "expired";
                            Scenario.answer 200 Scenario.token_body;
                            Scenario.answer 401 "denied"])
    (Scenario.get "https://registry.example/v2/x/tags/list" (Some [200]))
    Scenario.bearer_transport []
  = (Raises (V2DiagnosticException (mkResponse 401 []) [UNKNOWN (CText "denied")]),
     Scenario.bearer_transport,
     [attempt_call (Scenario.env_of [])
        (Scenario.get "https://registry.example/v2/x/tags/list" (Some [200]))
        (Bearer (PStr "abc"));
      refresh_call (Scenario.env_of []) Scenario.bearer_transport
        "https://auth.example/token" "registry.example";
      attempt_call (Scenario.env_of [])
        (Scenario.get "https://registry.example/v2/x/tags/list" (Some [200]))
        (Bearer (PStr "abc"))]).
Proof.
  destruct (proj2 (request_retries_once
                     (Scenario.env_of [Scenario.answer 401 "expired";
                                       Scenario.answer 200 Scenario.token_body;
                                       Scenario.answer 401 "denied"])
                     (Scenario.get "https://registry.example/v2/x/tags/list" (Some [200]))
                     Scenario.bearer_transport [] "Bearer" (Bearer (PStr "abc"))
                     (mkResponse 401 []) (CBytes "expired")
                     eq_refl eq_refl eq_refl)
             eq_refl eq_refl "https://auth.example/token" "registry.example"
             eq_refl eq_refl)
    as [(e & He & _) | (token & Ht & Hr & _)].
  - vm_compute in He. discriminate He.
  - vm_compute in Ht. injection Ht as Ht. subst token.
    rewrite Hr. vm_compute. reflexivity.
Defined.

(** C1, as stated, fails.  In Bearer mode, with a first answer of status
    401 and a token exchange that is refused, the request is not issued
    again: the calls made are the one attempt and the exchange.  And when
    the exchange succeeds, the request issued again is not identical to the
    first: its Authorization header carries the new token. *)
Lemma request_retry_counterexample :
  let a := Scenario.get "https://registry.example/v2/x/tags/list" (Some [200]) in
  (let env := Scenario.env_of [Scenario.answer 401 "expired";
                               Scenario.answer 503 "busy"] in
   _authentication Scenario.bearer_transport = Some _BEARER
   /\ status (fst (request env [] (attempt_call env a (Bearer (PStr "abc")))))
      = UNAUTHORIZED
   /\ Request env a Scenario.bearer_transport []
      = (Raises TokenRefreshException, Scenario.bearer_transport,
         [attempt_call env a (Bearer (PStr "abc"));
          refresh_call env Scenario.bearer_transport
            "https://auth.example/token" "registry.example"]))
  /\ (let env := Scenario.env_of [Scenario.answer 401 "expired";
                                  Scenario.answer 200 Scenario.token_body;
                                  Scenario.answer 200 "tags"] in
      snd (Request env a Scenario.stale_transport [])
      = [attempt_call env a (Bearer (PStr "old"));
         refresh_call env Scenario.stale_transport
           "https://auth.example/token" "registry.example";
         attempt_call env a (Bearer (PStr "abc"))]
      /\ attempt_call env a (Bearer (PStr "old"))
         <> attempt_call env a (Bearer (PStr "abc"))).
Proof.
  cbv zeta. repeat split. discriminate.
Qed.

(** ** The link header *)




Lemma startswith_append (p s : string) :
  Py.startswith p (p ++ s) = true /\ Py.drop (String.length p) (p ++ s) = s.
Proof.
  induction p as [| x p [IH1 IH2]]; simpl; [split; reflexivity |].
  rewrite Ascii.eqb_refl, IH1, IH2. split; reflexivity.
Qed.

Lemma startswith_split (p s : string) :
  Py.startswith p s = true -> s = p ++ Py.drop (String.length p) s.
Proof.
  revert s. induction p as [| x p IH]; intros s H; [reflexivity |].
  destruct s as [| y s]; [discriminate |].
  simpl in H. apply andb_true_iff in H. destruct H as [Hx Hp].
  apply Ascii.eqb_eq in Hx. subst y. simpl. rewrite <- (IH s Hp). reflexivity.
Qed.

(** A greedy repetition that fails has tried every prefix in the class. *)
Lemma star_none {A} (cls : ascii -> bool) (s : string)
  (k : string -> string -> option A) :
  Re.star cls s k = None ->
  forall pre rest,
    s = pre ++ rest -> all_in cls pre = true -> k pre rest = None.
Proof.
  revert k. induction s as [| c s IH]; intros k H pre rest Hs Hall.
  - destruct pre; [| discriminate]. simpl in Hs. subst rest. exact H.
  - simpl in H. destruct pre as [| c' pre].
    + simpl in Hs. subst rest.
      destruct (cls c); [| exact H].
      destruct (Re.star cls s _); [discriminate | exact H].
    + simpl in Hs. injection Hs as <- Hs.
      simpl in Hall. apply andb_true_iff in Hall. destruct Hall as [Hc Hall].
      rewrite Hc in H.
      destruct (Re.star cls s (fun pre0 rest0 => k (String c pre0) rest0)) eqn:Hin;
        [discriminate |].
      exact (IH _ Hin pre rest Hs Hall).
Qed.

(** What a greedy repetition returns, and what it has tried before. *)
Lemma star_some {A} (cls : ascii -> bool) (s : string)
  (k : string -> string -> option A) (a : A) :
  Re.star cls s k = Some a ->
  exists pre rest,
    s = pre ++ rest /\ all_in cls pre = true /\ k pre rest = Some a
    /\ forall pre' rest',
         s = pre' ++ rest' -> all_in cls pre' = true ->
         (String.length pre < String.length pre')%nat ->
         k pre' rest' = None.
Proof.
  revert k. induction s as [| c s IH]; intros k H.
  - simpl in H. exists "", "". repeat split; try assumption.
    intros pre' rest' Hs _ Hlen. destruct pre'; [simpl in Hlen; lia | discriminate].
  - simpl in H. destruct (cls c) eqn:Hc.
    + destruct (Re.star cls s (fun pre rest => k (String c pre) rest)) as [b |] eqn:Hstar.
      * injection H as <-.
        destruct (IH _ Hstar) as (pre & rest & Hs & Hall & Hk & Hmax).
        exists (String c pre), rest. simpl. rewrite Hc, Hall, Hs.
        repeat split; try assumption.
        intros pre' rest' Hs' Hall' Hlen.
        destruct pre' as [| c' pre']; [simpl in Hlen; lia |].
        simpl in Hs'. injection Hs' as <- Hs'.
        simpl in Hall'. apply andb_true_iff in Hall'.
        apply (Hmax pre' rest'); [congruence | tauto | simpl in Hlen; lia].
      * exists "", (String c s). repeat split; try assumption.
        intros pre' rest' Hs' Hall' Hlen.
        destruct pre' as [| c' pre']; [simpl in Hlen; lia |].
        simpl in Hs'. injection Hs' as <- Hs'.
        simpl in Hall'. apply andb_true_iff in Hall'.
        exact (star_none cls s _ Hstar pre' rest' Hs' (proj2 Hall')).
    + exists "", (String c s). repeat split; try assumption.
      intros pre' rest' Hs' Hall' Hlen.
      destruct pre' as [| c' pre']; [simpl in Hlen; lia |].
      simpl in Hs'. injection Hs' as <- Hs'.
      simpl in Hall'. rewrite Hc in Hall'. discriminate.
Qed.

Lemma star_ext {A} (cls : ascii -> bool) (s : string)
  (k1 k2 : string -> string -> option A) :
  (forall pre rest, k1 pre rest = k2 pre rest) ->
  Re.star cls s k1 = Re.star cls s k2.
Proof.
  revert k1 k2. induction s as [| c s IH]; intros k1 k2 H; simpl.
  - apply H.
  - rewrite (IH (fun pre rest => k1 (String c pre) rest)
                (fun pre rest => k2 (String c pre) rest)), H;
      [reflexivity | intros; apply H].
Qed.

Lemma star_any {A} (cls : ascii -> bool) (s : string) (a : A) :
  Re.star cls s (fun _ _ => Some a) = Some a.
Proof.
  induction s as [| c s IH]; simpl; [reflexivity |].
  rewrite IH. destruct (cls c); reflexivity.
Qed.

Lemma upto_ext {A} (n : nat) (cls : N -> bool) (s : string)
  (k1 k2 : string -> string -> option A) :
  (forall pre rest, k1 pre rest = k2 pre rest) ->
  Re.upto n cls s k1 = Re.upto n cls s k2.
Proof.
  revert s k1 k2. induction n as [| n IH]; intros s k1 k2 H; cbn [Re.upto].
  - apply H.
  - destruct (Re.one cls s) as [[c rest] |]; [| apply H].
    rewrite (IH rest (fun pre rest' => k1 (c ++ pre) rest')
                (fun pre rest' => k2 (c ++ pre) rest')), H;
      [reflexivity | intros; apply H].
Qed.

(** A repetition followed by something that cannot start in the class
    takes all it can. *)
Lemma upto_skip {A} (n : nat) (cls : N -> bool) (s : string) (k : string -> option A) :
  (forall s' c rest, Re.one cls s' = Some (c, rest) -> k s' = None) ->
  Re.upto n cls s (fun _ rest => k rest) = k (skip n cls s).
Proof.
  intros Hk. revert s. induction n as [| n IH]; intros s; cbn [Re.upto skip];
    [reflexivity |].
  destruct (Re.one cls s) as [[c rest] |] eqn:Hone; [| reflexivity].
  rewrite IH. destruct (k (skip n cls rest)); [reflexivity |].
  exact (Hk s c rest Hone).
Qed.

(** The parameter rel=next does not start with white space. *)
Lemma rel_not_space (s c rest : string) :
  Re.one Re.space s = Some (c, rest) ->
  Py.startswith ("rel=" ++ quoted "next") s = false.
Proof.
  intros Hone. destruct s as [| x s]; [reflexivity |].
  cbn [Py.startswith quoted append].
  destruct (Ascii.eqb "r" x) eqn:Hr; [| reflexivity].
  apply Ascii.eqb_eq in Hr. subst x. discriminate Hone.
Qed.

Lemma link_match_unfold (link : string) :
  Re.re_match link_re link
  = Re.star Re.dot link (fun _ rest => from_bracket rest).
Proof.
  unfold Re.re_match, link_re. cbn [Re.rmatch].
  apply star_ext. intros pre rest.
  destruct rest as [| x [| y s]]; cbn [from_bracket].
  - reflexivity.
  - destruct (Ascii.eqb x "<"); reflexivity.
  - destruct (Ascii.eqb x "<"); [| reflexivity].
    destruct (Re.dot y); [| reflexivity]. cbn [andb].
    apply star_ext. intros url rest'. unfold after_group, next_tail, Re.many.
    destruct (Py.startswith ">;" rest'); [| reflexivity]. cbn [andb].
    rewrite (upto_ext _ Re.space _ _
               (fun _ rest0 =>
                  if Py.startswith ("rel=" ++ quoted "next") rest0
                  then Some (Some (String y url)) else None)).
    + rewrite (upto_skip _ Re.space _
                 (fun rest0 =>
                    if Py.startswith ("rel=" ++ quoted "next") rest0
                    then Some (Some (String y url)) else None)).
      * reflexivity.
      * intros s' c r Hone. rewrite (rel_not_space _ _ _ Hone). reflexivity.
    + intros pre0 rest0.
      destruct (Py.startswith ("rel=" ++ quoted "next") rest0); [| reflexivity].
      apply star_any.
Qed.

Lemma after_group_entry (url tail : string) :
  next_tail tail = true -> after_group url (">;" ++ tail) = Some (Some url).
Proof.
  intros H. unfold after_group.
  destruct (startswith_append ">;" tail) as [H1 _].
  rewrite H1. cbn [Py.drop append andb]. rewrite H. reflexivity.
Qed.


Lemma from_bracket_some (rest : string) (r : option string) :
  from_bracket rest = Some r ->
  exists url tail,
    r = Some url
    /\ rest = "<" ++ url ++ ">;" ++ tail
    /\ url <> "" /\ all_in Re.dot url = true /\ next_tail tail = true
    /\ forall url' tail',
         rest = "<" ++ url' ++ ">;" ++ tail' ->
         url' <> "" -> all_in Re.dot url' = true -> next_tail tail' = true ->
         (String.length url' <= String.length url)%nat.
Proof.
  intros H. destruct rest as [| x [| y s]]; try discriminate.
  cbn [from_bracket] in H.
  destruct (Ascii.eqb x "<") eqn:Hx; [| discriminate].
  destruct (Re.dot y) eqn:Hy; [| discriminate]. cbn [andb] in H.
  apply Ascii.eqb_eq in Hx. subst x.
  destruct (star_some Re.dot s _ r H) as (pre & rest' & Hs & Hall & Hk & Hmax).
  unfold after_group in Hk.
  destruct (Py.startswith ">;" rest') eqn:Hstart; [| discriminate].
  destruct (next_tail (Py.drop 2 rest')) eqn:Htail; [| discriminate].
  cbn [andb] in Hk. injection Hk as <-.
  exists (String y pre), (Py.drop 2 rest').
  split; [reflexivity |]. split.
  { rewrite Hs, (startswith_split _ _ Hstart) at 1. reflexivity. }
  split; [discriminate |]. split; [simpl; rewrite Hy, Hall; reflexivity |].
  split; [exact Htail |].
  intros url' tail' Hrest Hurl Hall' Htail'.
  destruct url' as [| y' u']; [contradiction Hurl; reflexivity |].
  simpl in Hrest. injection Hrest as <- Hrest.
  simpl in Hall'. apply andb_true_iff in Hall'. destruct Hall' as [_ Hall'].
  destruct (le_lt_dec (String.length u') (String.length pre)) as [Hle | Hlt];
    [simpl; lia |].
  pose proof (Hmax u' (">;" ++ tail') Hrest Hall' Hlt) as Hnone.
  cbv beta in Hnone. rewrite (after_group_entry _ _ Htail') in Hnone. discriminate.
Qed.


(** Case analysis on a prefix of a known text. *)
Ltac peel H x :=
  repeat (destruct x as [| ? x]; simpl in H;
          [try discriminate H
          | first [discriminate H | injection H as ? H; subst]]).



(** ** The examples of the specification *)

Example scheme_examples :
  Scheme "localhost:5000" = "http"
  /\ Scheme "registry.example.com" = "https"
  /\ Scheme "foo.local" = "http".
Proof. repeat split. Qed.

Example bearer_construction :
  __init__ (Scenario.env_of [Scenario.challenge Scenario.bearer_challenge;
                             Scenario.answer 200 Scenario.token_body])
    Scenario.name Scenario.creds PULL []
  = (Returns Scenario.bearer_transport,
     [ping_call (Scenario.env_of []) Scenario.name;
      refresh_call (Scenario.env_of []) Scenario.bearer_transport
        "https://auth.example/token" "registry.example"]).
Proof. reflexivity. Qed.

Example retry_then_success :
  let a := Scenario.get "https://registry.example/v2/x/tags/list" (Some [200]) in
  let env := Scenario.env_of [Scenario.answer 401 "expired";
                              Scenario.answer 200 Scenario.token_body;
                              Scenario.answer 200 "tags"] in
  Request env a Scenario.stale_transport []
  = (Returns (mkResponse 200 [], CBytes "tags"),
     set_creds (Bearer (PStr "abc")) Scenario.stale_transport,
     [attempt_call env a (Bearer (PStr "old"));
      refresh_call env Scenario.stale_transport
        "https://auth.example/token" "registry.example";
      attempt_call env a (Bearer (PStr "abc"))]).
Proof. reflexivity. Qed.

Example three_pages_in_order :
  let a := Scenario.get "https://registry.example/v2/_catalog" (Some [200]) in
  let '(yielded, state, _, log) :=
    PaginatedRequest (Scenario.env_of Scenario.three_pages) a 10
      Scenario.bearer_transport [] in
  yielded = Scenario.three_pages
  /\ state = Exhausted
  /\ map call_url log
     = ["https://registry.example/v2/_catalog";
        "https://registry.example/v2/_catalog?n=2";
        "https://registry.example/v2/_catalog?n=3"].
Proof. repeat split. Qed.

(** ** Text that is not ASCII *)

(** White space before rel=next is that of [\s] on a text: a no-break
    space (U+00A0) or an em space (U+2003) counts. *)
Example next_link_after_no_break_space :
  let nbsp := Utf8.encode 160 in
  let next := "rel=" ++ quoted "next" in
  ParseNextLinkHeader (Scenario.linked ("<u>;" ++ nbsp ++ next)) = Some "u"
  /\ ParseNextLinkHeader
       (Scenario.linked ("<a>;" ++ nbsp ++ next ++ ", <b>;" ++ Utf8.encode 8195 ++ next))
     = Some "b"
  /\ ParseNextLinkHeader (Scenario.linked ("<u>;" ++ Utf8.encode 8203 ++ next)) = None.
Proof. repeat split. Qed.

(** A port may be written in any decimal digits: here U+0663, the
    Arabic-Indic digit three. *)
Example port_in_other_digits :
  Scheme ("foo.local:" ++ Utf8.encode 1635) = "http"
  /\ Scheme ("foo.local:" ++ Utf8.encode 178) = "https".
Proof. repeat split. Qed.

(** A body that is not strict UTF-8 is still read as JSON when it decodes
    with surrogates let through, or as UTF-16: here a lone surrogate
    (ED A0 80) in a string of the body, and the body with two bytes for a
    character. *)
Example bodies_in_other_encodings :
  let lone := Codec.bytes [237; 160; 128]%N in
  _DiagnosticsFromContent
    (CBytes ("{" ++ quoted "errors" ++ ":[]," ++ quoted "x" ++ ":" ++ quoted lone ++ "}"))
  = Returns []
  /\ fst (fst (_Refresh
                 (Scenario.env_of
                    [Scenario.answer 200
                       ("{" ++ quoted "token" ++ ":" ++ quoted "t" ++ ","
                        ++ quoted "x" ++ ":" ++ quoted lone ++ "}")])
                 Scenario.stale_transport []))
     = Returns tt
  /\ json_loads (CBytes (Codec.bytes [91; 0; 49; 0; 93; 0]%N))
     = Returns (PList [PInt 1])
  /\ json_loads (CBytes (Codec.bytes [255]%N)) = Raises UnicodeDecodeError.
Proof. repeat split. Qed.

(** The generator, pull by pull: after as many pulls as there are pages it
    waits at its last [yield], and the pull after that ends it. *)
Example three_pages_pull_by_pull :
  let a := Scenario.get "https://registry.example/v2/_catalog" (Some [200]) in
  let run pulls :=
    fst (fst (PaginatedRequest (Scenario.env_of Scenario.three_pages) a pulls
                Scenario.bearer_transport [])) in
  run 0%nat = ([], Suspended)
  /\ run 3%nat = (Scenario.three_pages, Suspended)
  /\ run 4%nat = (Scenario.three_pages, Exhausted)
  /\ fst (fst (PaginatedRequest (Scenario.env_of []) (Scenario.get "" (Some [200]))
                 0 Scenario.bearer_transport []))
     = ([], Suspended)
  /\ fst (fst (PaginatedRequest (Scenario.env_of []) (Scenario.get "" (Some [200]))
                 1 Scenario.bearer_transport []))
     = ([], Exhausted).
Proof. repeat split. Qed.

(** * Further properties *)

(** ** The token exchange, in full *)

(** [_Refresh], written as one expression. *)
Lemma refresh_unfold (env : Env) (t : Transport) (log : Log) :
  _Refresh env t log
  = match _service t, _realm t with
    | Some service, Some realm =>
        let call := refresh_call env t realm service in
        let log' := (log ++ [call])%list in
        let (resp, content) := request env log call in
        if negb (status resp =? OK) then (Raises TokenRefreshException, t, log')
        else
          match json_loads (decoded content) with
          | Raises e => (Raises e, t, log')
          | Returns w =>
              match value_get w "token" with
              | Raises e => (Raises e, t, log')
              | Returns first =>
                  match (if truthy first then Returns first
                         else value_get w "access_token") with
                  | Raises e => (Raises e, t, log')
                  | Returns token =>
                      if is_none token then (Raises BadStateException, t, log')
                      else (Returns tt, set_creds (Bearer token) t, log')
                  end
              end
          end
    | _, _ => (Raises AttributeError, t, log)
    end.
Proof.
  unfold _Refresh, bind, self, attr, http.
  destruct (_service t) as [service |]; [| reflexivity].
  destruct (_realm t) as [realm |]; [| reflexivity].
  cbv zeta.
  destruct (request env log (refresh_call env t realm service)) as [resp content].
  destruct (negb (status resp =? OK)); [reflexivity |].
  unfold lift.
  destruct (json_loads (decoded content)) as [w | e]; [| reflexivity].
  destruct (value_get w "token") as [first | e]; [| reflexivity].
  destruct (truthy first); unfold ret.
  - unfold check_state, lift, _CheckState, assign.
    destruct (is_none first); reflexivity.
  - destruct (value_get w "access_token") as [token | e]; [| reflexivity].
    unfold check_state, lift, _CheckState, assign.
    destruct (is_none token); reflexivity.
Qed.

Lemma frame_refl (t : Transport) : frame t t.
Proof. unfold frame. tauto. Qed.

Lemma frame_trans (t1 t2 t3 : Transport) :
  frame t1 t2 -> frame t2 t3 -> frame t1 t3.
Proof.
  unfold frame.
  intros (A1 & A2 & A3 & A4 & A5 & A6 & A7) (B1 & B2 & B3 & B4 & B5 & B6 & B7).
  repeat split; try congruence.
  destruct B7 as [B7 | B7]; [| right; exact B7].
  destruct A7 as [A7 | A7]; [left; congruence | right].
  destruct A7 as (token & Hn & Hc). exists token. split; congruence.
Qed.

Lemma frame_set_creds (t : Transport) (token : value) :
  is_none token = false -> frame t (set_creds (Bearer token) t).
Proof.
  intros H. unfold frame. cbn. repeat split. right. exists token. tauto.
Qed.

(** What a token exchange leaves behind, whatever it meets. *)
Lemma refresh_frame
  (env : Env) (t t' : Transport) (log log' : Log) (r : result unit) :
  _Refresh env t log = (r, t', log') ->
  frame t t'
  /\ (forall e, r = Raises e -> t' = t)
  /\ exists calls, log' = (log ++ calls)%list /\ (List.length calls <= 1)%nat.
Proof.
  rewrite refresh_unfold. intros H.
  assert (Hquiet : forall e l, (r, t', log') = (Raises e, t, (log ++ l)%list) ->
                     (List.length l <= 1)%nat ->
                     frame t t'
                     /\ (forall e0, r = Raises e0 -> t' = t)
                     /\ exists calls, log' = (log ++ calls)%list
                                      /\ (List.length calls <= 1)%nat).
  { intros e l Heq Hl. injection Heq as -> -> ->.
    split; [apply frame_refl |]. split; [reflexivity |]. exists l. tauto. }
  destruct (_service t) as [service |];
    [| symmetry in H; eapply (Hquiet _ []); [rewrite app_nil_r; exact H | simpl; lia]].
  destruct (_realm t) as [realm |];
    [| symmetry in H; eapply (Hquiet _ []); [rewrite app_nil_r; exact H | simpl; lia]].
  cbv zeta in H.
  destruct (request env log (refresh_call env t realm service)) as [resp content].
  destruct (negb (status resp =? OK));
    [symmetry in H; apply (Hquiet _ _ H); simpl; lia |].
  destruct (json_loads (decoded content)) as [w | e];
    [| symmetry in H; apply (Hquiet _ _ H); simpl; lia].
  destruct (value_get w "token") as [first | e];
    [| symmetry in H; apply (Hquiet _ _ H); simpl; lia].
  destruct (if truthy first then Returns first else value_get w "access_token")
    as [token | e];
    [| symmetry in H; apply (Hquiet _ _ H); simpl; lia].
  destruct (is_none token) eqn:Hnone;
    [symmetry in H; apply (Hquiet _ _ H); simpl; lia |].
  injection H as <- <- <-.
  split; [apply frame_set_creds; exact Hnone |].
  split; [discriminate |]. eexists. split; [reflexivity | simpl; lia].
Qed.

(** What [json.loads] raises: the decoder's error, or that of the codec
    when the content is bytes that cannot be decoded. *)
Lemma json_loads_raises (content : Content) (e : Exception) :
  json_loads content = Raises e -> e = ValueError \/ e = UnicodeDecodeError.
Proof.
  unfold json_loads.
  destruct content as [b | s];
    [destruct (Codec.decode_detected b)
    | destruct (Py.startswith (Utf8.encode 65279) s)];
    try (destruct (Json.loads_text _)); intros H; try discriminate;
    injection H as <-; auto.
Qed.

(** X1.  In a token exchange answered with status 200 and a JSON object,
    the [token] field is taken when its value is true in the Python sense;
    otherwise the [access_token] field is taken, whenever it is present and
    not null, even when it is empty; otherwise the exchange raises
    [BadStateException] and installs nothing. *)
Theorem refresh_prefers_token
  (env : Env) (t : Transport) (log : Log) (realm service : string)
  (resp : HttpResponse) (content : Content) (d : list (string * value)) :
  _realm t = Some realm ->
  _service t = Some service ->
  request env log (refresh_call env t realm service) = (resp, content) ->
  status resp = OK ->
  json_loads (decoded content) = Returns (PDict d) ->
  let first := match dict_get d "token" with Some v => v | None => PNone end in
  let second := match dict_get d "access_token" with Some v => v | None => PNone end in
  let log' := (log ++ [refresh_call env t realm service])%list in
  (truthy first = true ->
   _Refresh env t log = (Returns tt, set_creds (Bearer first) t, log'))
  /\ (truthy first = false -> is_none second = false ->
      _Refresh env t log = (Returns tt, set_creds (Bearer second) t, log'))
  /\ (truthy first = false -> is_none second = true ->
      _Refresh env t log = (Raises BadStateException, t, log')).
Proof.
  intros Hrealm Hservice Hcall Hstatus Hloads. cbv zeta.
  rewrite refresh_unfold, Hservice, Hrealm. cbv zeta.
  rewrite Hcall, Hstatus, Hloads. cbn [negb Z.eqb OK value_get].
  replace (negb (200 =? 200)) with false by reflexivity.
  split; [| split].
  - intros Htruthy. rewrite Htruthy.
    destruct (match dict_get d "token" with Some v => v | None => PNone end);
      try discriminate; reflexivity.
  - intros Hfalsy Hnone. rewrite Hfalsy, Hnone. reflexivity.
  - intros Hfalsy Hnone. rewrite Hfalsy, Hnone. reflexivity.
Qed.

Lemma refresh_prefers_token_witness :
  _Refresh
    (Scenario.env_of
       [Scenario.answer 200
          ("{" ++ quoted "token" ++ ":" ++ quoted "" ++ ","
           ++ quoted "access_token" ++ ":" ++ quoted "xyz" ++ "}")])
    Scenario.bearer_transport []
  = (Returns tt, set_creds (Bearer (PStr "xyz")) Scenario.bearer_transport,
     [refresh_call (Scenario.env_of []) Scenario.bearer_transport
        "https://auth.example/token" "registry.example"]).
Proof.
  apply (proj1 (proj2 (refresh_prefers_token
           (Scenario.env_of
              [Scenario.answer 200
                 ("{" ++ quoted "token" ++ ":" ++ quoted "" ++ ","
                  ++ quoted "access_token" ++ ":" ++ quoted "xyz" ++ "}")])
           Scenario.bearer_transport [] "https://auth.example/token"
           "registry.example" (mkResponse 200 [])
           (CBytes ("{" ++ quoted "token" ++ ":" ++ quoted "" ++ ","
                    ++ quoted "access_token" ++ ":" ++ quoted "xyz" ++ "}"))
           [("token", PStr ""); ("access_token", PStr "xyz")]
           eq_refl eq_refl eq_refl eq_refl eq_refl)));
    reflexivity.
Defined.

(** X2.  A token exchange answered with status 200 and a body that
    [json.loads] refuses raises what [json.loads] raised, the [ValueError]
    of the decoder or, for bytes that cannot be decoded, the
    [UnicodeDecodeError] of the codec; one whose body is JSON but not an
    object raises [AttributeError].  None of these is a
    [BadStateException], and the transport is left as it was after the one
    call. *)
Theorem refresh_malformed_body
  (env : Env) (t : Transport) (log : Log) (realm service : string)
  (resp : HttpResponse) (content : Content) :
  _realm t = Some realm ->
  _service t = Some service ->
  request env log (refresh_call env t realm service) = (resp, content) ->
  status resp = OK ->
  let log' := (log ++ [refresh_call env t realm service])%list in
  (forall e, json_loads (decoded content) = Raises e ->
             _Refresh env t log = (Raises e, t, log')
             /\ (e = ValueError \/ e = UnicodeDecodeError)
             /\ is_BadStateException e = false)
  /\ (forall w, json_loads (decoded content) = Returns w ->
                (forall d, w <> PDict d) ->
                _Refresh env t log = (Raises AttributeError, t, log'))
  /\ is_BadStateException AttributeError = false.
Proof.
  intros Hrealm Hservice Hcall Hstatus. cbv zeta.
  rewrite refresh_unfold, Hservice, Hrealm. cbv zeta.
  rewrite Hcall, Hstatus.
  replace (negb (OK =? OK)) with false by reflexivity.
  split; [| split; [| reflexivity]].
  - intros e He. rewrite He. split; [reflexivity |].
    destruct (json_loads_raises _ _ He) as [-> | ->]; split; auto.
  - intros w Hw Hnot. rewrite Hw.
    destruct w; try reflexivity. contradiction (Hnot d eq_refl).
Qed.

Lemma refresh_malformed_body_witness :
  _Refresh (Scenario.env_of [Scenario.answer 200 "<html>"])
    Scenario.bearer_transport []
  = (Raises ValueError, Scenario.bearer_transport,
     [refresh_call (Scenario.env_of []) Scenario.bearer_transport
        "https://auth.example/token" "registry.example"])
  /\ _Refresh (Scenario.env_of [Scenario.answer 200 (Codec.bytes [255]%N)])
       Scenario.bearer_transport []
     = (Raises UnicodeDecodeError, Scenario.bearer_transport,
        [refresh_call (Scenario.env_of []) Scenario.bearer_transport
           "https://auth.example/token" "registry.example"])
  /\ _Refresh (Scenario.env_of [Scenario.answer 200 "[]"])
       Scenario.bearer_transport []
     = (Raises AttributeError, Scenario.bearer_transport,
        [refresh_call (Scenario.env_of []) Scenario.bearer_transport
           "https://auth.example/token" "registry.example"]).
Proof.
  split; [| split].
  - apply (proj1 (refresh_malformed_body
             (Scenario.env_of [Scenario.answer 200 "<html>"])
             Scenario.bearer_transport [] "https://auth.example/token"
             "registry.example" (mkResponse 200 []) (CBytes "<html>")
             eq_refl eq_refl eq_refl eq_refl) ValueError).
    reflexivity.
  - apply (proj1 (refresh_malformed_body
             (Scenario.env_of [Scenario.answer 200 (Codec.bytes [255]%N)])
             Scenario.bearer_transport [] "https://auth.example/token"
             "registry.example" (mkResponse 200 []) (CBytes (Codec.bytes [255]%N))
             eq_refl eq_refl eq_refl eq_refl) UnicodeDecodeError).
    reflexivity.
  - apply (proj1 (proj2 (refresh_malformed_body
             (Scenario.env_of [Scenario.answer 200 "[]"])
             Scenario.bearer_transport [] "https://auth.example/token"
             "registry.example" (mkResponse 200 []) (CBytes "[]")
             eq_refl eq_refl eq_refl eq_refl)) (PList [])).
    + reflexivity.
    + discriminate.
Defined.

(** X3.  A token exchange that returns has made exactly one call: a GET of
    the realm with the scope of the action and the service as its query,
    authorized by the credentials the caller supplied and not by the
    current token; the answer had status 200, and the one thing changed in
    the transport is the credential, now a Bearer provider whose token is
    not [None]. *)
Theorem refresh_exchanges_basic_credentials
  (env : Env) (t t' : Transport) (log log' : Log) (u : unit) :
  _Refresh env t log = (Returns u, t', log') ->
  exists realm service token,
    _realm t = Some realm
    /\ _service t = Some service
    /\ log' = (log ++ [exchange_call env (_name t) (_basic_creds t) (_action t)
                         realm service])%list
    /\ status (fst (request env log
                      (exchange_call env (_name t) (_basic_creds t) (_action t)
                         realm service))) = OK
    /\ is_none token = false
    /\ t' = set_creds (Bearer token) t.
Proof.
  rewrite refresh_unfold. intros H.
  destruct (_service t) as [service |]; [| discriminate].
  destruct (_realm t) as [realm |]; [| discriminate].
  cbv zeta in H.
  change (refresh_call env t realm service)
    with (exchange_call env (_name t) (_basic_creds t) (_action t) realm service) in H.
  destruct (request env log _) as [resp content] eqn:Hcall.
  destruct (status resp =? OK) eqn:Hstatus; [| discriminate].
  cbn [negb] in H.
  destruct (json_loads (decoded content)) as [w | e]; [| discriminate].
  destruct (value_get w "token") as [first | e]; [| discriminate].
  destruct (if truthy first then Returns first else value_get w "access_token")
    as [token | e]; [| discriminate].
  destruct (is_none token) eqn:Hnone; [discriminate |].
  injection H as _ <- <-.
  exists realm, service, token. rewrite Hcall.
  repeat split; try reflexivity; try assumption.
  apply Z.eqb_eq. exact Hstatus.
Qed.

Lemma refresh_exchanges_basic_credentials_witness :
  exists token,
    is_none token = false
    /\ set_creds (Bearer (PStr "abc")) Scenario.stale_transport
       = set_creds (Bearer token) Scenario.stale_transport.
Proof.
  destruct (refresh_exchanges_basic_credentials
              (Scenario.env_of [Scenario.answer 200 Scenario.token_body])
              Scenario.stale_transport
              (set_creds (Bearer (PStr "abc")) Scenario.stale_transport)
              []
              [refresh_call (Scenario.env_of []) Scenario.stale_transport
                 "https://auth.example/token" "registry.example"]
              tt eq_refl)
    as (realm & service & token & _ & _ & _ & _ & Hnone & Ht).
  exists token. split; assumption.
Defined.

(** ** Requests, in full *)

(** [Request], written as one expression. *)
Lemma request_unfold (env : Env) (a : RequestArgs) (t : Transport) (log : Log) :
  Request env a t log
  = match _authentication t, _creds t with
    | Some authentication, Some creds =>
        let call1 := attempt_call env a creds in
        let log1 := (log ++ [call1])%list in
        let rc1 := request env log call1 in
        if String.eqb authentication _BEARER && (status (fst rc1) =? UNAUTHORIZED)
        then
          match _Refresh env t log1 with
          | (Raises e, t', log2) => (Raises e, t', log2)
          | (Returns _, t', log2) =>
              match _creds t' with
              | None => (Raises AttributeError, t', log2)
              | Some creds' =>
                  let call2 := attempt_call env a creds' in
                  (accept a (request env log2 call2), t', (log2 ++ [call2])%list)
              end
          end
        else (accept a rc1, t, log1)
    | _, _ => (Raises AttributeError, t, log)
    end.
Proof.
  unfold Request, bind at 1 2, attr at 1.
  destruct (_authentication t) as [authentication |]; [| reflexivity].
  destruct (_creds t) as [creds |] eqn:Hcreds.
  - rewrite (attempts_step env a _ _ None t log creds Hcreds). cbv zeta.
    destruct (String.eqb authentication _BEARER
              && (status (fst (request env log (attempt_call env a creds)))
                  =? UNAUTHORIZED)); [| reflexivity].
    destruct (_Refresh env t (log ++ [attempt_call env a creds])%list)
      as [[[u | e] t'] log2]; [| reflexivity].
    destruct (_creds t') as [creds' |] eqn:Hcreds'.
    + rewrite (attempts_step env a false [] _ t' log2 creds' Hcreds'). reflexivity.
    + cbn [attempts]. unfold bind, attr. rewrite Hcreds'. reflexivity.
  - cbn [attempts]. unfold bind, attr. rewrite Hcreds. reflexivity.
Qed.

(** A request changes nothing but the credential and only adds calls. *)
Lemma request_effect
  (env : Env) (a : RequestArgs) (t t' : Transport) (log log' : Log)
  (r : result (HttpResponse * Content)) :
  Request env a t log = (r, t', log') ->
  frame t t'
  /\ exists calls, log' = (log ++ calls)%list /\ (List.length calls <= 3)%nat.
Proof.
  rewrite request_unfold. intros H.
  destruct (_authentication t) as [authentication |];
    [| injection H as _ <- <-; split;
       [apply frame_refl | exists []; rewrite app_nil_r; simpl; split; [reflexivity | lia]]].
  destruct (_creds t) as [creds |];
    [| injection H as _ <- <-; split;
       [apply frame_refl | exists []; rewrite app_nil_r; simpl; split; [reflexivity | lia]]].
  cbv zeta in H.
  destruct (String.eqb authentication _BEARER && _);
    [| injection H as _ <- <-; split;
       [apply frame_refl | eexists; split; [reflexivity | simpl; lia]]].
  destruct (_Refresh env t (log ++ [attempt_call env a creds])%list)
    as [[r2 t2] log2] eqn:Hrefresh.
  destruct (refresh_frame _ _ _ _ _ _ Hrefresh) as (Hframe & _ & calls & -> & Hlen).
  destruct r2 as [u | e].
  - destruct (_creds t2) as [creds' |]; injection H as _ <- <-;
      (split; [exact Hframe |]).
    + exists ([attempt_call env a creds] ++ calls ++ [attempt_call env a creds'])%list.
      rewrite <- !app_assoc. split; [reflexivity |].
      rewrite !length_app. simpl. lia.
    + exists ([attempt_call env a creds] ++ calls)%list.
      rewrite <- !app_assoc. split; [reflexivity |].
      rewrite !length_app. simpl. lia.
  - injection H as _ <- <-. split; [exact Hframe |].
    exists ([attempt_call env a creds] ++ calls)%list.
    rewrite <- !app_assoc. split; [reflexivity |].
    rewrite !length_app. simpl. lia.
Qed.

(** X4.  A request never changes the name, the action, the credentials of
    the caller, the mode, the realm or the service of a transport; it
    changes the current credential only to a Bearer provider whose token is
    not [None]; and it adds at most three calls to those made before.  In a
    mode other than Bearer it changes nothing and adds at most one call. *)
Theorem request_changes_only_credential
  (env : Env) (a : RequestArgs) (t t' : Transport) (log log' : Log)
  (r : result (HttpResponse * Content)) :
  Request env a t log = (r, t', log') ->
  frame t t'
  /\ (exists calls, log' = (log ++ calls)%list /\ (List.length calls <= 3)%nat)
  /\ (_authentication t <> Some _BEARER ->
      t' = t
      /\ exists calls, log' = (log ++ calls)%list /\ (List.length calls <= 1)%nat).
Proof.
  intros H. destruct (request_effect _ _ _ _ _ _ _ H) as [Hframe Hcalls].
  split; [exact Hframe |]. split; [exact Hcalls |].
  intros Hmode. rewrite request_unfold in H.
  destruct (_authentication t) as [authentication |];
    [| injection H as _ <- <-; split;
       [reflexivity | exists []; rewrite app_nil_r; simpl; split; [reflexivity | lia]]].
  destruct (_creds t) as [creds |];
    [| injection H as _ <- <-; split;
       [reflexivity | exists []; rewrite app_nil_r; simpl; split; [reflexivity | lia]]].
  cbv zeta in H.
  destruct (String.eqb authentication _BEARER) eqn:Hb.
  - apply String.eqb_eq in Hb. subst authentication. contradiction Hmode. reflexivity.
  - cbn [andb] in H. injection H as _ <- <-.
    split; [reflexivity |]. eexists. split; [reflexivity | simpl; lia].
Qed.

Lemma request_changes_only_credential_witness :
  frame Scenario.stale_transport
    (set_creds (Bearer (PStr "abc")) Scenario.stale_transport).
Proof.
  apply (request_changes_only_credential
           (Scenario.env_of [Scenario.answer 401 "expired";
                             Scenario.answer 200 Scenario.token_body;
                             Scenario.answer 200 "tags"])
           (Scenario.get "https://registry.example/v2/x/tags/list" (Some [200]))
           Scenario.stale_transport _ [] _ _ eq_refl).
Defined.

(** X5.  When a request returns, the status of what it returns is one of
    the accepted codes, and what it returns is, unchanged, the answer of the
    client to the last call made, which has the URL and the body of the
    request and its method (GET by default, PUT by default with a body). *)
Theorem request_returns_accepted
  (env : Env) (a : RequestArgs) (t t' : Transport) (log log' : Log)
  (resp : HttpResponse) (content : Content) :
  Request env a t log = (Returns (resp, content), t', log') ->
  (exists codes, accepted_codes a = Some codes /\ In (status resp) codes)
  /\ exists before call,
       log' = (before ++ [call])%list
       /\ request env before call = (resp, content)
       /\ call_url call = url a
       /\ call_body call = body a
       /\ call_method call = effective_method a.
Proof.
  rewrite request_unfold. intros H.
  assert (Haccept : forall rc,
            accept a rc = Returns (resp, content) ->
            rc = (resp, content)
            /\ exists codes, accepted_codes a = Some codes /\ In (status resp) codes).
  { intros rc Hrc. unfold accept in Hrc.
    destruct (accepted_codes a) as [codes |]; [| discriminate].
    destruct (existsb (Z.eqb (status (fst rc))) codes) eqn:Hin; [| discriminate].
    cbn [negb] in Hrc. injection Hrc as ->. split; [reflexivity |].
    exists codes. split; [reflexivity |].
    apply existsb_exists in Hin. destruct Hin as (x & Hx & Heq).
    apply Z.eqb_eq in Heq. cbn [fst] in Heq. rewrite Heq. exact Hx. }
  destruct (_authentication t) as [authentication |]; [| discriminate].
  destruct (_creds t) as [creds |]; [| discriminate].
  cbv zeta in H.
  destruct (String.eqb authentication _BEARER && _).
  - destruct (_Refresh env t (log ++ [attempt_call env a creds])%list)
      as [[[u | e] t2] log2]; [| discriminate].
    destruct (_creds t2) as [creds' |]; [| discriminate].
    injection H as Hacc <- <-.
    destruct (Haccept _ Hacc) as [Hrc Hcodes].
    split; [exact Hcodes |].
    exists log2, (attempt_call env a creds'). repeat split. exact Hrc.
  - injection H as Hacc <- <-.
    destruct (Haccept _ Hacc) as [Hrc Hcodes].
    split; [exact Hcodes |].
    exists log, (attempt_call env a creds). repeat split. exact Hrc.
Qed.

Lemma request_returns_accepted_witness :
  exists codes, Some [200; 404] = Some codes /\ In 404 codes.
Proof.
  apply (proj1 (request_returns_accepted
                  (Scenario.env_of [Scenario.answer 404 "none"])
                  (Scenario.get "https://registry.example/v2/x/manifests/y"
                     (Some [200; 404]))
                  Scenario.bearer_transport _ [] _ (mkResponse 404 [])
                  (CBytes "none") eq_refl)).
Defined.

(** ** Rejected requests and their diagnostics *)

Lemma format_diagnostics_dicts (l : list value) :
  format_diagnostics (map mkDiagnostic l)
  = if forallb is_dict l then Returns tt else Raises AttributeError.
Proof.
  induction l as [| v l IH]; [reflexivity |].
  cbn [map format_diagnostics forallb].
  unfold message, detail, value_get. cbn [_error].
  destruct v; cbn [is_dict andb]; try reflexivity. exact IH.
Qed.

(** X6.  A request whose last answer has a status outside the accepted
    codes raises, with that answer, and makes no further call.  The last
    answer is that of the first attempt when the mode is not Bearer or the
    status of that attempt is not 401; otherwise it is that of the second
    attempt, made with the credential of a token exchange that returned,
    whatever its status, 401 included.  What is raised is a
    [V2DiagnosticException] that carries the response and the diagnostics
    of the body: the single UNKNOWN diagnostic when [json.loads] refuses
    the body, the elements of the [errors] array when the body is an object
    and all of them are objects.  When some element of the array is not an
    object, building the exception fails and the request raises
    [AttributeError] instead. *)
Theorem request_rejection
  (env : Env) (a : RequestArgs) (t : Transport) (log : Log)
  (authentication : string) (creds : CredentialProvider)
  (resp1 : HttpResponse) (content1 : Content) (codes : list Z) :
  _authentication t = Some authentication ->
  _creds t = Some creds ->
  request env log (attempt_call env a creds) = (resp1, content1) ->
  accepted_codes a = Some codes ->
  let log1 := (log ++ [attempt_call env a creds])%list in
  (String.eqb authentication _BEARER && (status resp1 =? UNAUTHORIZED) = false ->
   ~ In (status resp1) codes ->
   Request env a t log
   = (Raises (raise_V2DiagnosticException resp1 content1), t, log1))
  /\ (forall u t2 log2 creds2 resp2 content2,
        String.eqb authentication _BEARER && (status resp1 =? UNAUTHORIZED) = true ->
        _Refresh env t log1 = (Returns u, t2, log2) ->
        _creds t2 = Some creds2 ->
        request env log2 (attempt_call env a creds2) = (resp2, content2) ->
        ~ In (status resp2) codes ->
        Request env a t log
        = (Raises (raise_V2DiagnosticException resp2 content2), t2,
           (log2 ++ [attempt_call env a creds2])%list))
  /\ (forall resp content,
        (forall e, json_loads (decoded content) = Raises e ->
           raise_V2DiagnosticException resp content
           = V2DiagnosticException resp [UNKNOWN (decoded content)])
        /\ (forall d l,
              json_loads (decoded content) = Returns (PDict d) ->
              dict_get d "errors" = Some (PList l) ->
              raise_V2DiagnosticException resp content
              = if forallb is_dict l
                then V2DiagnosticException resp (map mkDiagnostic l)
                else AttributeError)).
Proof.
  intros Hauth Hcreds Hcall Hcodes. cbv zeta.
  assert (Hreject : forall rc,
            ~ In (status (fst rc)) codes ->
            accept a rc = Raises (raise_V2DiagnosticException (fst rc) (snd rc))).
  { intros rc Hout. unfold accept. rewrite Hcodes.
    destruct (existsb (Z.eqb (status (fst rc))) codes) eqn:Hin; [| reflexivity].
    exfalso. apply Hout. apply existsb_exists in Hin.
    destruct Hin as (x & Hx & Heq). apply Z.eqb_eq in Heq. rewrite Heq. exact Hx. }
  split; [| split].
  - intros Hfinal Hout.
    rewrite request_unfold, Hauth, Hcreds. cbv zeta. rewrite Hcall.
    cbn [fst]. rewrite Hfinal.
    rewrite (Hreject (resp1, content1) Hout). reflexivity.
  - intros u t2 log2 creds2 resp2 content2 Hretry Hrefresh Hcreds2 Hcall2 Hout.
    rewrite request_unfold, Hauth, Hcreds. cbv zeta. rewrite Hcall.
    cbn [fst]. rewrite Hretry, Hrefresh, Hcreds2, Hcall2.
    rewrite (Hreject (resp2, content2) Hout). reflexivity.
  - intros resp content. split.
    + intros e He.
      unfold raise_V2DiagnosticException, _DiagnosticsFromContent, diagnostics_of.
      rewrite He. reflexivity.
    + intros d l Hloads Herrors.
      unfold raise_V2DiagnosticException, _DiagnosticsFromContent, diagnostics_of.
      rewrite Hloads, Herrors. cbn [iterate].
      rewrite format_diagnostics_dicts.
      destruct (forallb is_dict l); reflexivity.
Qed.

Lemma request_rejection_witness :
  Request (Scenario.env_of [Scenario.answer 403 Scenario.denied_body])
    (Scenario.get "https://registry.example/v2/x/tags/list" (Some [200]))
    Scenario.bearer_transport []
  = (Raises (raise_V2DiagnosticException (mkResponse 403 [])
               (CBytes Scenario.denied_body)),
     Scenario.bearer_transport,
     [attempt_call (Scenario.env_of [])
        (Scenario.get "https://registry.example/v2/x/tags/list" (Some [200]))
        (Bearer (PStr "abc"))])
  /\ Request (Scenario.env_of [Scenario.answer 401 "expired";
                               Scenario.answer 200 Scenario.token_body;
                               Scenario.answer 401 Scenario.denied_body])
       (Scenario.get "https://registry.example/v2/x/tags/list" (Some [200]))
       Scenario.stale_transport []
     = (Raises (raise_V2DiagnosticException (mkResponse 401 [])
                  (CBytes Scenario.denied_body)),
        set_creds (Bearer (PStr "abc")) Scenario.stale_transport,
        [attempt_call (Scenario.env_of [])
           (Scenario.get "https://registry.example/v2/x/tags/list" (Some [200]))
           (Bearer (PStr "old"));
         refresh_call (Scenario.env_of []) Scenario.stale_transport
           "https://auth.example/token" "registry.example";
         attempt_call (Scenario.env_of [])
           (Scenario.get "https://registry.example/v2/x/tags/list" (Some [200]))
           (Bearer (PStr "abc"))])
  /\ raise_V2DiagnosticException (mkResponse 401 []) (CBytes Scenario.denied_body)
     = V2DiagnosticException (mkResponse 401 []) [mkDiagnostic Scenario.denied].
Proof.
  split; [| split].
  - apply (proj1 (request_rejection
             (Scenario.env_of [Scenario.answer 403 Scenario.denied_body])
             (Scenario.get "https://registry.example/v2/x/tags/list" (Some [200]))
             Scenario.bearer_transport [] "Bearer" (Bearer (PStr "abc"))
             (mkResponse 403 []) (CBytes Scenario.denied_body) [200]
             eq_refl eq_refl eq_refl eq_refl));
      [reflexivity | intros [E | []]; discriminate E].
  - apply (proj1 (proj2 (request_rejection
             (Scenario.env_of [Scenario.answer 401 "expired";
                               Scenario.answer 200 Scenario.token_body;
                               Scenario.answer 401 Scenario.denied_body])
             (Scenario.get "https://registry.example/v2/x/tags/list" (Some [200]))
             Scenario.stale_transport [] "Bearer" (Bearer (PStr "old"))
             (mkResponse 401 []) (CBytes "expired") [200]
             eq_refl eq_refl eq_refl eq_refl))
             tt (set_creds (Bearer (PStr "abc")) Scenario.stale_transport)
             [attempt_call (Scenario.env_of [])
                (Scenario.get "https://registry.example/v2/x/tags/list" (Some [200]))
                (Bearer (PStr "old"));
              refresh_call (Scenario.env_of []) Scenario.stale_transport
                "https://auth.example/token" "registry.example"]
             (Bearer (PStr "abc")) (mkResponse 401 []) (CBytes Scenario.denied_body));
      [reflexivity | reflexivity | reflexivity | reflexivity
      | intros [E | []]; discriminate E].
  - apply (proj2 (proj2 (proj2 (request_rejection
             (Scenario.env_of [Scenario.answer 403 Scenario.denied_body])
             (Scenario.get "https://registry.example/v2/x/tags/list" (Some [200]))
             Scenario.bearer_transport [] "Bearer" (Bearer (PStr "abc"))
             (mkResponse 403 []) (CBytes Scenario.denied_body) [200]
             eq_refl eq_refl eq_refl eq_refl))
             (mkResponse 401 []) (CBytes Scenario.denied_body))
             [("errors", PList [Scenario.denied])] [Scenario.denied]);
      reflexivity.
Defined.

(** X7.  The diagnostics of a body that parses but is not an error report:
    an object without [errors] has none; a JSON value that is not an object
    gives the single UNKNOWN diagnostic, and so does an object whose
    [errors] cannot be iterated (null, a boolean, a number); an [errors]
    that is a text gives one diagnostic per character. *)
Theorem diagnostics_of_other_bodies (content : Content) (w : value) :
  json_loads (decoded content) = Returns w ->
  (is_dict w = false ->
   _DiagnosticsFromContent content = Returns [UNKNOWN (decoded content)])
  /\ forall d, w = PDict d ->
       (dict_get d "errors" = None -> _DiagnosticsFromContent content = Returns [])
       /\ (forall v e, dict_get d "errors" = Some v -> iterate v = Raises e ->
             _DiagnosticsFromContent content = Returns [UNKNOWN (decoded content)])
       /\ (forall s, dict_get d "errors" = Some (PStr s) ->
             _DiagnosticsFromContent content
             = Returns (map (fun c => mkDiagnostic (PStr c)) (chars s))).
Proof.
  intros Hloads. unfold _DiagnosticsFromContent, diagnostics_of. rewrite Hloads.
  split.
  - intros Hw. destruct w; try reflexivity. discriminate.
  - intros d ->. split; [| split].
    + intros ->. reflexivity.
    + intros v e -> ->. reflexivity.
    + intros s ->. cbn [iterate]. rewrite map_map. reflexivity.
Qed.

Lemma diagnostics_of_other_bodies_witness :
  _DiagnosticsFromContent (CBytes "{}") = Returns []
  /\ _DiagnosticsFromContent (CBytes "[1, 2]") = Returns [UNKNOWN (CText "[1, 2]")].
Proof.
  split.
  - apply (proj1 (proj2 (diagnostics_of_other_bodies (CBytes "{}") (PDict []) eq_refl)
                    [] eq_refl)).
    reflexivity.
  - apply (proj1 (diagnostics_of_other_bodies (CBytes "[1, 2]")
                    (PList [PInt 1; PInt 2]) eq_refl)).
    reflexivity.
Defined.

(** ** Construction, in full *)

Lemma in_strings_In (x : string) (l : list string) :
  Py.in_strings x l = true <-> In x l.
Proof.
  unfold Py.in_strings. rewrite existsb_exists. split.
  - intros (y & Hy & Heq). apply String.eqb_eq in Heq. subst y. exact Hy.
  - intros H. exists x. split; [exact H | apply String.eqb_refl].
Qed.

Lemma split_once_some (challenge : string) :
  Py.contains_char " " challenge = true ->
  exists scheme remainder,
    challenge = scheme ++ " " ++ remainder
    /\ Py.contains_char " " scheme = false.
Proof.
  induction challenge as [| c challenge IH]; [discriminate |].
  cbn [Py.contains_char]. destruct (Ascii.eqb c " ") eqn:Hc.
  - intros _. apply Ascii.eqb_eq in Hc. subst c.
    exists "", challenge. split; reflexivity.
  - cbn [orb]. intros H. destruct (IH H) as (scheme & remainder & -> & Hs).
    exists (String c scheme), remainder. split; [reflexivity |].
    cbn [Py.contains_char]. rewrite Hc, Hs. reflexivity.
Qed.

(** [_Ping], written as one expression. *)
Lemma ping_unfold (env : Env) (t : Transport) (log : Log) :
  _Ping env t log
  = let log' := (log ++ [ping_call env (_name t)])%list in
    let resp := fst (request env log (ping_call env (_name t))) in
    if status resp =? OK then
      (Returns tt,
       set_realm "none" (set_service "none" (set_authentication _ANONYMOUS t)), log')
    else if status resp =? UNAUTHORIZED then
      match header_get (headers resp) "www-authenticate" with
      | None => (Raises KeyError, t, log')
      | Some challenge =>
          if Py.contains_char " " challenge then
            match Py.split_once " " challenge with
            | None => (Raises ValueError, t, log')
            | Some (scheme, remainder) =>
                if Py.in_strings (Py.capitalize scheme) [_BASIC; _BEARER] then
                  let t' := challenged scheme remainder t in
                  match _realm t' with
                  | None => (Raises AttributeError, t', log')
                  | Some realm =>
                      if Py.nonempty realm then (Returns tt, t', log')
                      else (Raises BadStateException, t', log')
                  end
                else (Raises BadStateException,
                      set_authentication (Py.capitalize scheme) t, log')
            end
          else (Raises BadStateException, t, log')
      end
    else (Raises BadStateException, t, log').
Proof.
  cbv zeta.
  destruct (request env log (ping_call env (_name t))) as [resp content] eqn:Hcall.
  cbn [fst].
  destruct (status resp =? OK) eqn:Hok.
  - unfold _Ping, bind, self, http. rewrite Hcall. simpl. rewrite Hok. reflexivity.
  - destruct (status resp =? UNAUTHORIZED) eqn:Hun.
    + destruct (header_get (headers resp) "www-authenticate") as [challenge |] eqn:Hh.
      * destruct (Py.contains_char " " challenge) eqn:Hin.
        -- destruct (split_once_some _ Hin) as (scheme & remainder & -> & Hs).
           rewrite (proj2 (split_scheme scheme remainder Hs)).
           apply Z.eqb_eq in Hun.
           exact (ping_challenge env t log resp content scheme remainder
                    Hcall Hun Hh Hs).
        -- unfold _Ping, bind, self, http. rewrite Hcall. simpl.
           rewrite Hok, Hun. simpl. rewrite Hh. unfold _CheckState.
           rewrite Hin. reflexivity.
      * unfold _Ping, bind, self, http. rewrite Hcall. simpl.
        rewrite Hok, Hun. simpl. rewrite Hh. reflexivity.
    + unfold _Ping, bind, self, http. rewrite Hcall. simpl.
      rewrite Hok, Hun. reflexivity.
Qed.

(** The constructor, in terms of its ping. *)
Lemma init_unfold
  (env : Env) (name : Name) (creds : CredentialProvider) (action : string)
  (log : Log) :
  __init__ env name creds action log
  = if Py.in_strings action ACTIONS then
      match _Ping env (mkTransport name creds action None None None None) log with
      | (Raises e, _, log') => (Raises e, log')
      | (Returns _, t, log') =>
          match _authentication t with
          | None => (Raises AttributeError, log')
          | Some authentication =>
              if String.eqb authentication _BEARER then
                match _Refresh env t log' with
                | (Returns _, t', log'') => (Returns t', log'')
                | (Raises e, _, log'') => (Raises e, log'')
                end
              else if String.eqb authentication _BASIC
                   then (Returns (set_creds creds t), log')
                   else (Returns (set_creds Anonymous t), log')
          end
      end
    else (Raises BadStateException, log).
Proof.
  unfold __init__, bind, check_state, lift, _CheckState.
  destruct (Py.in_strings action ACTIONS); [| reflexivity].
  destruct (_Ping env _ log) as [[[u | e] t] log']; [| reflexivity].
  unfold attr. destruct (_authentication t) as [authentication |]; [| reflexivity].
  destruct (String.eqb authentication _BEARER).
  - destruct (_Refresh env t log') as [[[u' | e] t'] log'']; reflexivity.
  - destruct (String.eqb authentication _BASIC); reflexivity.
Qed.

(** X8.  An action outside the four known ones makes the constructor raise
    [BadStateException] before any call is made. *)
Theorem invalid_action_makes_no_call
  (env : Env) (name : Name) (creds : CredentialProvider) (action : string)
  (log : Log) :
  ~ In action ACTIONS ->
  __init__ env name creds action log = (Raises BadStateException, log).
Proof.
  intros Hout. rewrite init_unfold.
  destruct (Py.in_strings action ACTIONS) eqn:Hin; [| reflexivity].
  contradiction Hout. apply in_strings_In. exact Hin.
Qed.

Lemma invalid_action_makes_no_call_witness :
  __init__ (Scenario.env_of [Scenario.answer 200 ""]) Scenario.name Scenario.creds
    "push" []
  = (Raises BadStateException, []).
Proof.
  apply invalid_action_makes_no_call.
  intros H. apply in_strings_In in H. discriminate H.
Defined.

(** X9.  When the ping is answered with a status that is neither 200 nor
    401, the constructor raises [BadStateException]; the ping is the only
    call made. *)
Theorem unexpected_ping_status
  (env : Env) (name : Name) (creds : CredentialProvider) (action : string)
  (log : Log) :
  In action ACTIONS ->
  status (fst (request env log (ping_call env name))) <> OK ->
  status (fst (request env log (ping_call env name))) <> UNAUTHORIZED ->
  __init__ env name creds action log
  = (Raises BadStateException, (log ++ [ping_call env name])%list).
Proof.
  intros Hact Hok Hun. rewrite init_unfold, ping_unfold.
  rewrite (proj2 (in_strings_In _ _) Hact). cbv zeta. cbn [_name].
  apply Z.eqb_neq in Hok, Hun. rewrite Hok, Hun. reflexivity.
Qed.

Lemma unexpected_ping_status_witness :
  __init__ (Scenario.env_of [Scenario.answer 503 "busy"]) Scenario.name
    Scenario.creds PULL []
  = (Raises BadStateException, [ping_call (Scenario.env_of []) Scenario.name]).
Proof.
  apply (unexpected_ping_status (Scenario.env_of [Scenario.answer 503 "busy"])).
  - simpl. tauto.
  - discriminate.
  - discriminate.
Defined.

(** X10.  A ping answered with status 401 and a challenge the constructor
    cannot use: without a [www-authenticate] header it raises [KeyError];
    with a challenge that has no space, or whose scheme, capitalized, is
    neither Basic nor Bearer, it raises [BadStateException].  The ping is
    the only call made. *)
Theorem unusable_challenge
  (env : Env) (name : Name) (creds : CredentialProvider) (action : string)
  (log : Log) :
  In action ACTIONS ->
  status (fst (request env log (ping_call env name))) = UNAUTHORIZED ->
  let challenge :=
    header_get (headers (fst (request env log (ping_call env name))))
      "www-authenticate" in
  let log' := (log ++ [ping_call env name])%list in
  (challenge = None ->
   __init__ env name creds action log = (Raises KeyError, log'))
  /\ (forall text, challenge = Some text ->
        Py.contains_char " " text = false ->
        __init__ env name creds action log = (Raises BadStateException, log'))
  /\ (forall scheme remainder,
        challenge = Some (scheme ++ " " ++ remainder) ->
        Py.contains_char " " scheme = false ->
        Py.capitalize scheme <> _BASIC ->
        Py.capitalize scheme <> _BEARER ->
        __init__ env name creds action log = (Raises BadStateException, log')).
Proof.
  intros Hact Hun. cbv zeta.
  rewrite init_unfold, ping_unfold.
  rewrite (proj2 (in_strings_In _ _) Hact). cbv zeta. cbn [_name].
  rewrite Hun. replace (UNAUTHORIZED =? OK) with false by reflexivity.
  replace (UNAUTHORIZED =? UNAUTHORIZED) with true by reflexivity.
  split; [| split].
  - intros ->. reflexivity.
  - intros text -> Hin. rewrite Hin. reflexivity.
  - intros scheme remainder -> Hs Hbasic Hbearer.
    destruct (split_scheme scheme remainder Hs) as [Hin Hsplit].
    rewrite Hin, Hsplit.
    apply String.eqb_neq in Hbasic, Hbearer.
    unfold Py.in_strings. cbn [existsb]. rewrite Hbasic, Hbearer. reflexivity.
Qed.

Lemma unusable_challenge_witness :
  __init__ (Scenario.env_of [Scenario.challenge "Digest realm=x"]) Scenario.name
    Scenario.creds PULL []
  = (Raises BadStateException, [ping_call (Scenario.env_of []) Scenario.name]).
Proof.
  apply (proj2 (proj2 (unusable_challenge
                         (Scenario.env_of [Scenario.challenge "Digest realm=x"])
                         Scenario.name Scenario.creds PULL []
                         (or_introl eq_refl) eq_refl))
           "Digest" "realm=x");
    [reflexivity | reflexivity | discriminate | discriminate].
Defined.

Lemma challenge_param_some (pfx : string) (tokens : list string) (x : string) :
  exists y, challenge_param pfx tokens (Some x) = Some y.
Proof.
  revert x. induction tokens as [| tok tokens IH]; intros x.
  - exists x. reflexivity.
  - cbn [challenge_param]. destruct (Py.startswith pfx tok); apply IH.
Qed.

(** A token exchange that returns. *)
Lemma refresh_returns
  (env : Env) (t t' : Transport) (log log' : Log) (u : unit) :
  _Refresh env t log = (Returns u, t', log') ->
  exists realm service token,
    _realm t = Some realm
    /\ _service t = Some service
    /\ log' = (log ++ [exchange_call env (_name t) (_basic_creds t) (_action t)
                         realm service])%list
    /\ is_none token = false
    /\ t' = set_creds (Bearer token) t.
Proof.
  rewrite refresh_unfold. intros H.
  destruct (_service t) as [service |]; [| discriminate].
  destruct (_realm t) as [realm |]; [| discriminate].
  cbv zeta in H.
  change (refresh_call env t realm service)
    with (exchange_call env (_name t) (_basic_creds t) (_action t) realm service) in H.
  destruct (request env log _) as [resp content].
  destruct (negb (status resp =? OK)); [discriminate |].
  destruct (json_loads (decoded content)) as [w | e]; [| discriminate].
  destruct (value_get w "token") as [first | e]; [| discriminate].
  destruct (if truthy first then Returns first else value_get w "access_token")
    as [token | e]; [| discriminate].
  destruct (is_none token) eqn:Hnone; [discriminate |].
  injection H as _ <- <-.
  exists realm, service, token. repeat split; try reflexivity. exact Hnone.
Qed.

(** X11.  Whatever the registry answers, a transport that the constructor
    returns has a valid action, a mode among anonymous, Basic and Bearer, a
    realm that is not empty, a service and a credential: the anonymous
    provider in anonymous mode, the provider of the caller in Basic mode, a
    Bearer provider with a token that is not [None] in Bearer mode.  The
    constructor has then made the ping alone, or the ping and one token
    exchange. *)
Theorem constructor_returns_constructed
  (env : Env) (name : Name) (creds : CredentialProvider) (action : string)
  (log log' : Log) (t : Transport) :
  __init__ env name creds action log = (Returns t, log') ->
  constructed name creds action t
  /\ (log' = (log ++ [ping_call env name])%list
      \/ exists realm service,
           log' = (log ++ [ping_call env name;
                           exchange_call env name creds action realm service])%list).
Proof.
  rewrite init_unfold, ping_unfold.
  destruct (Py.in_strings action ACTIONS) eqn:Hact; [| discriminate].
  apply in_strings_In in Hact.
  cbv zeta. cbn [_name].
  destruct (status (fst (request env log (ping_call env name))) =? OK).
  { cbn. intros H. injection H as <- <-. split; [| left; reflexivity].
    unfold constructed. cbn. repeat split; try assumption.
    exists _ANONYMOUS, "none", "none", Anonymous.
    repeat split; try discriminate. left. repeat split. }
  destruct (status (fst (request env log (ping_call env name))) =? UNAUTHORIZED);
    [| discriminate].
  destruct (header_get _ "www-authenticate") as [challenge |]; [| discriminate].
  destruct (Py.contains_char " " challenge); [| discriminate].
  destruct (Py.split_once " " challenge) as [[scheme remainder] |]; [| discriminate].
  destruct (Py.in_strings (Py.capitalize scheme) [_BASIC; _BEARER]) eqn:Hmode;
    [| discriminate].
  destruct (_realm (challenged scheme remainder _)) as [realm |] eqn:Hrealm;
    [| discriminate].
  destruct (Py.nonempty realm) eqn:Hne; [| discriminate].
  destruct (challenge_param_some _SERVICE_PFX (Py.split "," remainder) (registry name))
    as [service Hservice].
  assert (Hrealm' : realm <> "") by (destruct realm; [discriminate | discriminate]).
  cbn [_authentication challenged scanned set_service set_authentication].
  destruct (String.eqb (Py.capitalize scheme) _BEARER) eqn:Hbearer.
  - apply String.eqb_eq in Hbearer.
    destruct (_Refresh env _ _) as [[[u | e] t'] log''] eqn:Hrefresh; [| discriminate].
    intros H. injection H as <- <-.
    destruct (refresh_returns _ _ _ _ _ _ Hrefresh)
      as (realm0 & service0 & token & _ & _ & Hlog & Hnone & Ht).
    subst t'. cbn in Hlog. split.
    + unfold constructed. cbn. repeat split; try assumption.
      exists (Py.capitalize scheme), realm, service, (Bearer token).
      cbn in Hrealm. rewrite Hrealm, Hservice.
      repeat split; try assumption.
      right. right. split; [exact Hbearer |]. exists token. tauto.
    + right. exists realm0, service0. rewrite Hlog, <- app_assoc. reflexivity.
  - destruct (String.eqb (Py.capitalize scheme) _BASIC) eqn:Hbasic.
    + apply String.eqb_eq in Hbasic.
      intros H. injection H as <- <-. split; [| left; reflexivity].
      unfold constructed. cbn. repeat split; try assumption.
      exists (Py.capitalize scheme), realm, service, creds.
      cbn in Hrealm. rewrite Hrealm, Hservice.
      repeat split; try assumption. right. left. tauto.
    + unfold Py.in_strings in Hmode. cbn [existsb] in Hmode.
      rewrite Hbasic, Hbearer in Hmode. discriminate.
Qed.

Lemma constructor_returns_constructed_witness :
  constructed Scenario.name Scenario.creds PULL Scenario.bearer_transport.
Proof.
  apply (constructor_returns_constructed
           (Scenario.env_of [Scenario.challenge Scenario.bearer_challenge;
                             Scenario.answer 200 Scenario.token_body])
           Scenario.name Scenario.creds PULL [] _ Scenario.bearer_transport
           eq_refl).
Defined.

(** X12.  Construction against a Bearer registry.  When the ping is
    answered with status 401 and a challenge whose scheme is Bearer in any
    letter case and whose pieces give a realm that is not empty, and the
    token exchange is answered with status 200 and a JSON object whose
    [token] is true in the Python sense, the constructor returns a transport
    in Bearer mode with that realm, the service of the challenge (the
    registry when it names none) and a Bearer provider of that token, after
    exactly two calls: the ping and the exchange, which goes to the realm
    with the scope of the action and the service as its query and the
    credentials of the caller as its authorization. *)
Theorem bearer_construction_succeeds
  (env : Env) (name : Name) (creds : CredentialProvider) (action : string)
  (log : Log) (resp resp2 : HttpResponse) (content content2 : Content)
  (scheme remainder realm service : string)
  (d : list (string * value)) (token : value) :
  In action ACTIONS ->
  request env log (ping_call env name) = (resp, content) ->
  status resp = UNAUTHORIZED ->
  header_get (headers resp) "www-authenticate" = Some (scheme ++ " " ++ remainder) ->
  Py.contains_char " " scheme = false ->
  Py.capitalize scheme = _BEARER ->
  challenge_param _REALM_PFX (Py.split "," remainder) None = Some realm ->
  realm <> "" ->
  challenge_param _SERVICE_PFX (Py.split "," remainder) (Some (registry name))
  = Some service ->
  request env (log ++ [ping_call env name])%list
    (exchange_call env name creds action realm service) = (resp2, content2) ->
  status resp2 = OK ->
  json_loads (decoded content2) = Returns (PDict d) ->
  dict_get d "token" = Some token ->
  truthy token = true ->
  exists t,
    __init__ env name creds action log
    = (Returns t,
       (log ++ [ping_call env name;
                exchange_call env name creds action realm service])%list)
    /\ _authentication t = Some _BEARER
    /\ _realm t = Some realm
    /\ _service t = Some service
    /\ _creds t = Some (Bearer token).
Proof.
  intros Hact Hping Hstatus Hheader Hscheme Hbearer Hrealm Hne Hservice
    Hcall Hok Hloads Htoken Htruthy.
  rewrite (init_challenge env name creds action log resp content scheme remainder
             Hping Hstatus Hheader Hscheme).
  cbv zeta. rewrite (proj2 (in_strings_In _ _) Hact), Hbearer.
  unfold challenged, scanned. cbn [_realm set_service set_authentication].
  rewrite Hrealm.
  destruct realm as [| c realm]; [contradiction Hne; reflexivity |].
  cbn [Py.nonempty Py.in_strings existsb String.eqb orb].
  replace (String.eqb _BEARER _BEARER) with true by reflexivity.
  replace (Py.in_strings _BEARER [_BASIC; _BEARER]) with true by reflexivity.
  rewrite refresh_unfold.
  cbn [_service _realm _name _basic_creds _action _authentication _creds
       set_service set_authentication].
  rewrite Hservice. cbv zeta.
  match goal with
  | |- context [request env ?l (refresh_call env ?t ?r ?s)] =>
      change (refresh_call env t r s)
        with (exchange_call env name creds action r s)
  end.
  rewrite Hcall, Hok, Hloads. cbn [value_get]. rewrite Htoken, Htruthy.
  replace (negb (OK =? OK)) with false by reflexivity.
  destruct token; try discriminate Htruthy; cbn [is_none];
    (eexists; split;
     [rewrite <- app_assoc; reflexivity | cbn; rewrite Hbearer; repeat split]).
Qed.

Lemma bearer_construction_succeeds_witness :
  exists t,
    __init__ (Scenario.env_of [Scenario.challenge ("bearer " ++ Scenario.bearer_params);
                               Scenario.answer 200 Scenario.token_body])
      Scenario.name Scenario.creds PULL []
    = (Returns t,
       [ping_call (Scenario.env_of []) Scenario.name;
        exchange_call (Scenario.env_of []) Scenario.name Scenario.creds PULL
          "https://auth.example/token" "registry.example"])
    /\ _authentication t = Some _BEARER
    /\ _realm t = Some "https://auth.example/token"
    /\ _service t = Some "registry.example"
    /\ _creds t = Some (Bearer (PStr "abc")).
Proof.
  apply (bearer_construction_succeeds
           (Scenario.env_of [Scenario.challenge ("bearer " ++ Scenario.bearer_params);
                             Scenario.answer 200 Scenario.token_body])
           Scenario.name Scenario.creds PULL []
           (fst (Scenario.challenge ("bearer " ++ Scenario.bearer_params)))
           (mkResponse 200 []) (CBytes "") (CBytes Scenario.token_body)
           "bearer" Scenario.bearer_params
           "https://auth.example/token" "registry.example"
           [("token", PStr "abc")] (PStr "abc"));
    try reflexivity.
  - simpl. tauto.
  - discriminate.
Defined.

(** ** The scheme of an endpoint *)

Lemma local_match_unfold (endpoint : string) :
  Re.re_match local_re endpoint
  = Re.star Re.dot endpoint
      (fun _ rest =>
         if Py.startswith ".local" rest
         then local_tail (Py.drop (String.length ".local") rest)
         else None).
Proof.
  unfold Re.re_match, local_re, local_tail. cbn [Re.rmatch].
  apply star_ext. intros pre rest. reflexivity.
Qed.

(** An ASCII digit is one character of the class [\d]. *)
Lemma one_digit (c : ascii) (r : string) :
  Py.is_digit c = true ->
  Re.one Re.digit (String c r) = Some (String c EmptyString, r).
Proof.
  destruct c as [[] [] [] [] [] [] [] []]; intros H;
    try discriminate H; reflexivity.
Qed.

(** A bounded repetition of [\d] takes a whole text of ASCII digits that
    fits. *)
Lemma upto_takes_all {A} (n : nat) (s tail : string)
  (k : string -> string -> option A) (a : A) :
  all_in Py.is_digit s = true ->
  (String.length s <= n)%nat ->
  (forall pre, k pre tail = Some a) ->
  Re.one Re.digit tail = None ->
  Re.upto n Re.digit (s ++ tail) k = Some a.
Proof.
  revert s k. induction n as [| n IH]; intros s k Hall Hlen Hk Htail.
  - destruct s; [| simpl in Hlen; lia]. simpl. apply Hk.
  - destruct s as [| c s].
    + cbn [append Re.upto]. rewrite Htail. apply Hk.
    + cbn [append Re.upto]. simpl in Hall. apply andb_true_iff in Hall.
      destruct Hall as [Hc Hall]. rewrite (one_digit c _ Hc).
      rewrite (IH s (fun pre rest => k (String c EmptyString ++ pre) rest) Hall);
        [reflexivity | simpl in Hlen; lia | intros; apply Hk | exact Htail].
Qed.

(** The end of the pattern of [Scheme], after an optional port. *)
Lemma port_and_end (digits : string) (nl : bool) :
  all_in Py.is_digit digits = true ->
  (1 <= String.length digits <= 5)%nat ->
  Re.rmatch
    (Re.ROpt (Re.RChar ":" +++ Re.RSet Re.digit +++ Re.RUpTo 4 Re.digit)
     +++ Re.REnd)
    (":" ++ digits ++ line_end nl) None (fun _ g _ => Some g)
  = Some None.
Proof.
  intros Hall Hlen.
  destruct digits as [| c digits]; [simpl in Hlen; lia |].
  simpl in Hall. apply andb_true_iff in Hall. destruct Hall as [Hc Hall].
  cbn [Re.rmatch append]. cbn [Ascii.eqb Bool.eqb]. rewrite (one_digit c _ Hc).
  rewrite (upto_takes_all 4 digits (line_end nl) _ None Hall).
  - reflexivity.
  - simpl in Hlen. lia.
  - intros pre. destruct nl; reflexivity.
  - destruct nl; reflexivity.
Qed.

Lemma local_tail_accepts (host : bool) (port : option string) (nl : bool) :
  (forall digits, port = Some digits ->
     all_in Py.is_digit digits = true
     /\ (1 <= String.length digits <= 5)%nat) ->
  local_tail ((if host then "host" else "")
              ++ match port with Some digits => ":" ++ digits | None => "" end
              ++ line_end nl)
  = Some None.
Proof.
  intros Hport. unfold local_tail.
  destruct host, port as [digits |].
  - destruct (Hport digits eq_refl) as [Hall Hlen].
    pose proof (port_and_end digits nl Hall Hlen) as H.
    cbn [Re.rmatch append Py.startswith Py.drop String.length
         Ascii.eqb Bool.eqb andb] in H |- *.
    rewrite H. reflexivity.
  - destruct nl; reflexivity.
  - destruct (Hport digits eq_refl) as [Hall Hlen].
    pose proof (port_and_end digits nl Hall Hlen) as H.
    cbn [Re.rmatch append Py.startswith Py.drop String.length
         Ascii.eqb Bool.eqb andb] in H |- *.
    exact H.
  - destruct nl; reflexivity.
Qed.

(** X13.  An endpoint that ends in [.local] or [.localhost], with or
    without a port of one to five digits (0 to 9) and a final line feed,
    has the scheme http, whatever stands before on the same line. *)
Theorem local_endpoint_is_http
  (name : string) (host : bool) (port : option string) (nl : bool) :
  all_in Re.dot name = true ->
  (forall digits, port = Some digits ->
     all_in Py.is_digit digits = true
     /\ (1 <= String.length digits <= 5)%nat) ->
  Scheme (name ++ local_suffix host port ++ line_end nl) = "http".
Proof.
  intros Hname Hport. unfold Scheme.
  destruct (Py.startswith "localhost:" _); [reflexivity |].
  destruct (Py.startswith "registry-docker-registry" _); [reflexivity |].
  destruct (Re.re_match local_re _) as [m |] eqn:Hmatch; [reflexivity |].
  exfalso. rewrite local_match_unfold in Hmatch.
  pose proof (star_none Re.dot _ _ Hmatch name
                (local_suffix host port ++ line_end nl) eq_refl Hname) as Hk.
  cbv beta in Hk.
  assert (Hshape : local_suffix host port ++ line_end nl
                   = ".local"
                     ++ ((if host then "host" else "")
                         ++ match port with
                            | Some digits => ":" ++ digits
                            | None => ""
                            end
                         ++ line_end nl)).
  { unfold local_suffix. cbn [append]. do 6 f_equal.
    destruct host, port as [digits |]; cbn [append]; try reflexivity;
      do 4 try f_equal;
      induction digits as [| c digits IH]; cbn [append]; try rewrite IH;
        reflexivity. }
  rewrite Hshape in Hk.
  destruct (startswith_append ".local"
              ((if host then "host" else "")
               ++ match port with Some digits => ":" ++ digits | None => "" end
               ++ line_end nl)) as [Hstart Hdrop].
  rewrite Hstart, Hdrop, (local_tail_accepts host port nl Hport) in Hk.
  discriminate.
Qed.

Lemma local_endpoint_is_http_witness :
  Scheme "registry.svc.cluster.localhost:5000" = "http".
Proof.
  apply (local_endpoint_is_http "registry.svc.cluster" true (Some "5000") false).
  - reflexivity.
  - intros digits H. injection H as <-. split; [reflexivity | simpl; lia].
Defined.

(** X14.  The scheme is http only for an endpoint that starts with
    [localhost:] or with [registry-docker-registry], or that contains
    [.local]; for every other endpoint it is https. *)
Theorem other_endpoint_is_https (endpoint : string) :
  Py.startswith "localhost:" endpoint = false ->
  Py.startswith "registry-docker-registry" endpoint = false ->
  (forall before after, endpoint <> before ++ ".local" ++ after) ->
  Scheme endpoint = "https".
Proof.
  intros H1 H2 Hnone. unfold Scheme. rewrite H1, H2.
  destruct (Re.re_match local_re endpoint) as [m |] eqn:Hmatch; [| reflexivity].
  exfalso. rewrite local_match_unfold in Hmatch.
  destruct (star_some Re.dot endpoint _ m Hmatch) as (pre & rest & He & _ & Hk & _).
  cbv beta in Hk.
  destruct (Py.startswith ".local" rest) eqn:Hstart; [| discriminate].
  apply (Hnone pre (Py.drop (String.length ".local") rest)).
  rewrite He at 1. rewrite (startswith_split _ _ Hstart) at 1. reflexivity.
Qed.

Lemma other_endpoint_is_https_witness : Scheme "localhost" = "https".
Proof.
  apply other_endpoint_is_https; [reflexivity | reflexivity |].
  intros before after H. peel H before.
Defined.

(** ** The next link and the pages *)

(** What [ParseNextLinkHeader] returns is an entry of the header. *)
Lemma next_link_sound (resp : HttpResponse) (url : string) :
  ParseNextLinkHeader resp = Some url ->
  exists link pre rest,
    header_get (headers resp) "link" = Some link
    /\ next_entry link pre url rest.
Proof.
  unfold ParseNextLinkHeader.
  destruct (header_get (headers resp) "link") as [link |]; [| discriminate].
  destruct (negb (Py.nonempty link)); [discriminate |].
  rewrite link_match_unfold.
  destruct (Re.star Re.dot link (fun _ rest => from_bracket rest)) as [m |] eqn:Hstar;
    [| discriminate].
  intros ->.
  destruct (star_some Re.dot link _ _ Hstar) as (pre & rest & Hl & Hall & Hk & _).
  destruct (from_bracket_some rest _ Hk)
    as (u & tail & Hu & Hrest & Hne & Hallu & Htail & _).
  injection Hu as <-.
  exists link, pre, tail. split; [reflexivity |].
  unfold next_entry. subst rest. tauto.
Qed.

(** X15.  The URL that [ParseNextLinkHeader] returns is never empty and
    never spans a line, and it stands in the [link] header between angle
    brackets, followed at once by a semicolon, optional white space and
    rel=next; so a page that names a next page always makes the loop of
    [PaginatedRequest] go on. *)
Theorem next_link_is_an_entry (resp : HttpResponse) (url : string) :
  ParseNextLinkHeader resp = Some url ->
  url <> ""
  /\ all_in Re.dot url = true
  /\ text_truthy (ParseNextLinkHeader resp) = true
  /\ exists link pre rest,
       header_get (headers resp) "link" = Some link
       /\ link = pre ++ "<" ++ url ++ ">;" ++ rest
       /\ next_tail rest = true.
Proof.
  intros H.
  destruct (next_link_sound resp url H)
    as (link & pre & rest & Hlink & Hl & _ & Hne & Hall & Htail).
  split; [exact Hne |]. split; [exact Hall |]. split.
  - rewrite H. destruct url; [contradiction Hne; reflexivity | reflexivity].
  - exists link, pre, rest. tauto.
Qed.

Lemma next_link_is_an_entry_witness :
  exists link pre rest,
    header_get
      (headers (Scenario.linked
                  ("<u>;" ++ Utf8.encode 160 ++ "rel=" ++ quoted "next")))
      "link" = Some link
    /\ link = pre ++ "<" ++ "u" ++ ">;" ++ rest
    /\ next_tail rest = true.
Proof.
  apply (next_link_is_an_entry
           (Scenario.linked ("<u>;" ++ Utf8.encode 160 ++ "rel=" ++ quoted "next"))
           "u" eq_refl).
Defined.

(** A request that returns has an accepted status. *)
Lemma request_returns_codes
  (env : Env) (a : RequestArgs) (t t' : Transport) (log log' : Log)
  (rc : HttpResponse * Content) :
  Request env a t log = (Returns rc, t', log') ->
  exists codes, accepted_codes a = Some codes /\ In (status (fst rc)) codes.
Proof.
  rewrite request_unfold. intros H.
  assert (Haccept : forall rc0,
            accept a rc0 = Returns rc ->
            exists codes, accepted_codes a = Some codes /\ In (status (fst rc)) codes).
  { intros rc0 Hrc. unfold accept in Hrc.
    destruct (accepted_codes a) as [codes |]; [| discriminate].
    destruct (existsb (Z.eqb (status (fst rc0))) codes) eqn:Hin; [| discriminate].
    cbn [negb] in Hrc. injection Hrc as ->.
    exists codes. split; [reflexivity |].
    apply existsb_exists in Hin. destruct Hin as (x & Hx & Heq).
    apply Z.eqb_eq in Heq. rewrite Heq. exact Hx. }
  destruct (_authentication t) as [authentication |]; [| discriminate].
  destruct (_creds t) as [creds |]; [| discriminate].
  cbv zeta in H.
  destruct (String.eqb authentication _BEARER && _).
  - destruct (_Refresh env t (log ++ [attempt_call env a creds])%list)
      as [[[u | e] t2] log2]; [| discriminate].
    destruct (_creds t2) as [creds' |]; [| discriminate].
    injection H as Hacc _ _. exact (Haccept _ Hacc).
  - injection H as Hacc _ _. exact (Haccept _ Hacc).
Qed.

(** The pages yielded from a given next page on. *)
Lemma pages_spec
  (env : Env) (a : RequestArgs) (pulls : nat) :
  forall (next : option string) (t t' : Transport) (log log' : Log)
         (ys : list (HttpResponse * Content)) (st : Paging),
    pages env a pulls next t log = (ys, st, t', log') ->
    (List.length ys <= pulls)%nat
    /\ Forall (accepted a) ys
    /\ chained ys
    /\ frame t t'
    /\ (exists calls, log' = (log ++ calls)%list)
    /\ (st = Suspended -> List.length ys = pulls)
    /\ (st = Exhausted ->
        (ys = [] /\ text_truthy next = false)
        \/ exists front page,
             ys = (front ++ [page])%list
             /\ ParseNextLinkHeader (fst page) = None)
    /\ (ys <> [] -> text_truthy next = true).
Proof.
  induction pulls as [| pulls IH]; intros next t t' log log' ys st H.
  - cbn [pages] in H. injection H as <- <- <- <-.
    split; [simpl; lia |]. split; [constructor |]. split; [exact I |].
    split; [apply frame_refl |].
    split; [exists []; rewrite app_nil_r; reflexivity |].
    split; [reflexivity |]. split; [discriminate |].
    intros Hne. contradiction Hne. reflexivity.
  - cbn [pages] in H. destruct (text_truthy next) eqn:Hnext; cbn [negb] in H.
    + destruct (Request env _ t log) as [[[rc | e] t1] log1] eqn:Hreq.
      * destruct (pages env a pulls (ParseNextLinkHeader (fst rc)) t1 log1)
          as [[[rest st1] t2] log2] eqn:Hrest.
        injection H as <- <- <- <-.
        destruct (IH _ _ _ _ _ _ _ Hrest)
          as (Hlen & Hacc & Hchain & Hframe & (calls2 & Hlog2) & Hsusp & Hexh & Hnonempty).
        destruct (request_effect _ _ _ _ _ _ _ Hreq) as (Hframe1 & calls1 & Hlog1 & _).
        destruct (request_returns_codes _ _ _ _ _ _ _ Hreq) as (codes & Hcodes & Hin).
        split; [simpl; lia |].
        split; [constructor; [exists codes; split; assumption | exact Hacc] |].
        split.
        { cbn [chained]. split; [| exact Hchain].
          destruct rest as [| page rest]; [exact I |].
          intros Hnone.
          assert (Htruthy : text_truthy (ParseNextLinkHeader (fst rc)) = true)
            by (apply Hnonempty; discriminate).
          rewrite Hnone in Htruthy. discriminate. }
        split; [exact (frame_trans _ _ _ Hframe1 Hframe) |].
        split; [exists (calls1 ++ calls2)%list; rewrite Hlog2, Hlog1, app_assoc;
                reflexivity |].
        split; [intros Hs; simpl; rewrite (Hsusp Hs); reflexivity |].
        split; [| intros _; reflexivity].
        intros He. right.
        destruct (Hexh He) as [[-> Hfalse] | (front & page & -> & Hnone)].
        -- exists [], rc. split; [reflexivity |].
           destruct (ParseNextLinkHeader (fst rc)) as [u |] eqn:Hp; [| reflexivity].
           destruct (next_link_sound _ _ Hp) as (_ & _ & _ & _ & _ & _ & Hne & _).
           destruct u; [contradiction Hne; reflexivity | discriminate].
        -- exists (rc :: front), page. split; [reflexivity | exact Hnone].
      * injection H as <- <- <- <-.
        destruct (request_effect _ _ _ _ _ _ _ Hreq) as (Hframe1 & calls1 & Hlog1 & _).
        split; [simpl; lia |]. split; [constructor |]. split; [exact I |].
        split; [exact Hframe1 |]. split; [exists calls1; exact Hlog1 |].
        split; [discriminate |]. split; [discriminate |].
        intros Hne. contradiction Hne. reflexivity.
    + injection H as <- <- <- <-.
      split; [simpl; lia |]. split; [constructor |]. split; [exact I |].
      split; [apply frame_refl |].
      split; [exists []; rewrite app_nil_r; reflexivity |].
      split; [discriminate |].
      split; [intros _; left; split; reflexivity |].
      intros Hne. contradiction Hne. reflexivity.
Qed.

(** X16.  The pages of a paginated request, for a consumer that asks for at
    most [pulls] of them: there are at most [pulls]; each has an accepted
    status; each but the last names a next page; when the generator is
    exhausted the last page names none (or the URL was empty and there is no
    page), and when it is left suspended exactly [pulls] pages were
    yielded.  The transport changes in its credential only, and calls are
    only added. *)
Theorem paginated_pages
  (env : Env) (a : RequestArgs) (pulls : nat) (t t' : Transport) (log log' : Log)
  (ys : list (HttpResponse * Content)) (st : Paging) :
  PaginatedRequest env a pulls t log = (ys, st, t', log') ->
  (List.length ys <= pulls)%nat
  /\ Forall (accepted a) ys
  /\ chained ys
  /\ frame t t'
  /\ (exists calls, log' = (log ++ calls)%list)
  /\ (st = Suspended -> List.length ys = pulls)
  /\ (st = Exhausted ->
      (ys = [] /\ Py.nonempty (url a) = false)
      \/ exists front page,
           ys = (front ++ [page])%list /\ ParseNextLinkHeader (fst page) = None).
Proof.
  unfold PaginatedRequest. intros H.
  destruct (pages_spec env a pulls _ _ _ _ _ _ _ H)
    as (H1 & H2 & H3 & H4 & H5 & H6 & H7 & _).
  split; [exact H1 |]. split; [exact H2 |]. split; [exact H3 |].
  split; [exact H4 |]. split; [exact H5 |]. split; [exact H6 |].
  exact H7.
Qed.

Lemma paginated_pages_witness :
  Forall (accepted (Scenario.get "https://registry.example/v2/_catalog" (Some [200])))
    Scenario.three_pages
  /\ chained Scenario.three_pages.
Proof.
  destruct (paginated_pages (Scenario.env_of Scenario.three_pages)
              (Scenario.get "https://registry.example/v2/_catalog" (Some [200]))
              10 Scenario.bearer_transport Scenario.bearer_transport [] _
              Scenario.three_pages Exhausted eq_refl)
    as (_ & Hacc & Hchain & _).
  split; assumption.
Defined.

(** X17.  A paginated request has no end of its own: against a registry
    every answer of which has an accepted status other than 401 and names a
    next page, a consumer that asks for [pulls] pages gets [pulls] pages,
    whatever [pulls] is, and the generator is never exhausted. *)
Theorem pagination_has_no_end_of_its_own
  (env : Env) (a : RequestArgs) (t : Transport) (log : Log)
  (authentication : string) (creds : CredentialProvider) (codes : list Z) :
  _authentication t = Some authentication ->
  _creds t = Some creds ->
  accepted_codes a = Some codes ->
  Py.nonempty (url a) = true ->
  (forall l c,
     In (status (fst (request env l c))) codes
     /\ status (fst (request env l c)) <> UNAUTHORIZED
     /\ ParseNextLinkHeader (fst (request env l c)) <> None) ->
  forall pulls,
  exists ys log',
    PaginatedRequest env a pulls t log = (ys, Suspended, t, log')
    /\ List.length ys = pulls.
Proof.
  intros Hauth Hcreds Hcodes Hurl Hall pulls. unfold PaginatedRequest.
  assert (Hgen : forall next l,
            text_truthy next = true ->
            exists ys log',
              pages env a pulls next t l = (ys, Suspended, t, log')
              /\ List.length ys = pulls).
  { induction pulls as [| pulls IH]; intros next l Hnext.
    - exists [], l. split; reflexivity.
    - cbn [pages]. rewrite Hnext. cbn [negb].
      rewrite request_unfold, Hauth, Hcreds. cbv zeta.
      set (call := attempt_call env _ creds).
      destruct (Hall l call) as (Hin & Hne401 & Hlink).
      apply Z.eqb_neq in Hne401. rewrite Hne401, andb_false_r.
      unfold accept. cbn [accepted_codes]. rewrite Hcodes.
      assert (Hex : existsb (Z.eqb (status (fst (request env l call)))) codes = true).
      { apply existsb_exists. eexists. split; [exact Hin | apply Z.eqb_refl]. }
      rewrite Hex. cbn [negb].
      destruct (ParseNextLinkHeader (fst (request env l call))) as [u |] eqn:Hp;
        [| contradiction Hlink; reflexivity].
      assert (Hu : text_truthy (Some u) = true).
      { destruct (next_link_sound _ _ Hp) as (_ & _ & _ & _ & _ & _ & Hne & _).
        destruct u; [contradiction Hne; reflexivity | reflexivity]. }
      destruct (IH (Some u) (l ++ [call])%list Hu) as (ys & log' & Hpages & Hlen).
      rewrite Hpages. exists (request env l call :: ys), log'.
      split; [reflexivity | simpl; rewrite Hlen; reflexivity]. }
  apply Hgen. exact Hurl.
Qed.

Lemma pagination_has_no_end_of_its_own_witness :
  exists ys log',
    PaginatedRequest Scenario.endless
      (Scenario.get "https://registry.example/v2/_catalog" (Some [200]))
      7 Scenario.bearer_transport []
    = (ys, Suspended, Scenario.bearer_transport, log')
    /\ List.length ys = 7%nat.
Proof.
  apply (pagination_has_no_end_of_its_own Scenario.endless
           (Scenario.get "https://registry.example/v2/_catalog" (Some [200]))
           Scenario.bearer_transport [] "Bearer" (Bearer (PStr "abc")) [200]);
    try reflexivity.
  intros l c. cbn. repeat split.
  - left. reflexivity.
  - discriminate.
  - discriminate.
Defined.

(** ** The pieces of a challenge *)

Lemma split_cons (sep : ascii) (s : string) :
  exists piece rest, Py.split sep s = piece :: rest.
Proof.
  induction s as [| c s (piece & rest & IH)].
  - exists "", []. reflexivity.
  - cbn [Py.split]. destruct (Ascii.eqb c sep); rewrite IH; eexists; eexists;
      reflexivity.
Qed.

Lemma split_append (sep : ascii) (a b : string) :
  Py.split sep (a ++ String sep b) = (Py.split sep a ++ Py.split sep b)%list.
Proof.
  induction a as [| c a IH].
  - cbn [append Py.split]. rewrite Ascii.eqb_refl. reflexivity.
  - cbn [append Py.split]. destruct (Ascii.eqb c sep).
    + rewrite IH. reflexivity.
    + rewrite IH. destruct (split_cons sep a) as (piece & rest & ->). reflexivity.
Qed.

Lemma split_whole (sep : ascii) (s : string) :
  Py.contains_char sep s = false -> Py.split sep s = [s].
Proof.
  induction s as [| c s IH]; [reflexivity |].
  cbn [Py.contains_char Py.split]. intros H.
  apply orb_false_iff in H. destruct H as [Hc Hs].
  rewrite Hc, (IH Hs). reflexivity.
Qed.

Lemma challenge_param_last
  (pfx : string) (before : list string) (piece : string) (found : option string) :
  challenge_param pfx (before ++ [piece]) found
  = if Py.startswith pfx piece
    then Some (Py.strip Json.dquote (Py.drop (String.length pfx) piece))
    else challenge_param pfx before found.
Proof.
  revert found. induction before as [| tok before IH]; intros found.
  - reflexivity.
  - cbn [app challenge_param]. apply IH.
Qed.

(** X18.  When a challenge names the realm more than once, the last
    [realm=] piece decides: a ping answered with status 401 and a Basic or
    Bearer challenge that ends in a comma and [realm=] with a value, the
    value free of commas and not empty once its quotes are taken off,
    returns with that value as the realm, whatever the pieces before it
    say. *)
Theorem last_realm_decides
  (env : Env) (t : Transport) (log : Log) (resp : HttpResponse) (content : Content)
  (scheme before value : string) :
  request env log (ping_call env (_name t)) = (resp, content) ->
  status resp = UNAUTHORIZED ->
  header_get (headers resp) "www-authenticate"
  = Some (scheme ++ " " ++ before ++ "," ++ _REALM_PFX ++ value) ->
  Py.contains_char " " scheme = false ->
  Py.in_strings (Py.capitalize scheme) [_BASIC; _BEARER] = true ->
  Py.contains_char "," value = false ->
  Py.strip Json.dquote value <> "" ->
  exists t',
    _Ping env t log = (Returns tt, t', (log ++ [ping_call env (_name t)])%list)
    /\ _realm t' = Some (Py.strip Json.dquote value)
    /\ _authentication t' = Some (Py.capitalize scheme).
Proof.
  intros Hcall Hstatus Hheader Hscheme Hmode Hvalue Hne.
  rewrite (ping_challenge env t log resp content scheme
             (before ++ "," ++ _REALM_PFX ++ value) Hcall Hstatus Hheader Hscheme).
  cbv zeta. rewrite Hmode.
  assert (Hrealm : _realm (challenged scheme (before ++ "," ++ _REALM_PFX ++ value) t)
                   = Some (Py.strip Json.dquote value)).
  { unfold challenged, scanned. cbn [_realm].
    change (before ++ "," ++ _REALM_PFX ++ value)
      with (before ++ String "," (_REALM_PFX ++ value)).
    rewrite split_append.
    rewrite (split_whole "," (_REALM_PFX ++ value)).
    - rewrite challenge_param_last.
      destruct (startswith_append _REALM_PFX value) as [Hs Hd].
      rewrite Hs, Hd. reflexivity.
    - exact Hvalue. }
  rewrite Hrealm.
  destruct (Py.strip Json.dquote value) as [| c v] eqn:Hstrip;
    [contradiction Hne; reflexivity |].
  cbn [Py.nonempty]. eexists. split; [reflexivity |].
  split; [rewrite Hrealm; reflexivity | reflexivity].
Qed.

Lemma last_realm_decides_witness :
  exists t',
    _Ping (Scenario.env_of
             [Scenario.challenge
                ("Bearer realm=" ++ quoted "https://old.example/token"
                 ++ "," ++ _REALM_PFX ++ quoted "https://auth.example/token")])
      (mkTransport Scenario.name Scenario.creds PULL None None None None) []
    = (Returns tt, t', [ping_call (Scenario.env_of []) Scenario.name])
    /\ _realm t' = Some "https://auth.example/token"
    /\ _authentication t' = Some "Bearer".
Proof.
  apply (last_realm_decides
           (Scenario.env_of
              [Scenario.challenge
                 ("Bearer realm=" ++ quoted "https://old.example/token"
                  ++ "," ++ _REALM_PFX ++ quoted "https://auth.example/token")])
           (mkTransport Scenario.name Scenario.creds PULL None None None None) []
           (fst (Scenario.challenge
                   ("Bearer realm=" ++ quoted "https://old.example/token"
                    ++ "," ++ _REALM_PFX ++ quoted "https://auth.example/token")))
           (CBytes "") "Bearer" ("realm=" ++ quoted "https://old.example/token")
           (quoted "https://auth.example/token"));
    try reflexivity.
  discriminate.
Defined.

(** X19.  The pieces of a challenge are not trimmed: when the realm is
    followed by a comma, a space and the service, the service piece starts
    with a space and is passed over, so the ping returns with the realm of
    the challenge but with the registry, not the service of the challenge,
    as the service. *)
Theorem service_after_space_is_dropped
  (env : Env) (t : Transport) (log : Log) (resp : HttpResponse) (content : Content)
  (scheme value service : string) :
  request env log (ping_call env (_name t)) = (resp, content) ->
  status resp = UNAUTHORIZED ->
  header_get (headers resp) "www-authenticate"
  = Some (scheme ++ " " ++ (_REALM_PFX ++ value) ++ ", " ++ _SERVICE_PFX ++ service) ->
  Py.contains_char " " scheme = false ->
  Py.in_strings (Py.capitalize scheme) [_BASIC; _BEARER] = true ->
  Py.contains_char "," value = false ->
  Py.contains_char "," service = false ->
  Py.strip Json.dquote value <> "" ->
  exists t',
    _Ping env t log = (Returns tt, t', (log ++ [ping_call env (_name t)])%list)
    /\ _realm t' = Some (Py.strip Json.dquote value)
    /\ _service t' = Some (registry (_name t)).
Proof.
  intros Hcall Hstatus Hheader Hscheme Hmode Hvalue Hservice Hne.
  rewrite (ping_challenge env t log resp content scheme
             ((_REALM_PFX ++ value) ++ ", " ++ _SERVICE_PFX ++ service)
             Hcall Hstatus Hheader Hscheme).
  cbv zeta. rewrite Hmode.
  assert (Hpieces : Py.split ","
                      ((_REALM_PFX ++ value) ++ ", " ++ _SERVICE_PFX ++ service)
                    = [_REALM_PFX ++ value; " " ++ _SERVICE_PFX ++ service]).
  { change ((_REALM_PFX ++ value) ++ ", " ++ _SERVICE_PFX ++ service)
      with ((_REALM_PFX ++ value) ++ String "," (" " ++ _SERVICE_PFX ++ service)).
    rewrite split_append.
    rewrite (split_whole "," (_REALM_PFX ++ value)),
            (split_whole "," (" " ++ _SERVICE_PFX ++ service)).
    - reflexivity.
    - cbn. exact Hservice.
    - cbn. exact Hvalue. }
  destruct (startswith_append _REALM_PFX value) as [Hs Hd].
  assert (Hrealm : _realm (challenged scheme
                             ((_REALM_PFX ++ value) ++ ", " ++ _SERVICE_PFX ++ service) t)
                   = Some (Py.strip Json.dquote value)).
  { unfold challenged, scanned. cbn [_realm]. rewrite Hpieces.
    cbn [challenge_param]. rewrite Hs, Hd. reflexivity. }
  assert (Hsvc : _service (challenged scheme
                             ((_REALM_PFX ++ value) ++ ", " ++ _SERVICE_PFX ++ service) t)
                 = Some (registry (_name t))).
  { unfold challenged, scanned. cbn [_service set_service]. rewrite Hpieces.
    cbn [challenge_param].
    rewrite (realm_is_not_service _ Hs). reflexivity. }
  rewrite Hrealm.
  destruct (Py.strip Json.dquote value) as [| c v] eqn:Hstrip;
    [contradiction Hne; reflexivity |].
  cbn [Py.nonempty]. eexists. split; [reflexivity |].
  split; [rewrite Hrealm; reflexivity | exact Hsvc].
Qed.

Lemma service_after_space_is_dropped_witness :
  exists t',
    _Ping (Scenario.env_of
             [Scenario.challenge
                ("Bearer " ++ (_REALM_PFX ++ quoted "https://auth.example/token")
                 ++ ", " ++ _SERVICE_PFX ++ quoted "token-service")])
      (mkTransport Scenario.name Scenario.creds PULL None None None None) []
    = (Returns tt, t', [ping_call (Scenario.env_of []) Scenario.name])
    /\ _realm t' = Some "https://auth.example/token"
    /\ _service t' = Some "registry.example".
Proof.
  apply (service_after_space_is_dropped
           (Scenario.env_of
              [Scenario.challenge
                 ("Bearer " ++ (_REALM_PFX ++ quoted "https://auth.example/token")
                  ++ ", " ++ _SERVICE_PFX ++ quoted "token-service")])
           (mkTransport Scenario.name Scenario.creds PULL None None None None) []
           (fst (Scenario.challenge
                   ("Bearer " ++ (_REALM_PFX ++ quoted "https://auth.example/token")
                    ++ ", " ++ _SERVICE_PFX ++ quoted "token-service")))
           (CBytes "") "Bearer" (quoted "https://auth.example/token")
           (quoted "token-service"));
    try reflexivity.
  discriminate.
Defined.

(** ** The headers of an attempt *)

(** X20.  The headers of an attempt, read as the dict they are: the user
    agent always; [Authorization] exactly when the credential yields a
    header that is not empty, so never for the anonymous provider;
    [content-type] exactly when there is a body, JSON unless the caller
    names another; [Accept] exactly when accepted types are given;
    [content-length], of value 0, exactly for a POST or PUT without a
    body.  No attempt carries both [content-type] and [content-length]. *)
Theorem attempt_headers_lookup
  (env : Env) (a : RequestArgs) (creds : CredentialProvider) :
  let h := attempt_headers env a creds in
  header_get h "user-agent" = Some (USER_AGENT env)
  /\ header_get h "Authorization"
     = (if Py.nonempty (Get env creds) then Some (Get env creds) else None)
  /\ header_get (attempt_headers env a Anonymous) "Authorization" = None
  /\ header_get h "content-type"
     = (if text_truthy (body a)
        then Some (if text_truthy (content_type a)
                   then match content_type a with Some c => c | None => "" end
                   else "application/json")
        else None)
  /\ header_get h "Accept" = option_map (Py.join ",") (accepted_mimes a)
  /\ header_get h "content-length"
     = (if Py.in_strings (effective_method a) ["POST"; "PUT"]
           && negb (text_truthy (body a))
        then Some "0" else None)
  /\ (header_get h "content-type" = None \/ header_get h "content-length" = None).
Proof.
  cbv zeta. unfold attempt_headers.
  destruct (Py.nonempty (Get env creds));
    destruct (text_truthy (body a));
    destruct (accepted_mimes a) as [mimes |];
    destruct (Py.in_strings (effective_method a) ["POST"; "PUT"]);
    cbn; repeat split; auto.
Qed.
